(** * skll.data.readers: a shallow embedding of the multi-format reader

    The development follows [skll/data/readers.py] (Python 3 branch of
    the [six] switches): [safe_float], the [Reader] base class with its
    two ingestion strategies, the format readers and the dispatch of
    [Reader.for_path].

    Conventions.
    - A Python [str] is a list of Unicode code points.
    - Exceptions are values of [exn]; a computation that may log a
      warning and may raise lives in the monad [M].
    - A generator is a finite stream [gen] of yields that ends normally
      or with an exception.
    - pandas, the file system and the vectorizers are outside the
      module: they are variables of the section [Readers]. *)

From Stdlib Require Import String Ascii ZArith NArith Bool Arith Lia.
From Stdlib Require Import DecimalString DecimalPos List.
Import ListNotations.

Set Implicit Arguments.

(* ================================================================== *)
(** * Python strings *)
(* ================================================================== *)

Definition char := N.
Definition str := list char.

(** [u "abc"] is the Python literal ['abc'] (ASCII literals only; other
    code points are written as numbers). *)
Definition u (lit : string) : str :=
  List.map N_of_ascii (list_ascii_of_string lit).

(** [ch "x"] is the code point of an ASCII character. *)
Definition ch (lit : string) : char := hd 0%N (u lit).

Fixpoint str_eqb (a b : str) : bool :=
  match a, b with
  | [], [] => true
  | x :: a', y :: b' => N.eqb x y && str_eqb a' b'
  | _, _ => false
  end.

(** [str.isspace] for one code point, the table of CPython's
    [_PyUnicode_IsWhitespace]; [str.strip], [str.split] and the regular
    expression class [\s] on [str] patterns all use it. *)
Definition isspace (c : char) : bool :=
  ((9 <=? c) && (c <=? 13) || (28 <=? c) && (c <=? 32)
   || (c =? 0x85) || (c =? 0xA0) || (c =? 0x1680)
   || (0x2000 <=? c) && (c <=? 0x200A)
   || (c =? 0x2028) || (c =? 0x2029) || (c =? 0x202F)
   || (c =? 0x205F) || (c =? 0x3000))%N.

Fixpoint drop_while (p : char -> bool) (s : str) : str :=
  match s with
  | [] => []
  | c :: s' => if p c then drop_while p s' else s
  end.

(** [span p s]: the longest prefix satisfying [p], and the rest. *)
Fixpoint span (p : char -> bool) (s : str) : str * str :=
  match s with
  | [] => ([], [])
  | c :: s' =>
      if p c then let (a, b) := span p s' in (c :: a, b) else ([], s)
  end.

Definition lstrip (s : str) : str := drop_while isspace s.
Definition rstrip (s : str) : str := rev (drop_while isspace (rev s)).
(** [s.strip()] *)
Definition strip (s : str) : str := rstrip (lstrip s).

(** [s.split()]: split on runs of whitespace, no empty pieces.
    [cur] is the piece being read, reversed. *)
Fixpoint split_from (cur : str) (s : str) : list str :=
  match s with
  | [] => match cur with [] => [] | _ => [rev cur] end
  | c :: s' =>
      if isspace c
      then match cur with
           | [] => split_from [] s'
           | _ => rev cur :: split_from [] s'
           end
      else split_from (c :: cur) s'
  end.
Definition split (s : str) : list str := split_from [] s.

(** [s.split(sep)] for a one-character separator: every occurrence
    splits, empty pieces are kept. *)
Fixpoint split_on_from (sep : char) (cur : str) (s : str) : list str :=
  match s with
  | [] => [rev cur]
  | c :: s' =>
      if N.eqb c sep
      then rev cur :: split_on_from sep [] s'
      else split_on_from sep (c :: cur) s'
  end.
Definition split_on (sep : char) (s : str) : list str :=
  split_on_from sep [] s.

(** [s.rsplit(sep, 1)]: split once, at the last occurrence. *)
Definition rsplit1 (sep : char) (s : str) : list str :=
  let (tail_rev, rest) := span (fun c => negb (N.eqb c sep)) (rev s) in
  match rest with
  | [] => [s]
  | _ :: head_rev => [rev head_rev; rev tail_rev]
  end.

(** [s.lower()] on the ASCII letters. Python also lowers cased letters
    outside ASCII; none of them lowers to a string made of the letters of
    the extensions of [EXT_TO_READER], so the dispatch is not affected. *)
Definition lower_char (c : char) : char :=
  if ((65 <=? c) && (c <=? 90))%N then (c + 32)%N else c.
Definition lower (s : str) : str := List.map lower_char s.

(** [s.replace(old, new)] for one-character [old] and [new]. *)
Definition replace (old new : char) (s : str) : str :=
  List.map (fun c => if N.eqb c old then new else c) s.

(** [s.startswith(c)] for a one-character prefix. *)
Definition startswith (c : char) (s : str) : bool :=
  match s with
  | x :: _ => N.eqb x c
  | [] => false
  end.

(** [sep.join(l)] *)
Fixpoint join (sep : str) (l : list str) : str :=
  match l with
  | [] => []
  | [a] => a
  | a :: l' => a ++ sep ++ join sep l'
  end.

(** [needle in s] on strings. *)
Fixpoint is_prefix (p s : str) : bool :=
  match p, s with
  | [], _ => true
  | x :: p', y :: s' => N.eqb x y && is_prefix p' s'
  | _ :: _, [] => false
  end.
Fixpoint contains (needle s : str) : bool :=
  is_prefix needle s
  || match s with
     | [] => false
     | _ :: s' => contains needle s'
     end.

(** [str(n)] for integers. *)
Definition str_of_Z (z : Z) : str := u (NilZero.string_of_int (Z.to_int z)).
Definition str_of_nat (n : nat) : str := str_of_Z (Z.of_nat n).

(* ================================================================== *)
(** * Python values *)
(* ================================================================== *)

(** A float is carried as the exact decimal value of its literal,
    [m * 10^e] with [m] not a multiple of 10 (zero is [FNum 0 0]), or
    as an infinity or a NaN. Rounding to binary64, overflow and the
    sign of zero are not modelled. *)
Inductive float : Type :=
| FNum (m e : Z)
| FInf (negative : bool)
| FNan.

Inductive pyval : Type :=
| PyNone
| PyBool (b : bool)
| PyInt (z : Z)
| PyFloat (f : float)
| PyStr (s : str)
| PyObject (text : str).   (* any other object, known by its [str()] *)

(** A [dict] with string keys, in insertion order. *)
Definition dict (V : Type) := list (str * V).

Fixpoint dict_get {V} (d : dict V) (k : str) : option V :=
  match d with
  | [] => None
  | (k', v) :: d' => if str_eqb k' k then Some v else dict_get d' k
  end.

(** [d[k] = v] *)
Fixpoint dict_set {V} (d : dict V) (k : str) (v : V) : dict V :=
  match d with
  | [] => [(k, v)]
  | (k', v') :: d' =>
      if str_eqb k' k then (k', v) :: d' else (k', v') :: dict_set d' k v
  end.

(** [dict(pairs)], [d.update(pairs)] *)
Definition dict_update {V} (d : dict V) (pairs : list (str * V)) : dict V :=
  fold_left (fun acc kv => dict_set acc (fst kv) (snd kv)) pairs d.
Definition dict_of {V} (pairs : list (str * V)) : dict V :=
  dict_update [] pairs.

Definition dict_mem {V} (d : dict V) (k : str) : bool :=
  match dict_get d k with Some _ => true | None => false end.

(** [d.pop(k, default)]: the value and the dictionary without the key. *)
Definition dict_del {V} (d : dict V) (k : str) : dict V :=
  filter (fun kv => negb (str_eqb (fst kv) k)) d.
Definition dict_pop {V} (d : dict V) (k : str) (default : V) : V * dict V :=
  (match dict_get d k with Some v => v | None => default end, dict_del d k).

(** A feature mapping: feature name to value. *)
Definition featdict := dict pyval.

(** What a record of an in-memory example list, or a cell of a data
    frame, can hold: a scalar or a mapping (the nested field [x]). *)
Inductive cell : Type :=
| Scalar (v : pyval)
| Mapping (d : featdict).

Definition record := dict cell.

(** The [path_or_list] argument of a reader. *)
Inductive source : Type :=
| Path (path : str)
| Records (l : list record).

(* ================================================================== *)
(** * Exceptions, logging, generators *)
(* ================================================================== *)

(** The [ValueError]s, by raise site. *)
Inductive value_error : Type :=
| UnsupportedFormat (message : str)           (* [Reader.for_path] *)
| EmptyInput (src : source)                   (* "No features found in possibly empty file" *)
| InvalidId (id : str) (src : source)         (* "You set ids_to_floats to true, but ID ..." *)
| DuplicateId (src : source)                  (* "The example IDs are not unique in ..." *)
| DuplicateFeature (src : source) (id : str)  (* "There are duplicate feature names in ..." *)
| MalformedLine (line : str)                  (* "Line does not look like valid libsvm format" *)
| Builtin.                                    (* raised by a builtin: int(), float(),
                                                 unpacking, dict(), list.index, astype *)

Inductive exn : Type :=
| ValueError (e : value_error)
| TypeError
| OverflowError
| KeyError (key : str)
| UnboundLocalError (name : str)
| AssertionError
| External (what : str).   (* raised by pandas, the file system or a vectorizer *)

Inductive result (A : Type) : Type :=
| Ok (a : A)
| Err (e : exn).
Arguments Ok {A} a.
Arguments Err {A} e.

(** Warnings logged so far, and the outcome. *)
Definition M (A : Type) : Type := list str * result A.

Definition ret {A} (a : A) : M A := ([], Ok a).
Definition raise {A} (e : exn) : M A := ([], Err e).
Definition warning (message : str) : M unit := ([message], Ok tt).
Definition lift {A} (r : result A) : M A := ([], r).

Definition bind {A B} (m : M A) (k : A -> M B) : M B :=
  match m with
  | (w, Ok a) => let (w', r) := k a in (w ++ w', r)
  | (w, Err e) => (w, Err e)
  end.

Declare Scope monad_scope.
Delimit Scope monad_scope with monad.
Notation "x <- m ;; k" := (bind m (fun x => k))
  (at level 61, m at next level, right associativity) : monad_scope.
Notation "' pat <- m ;; k" := (bind m (fun x => match x with pat => k end))
  (at level 61, pat pattern, m at next level, right associativity) : monad_scope.
Notation "m ;;; k" := (bind m (fun _ => k))
  (at level 61, right associativity) : monad_scope.
Open Scope monad_scope.

Fixpoint mapM {A B} (f : A -> M B) (l : list A) : M (list B) :=
  match l with
  | [] => ret []
  | a :: l' => b <- f a ;; bs <- mapM f l' ;; ret (b :: bs)
  end.

(** A generator run on a finite input: the warnings logged before each
    step, then a yield, the normal end, or an exception. *)
Inductive gen (A : Type) : Type :=
| Done (w : list str)
| Raise (w : list str) (e : exn)
| Yield (w : list str) (a : A) (rest : gen A).
Arguments Done {A} w.
Arguments Raise {A} w e.
Arguments Yield {A} w a rest.

(** Draining a generator to the end, as [list(g)] does. *)
Fixpoint drain {A} (g : gen A) : M (list A) :=
  match g with
  | Done w => (w, Ok [])
  | Raise w e => (w, Err e)
  | Yield w a rest => (w, Ok tt) ;;; l <- drain rest ;; ret (a :: l)
  end.

(** A step of a generator body: what an [M] computation yields. *)
Definition yield_then {A} (m : M A) (rest : A -> gen A) : gen A :=
  match m with
  | (w, Ok a) => Yield w a (rest a)
  | (w, Err e) => Raise w e
  end.

(* ================================================================== *)
(** * The builtins [int()], [float()] and [str()] *)
(* ================================================================== *)

Definition is_digit (c : char) : bool := ((48 <=? c) && (c <=? 57))%N.
Definition digit_val (c : char) : Z := Z.of_N (c - 48).
Definition digits_val (ds : list char) : Z :=
  fold_left (fun acc d => 10 * acc + digit_val d)%Z ds 0%Z.

(** [digitpart ::= digit (["_"] digit)*]; the digits, underscores
    removed. *)
Fixpoint digitpart (s : str) : option (list char) :=
  match s with
  | [] => None
  | c :: s' =>
      if is_digit c then
        match s' with
        | [] => Some [c]
        | x :: s'' =>
            if N.eqb x 95
            then option_map (cons c) (digitpart s'')
            else option_map (cons c) (digitpart s')
        end
      else None
  end.

Definition take_sign (s : str) : bool * str :=
  match s with
  | 45%N :: r => (true, r)
  | 43%N :: r => (false, r)
  | _ => (false, s)
  end.

(** The numeric parsers strip whitespace, but not the separators
    U+001C to U+001F, which [str.strip] does remove. *)
Definition isspace_numeric (c : char) : bool :=
  isspace c && negb ((28 <=? c) && (c <=? 31))%N.
Definition strip_numeric (s : str) : str :=
  rev (drop_while isspace_numeric (rev (drop_while isspace_numeric s))).

(** [int(s)] on a string, base 10; [None] is a [ValueError]. Decimal
    digits outside ASCII, which Python also reads, are not digits
    here. *)
Definition int_of_str (s : str) : option Z :=
  let (neg, r) := take_sign (strip_numeric s) in
  match digitpart r with
  | Some ds => Some (if neg then - digits_val ds else digits_val ds)%Z
  | None => None
  end.

Definition is_zero_digit (c : char) : bool := N.eqb c 48.

(** The float [± ds * 10^e], in normal form. *)
Definition mk_float (neg : bool) (ds : list char) (e : Z) : float :=
  let ds' := rev (drop_while is_zero_digit (rev ds)) in
  let m := digits_val ds' in
  if (m =? 0)%Z then FNum 0 0
  else FNum (if neg then - m else m)%Z
            (e + Z.of_nat (length ds - length ds'))%Z.

(** [number ::= [digitpart] "." digitpart | digitpart ["."]]: the
    integer and the fraction digits. *)
Definition number (s : str) : option (list char * list char) :=
  let (ip, rest) := span (fun c => negb (N.eqb c 46)) s in
  match rest with
  | [] => option_map (fun ds => (ds, [])) (digitpart ip)
  | _ :: fp =>
      match ip, fp with
      | [], [] => None
      | [], _ => option_map (fun fs => ([], fs)) (digitpart fp)
      | _, [] => option_map (fun ds => (ds, [])) (digitpart ip)
      | _, _ =>
          match digitpart ip, digitpart fp with
          | Some ds, Some fs => Some (ds, fs)
          | _, _ => None
          end
      end
  end.

Definition is_e (c : char) : bool := N.eqb c 101 || N.eqb c 69.

(** [float(s)] on a string; [None] is a [ValueError]. *)
Definition float_of_str (s : str) : option float :=
  let (neg, r) := take_sign (strip_numeric s) in
  let lr := lower r in
  if str_eqb lr (u "inf") || str_eqb lr (u "infinity") then Some (FInf neg)
  else if str_eqb lr (u "nan") then Some FNan
  else
    let (mant, ex) := span (fun c => negb (is_e c)) r in
    match number mant with
    | None => None
    | Some (ip, fp) =>
        match ex with
        | [] => Some (mk_float neg (ip ++ fp) (- Z.of_nat (length fp)))
        | _ :: ex' =>
            let (eneg, er) := take_sign ex' in
            match digitpart er with
            | Some eds =>
                let e := (if eneg then - digits_val eds else digits_val eds)%Z in
                Some (mk_float neg (ip ++ fp) (e - Z.of_nat (length fp)))
            | None => None
            end
        end
    end.

Definition float_of_Z (z : Z) : float :=
  mk_float (z <? 0)%Z (str_of_Z (Z.abs z)) 0.

(** [int(v)]. A finite float is truncated at its exact value. An object
    of another class is taken to have no conversion to a number, so
    that [int] and [float] raise [TypeError] on it as they do on the
    null value; the objects that have one ([bytes], the classes with
    [__int__] or [__float__]) are not values of this model. *)
Definition py_int (v : pyval) : result Z :=
  match v with
  | PyStr s =>
      match int_of_str s with
      | Some z => Ok z
      | None => Err (ValueError Builtin)
      end
  | PyInt z => Ok z
  | PyBool b => Ok (if b then 1 else 0)%Z
  | PyFloat (FNum m e) =>
      Ok (if (0 <=? e)%Z then m * 10 ^ e else Z.quot m (10 ^ (- e)))%Z
  | PyFloat (FInf _) => Err OverflowError
  | PyFloat FNan => Err (ValueError Builtin)
  | PyNone | PyObject _ => Err TypeError
  end.

(** [float(v)] *)
Definition py_float (v : pyval) : result float :=
  match v with
  | PyStr s =>
      match float_of_str s with
      | Some f => Ok f
      | None => Err (ValueError Builtin)
      end
  | PyInt z => Ok (float_of_Z z)
  | PyBool b => Ok (float_of_Z (if b then 1 else 0))
  | PyFloat f => Ok f
  | PyNone | PyObject _ => Err TypeError
  end.

Definition zeros (n : nat) : str := repeat 48%N n.

(** [repr(f)]: positional notation when the decimal point falls within
    [-4 < decpt <= 16], exponent notation otherwise. *)
Definition float_repr (f : float) : str :=
  match f with
  | FNan => u "nan"
  | FInf neg => if neg then u "-inf" else u "inf"
  | FNum m e =>
      if (m =? 0)%Z then u "0.0" else
      let ds := str_of_Z (Z.abs m) in
      let n := Z.of_nat (length ds) in
      let decpt := (n + e)%Z in
      let body :=
        if ((16 <? decpt) || (decpt <? -3))%Z then
          let x := (decpt - 1)%Z in
          let xs := str_of_Z (Z.abs x) in
          firstn 1 ds
          ++ (match skipn 1 ds with [] => [] | fr => 46%N :: fr end)
          ++ u "e" ++ (if (x <? 0)%Z then u "-" else u "+")
          ++ (match xs with [_] => 48%N :: xs | _ => xs end)
        else if (decpt <=? 0)%Z then
          u "0." ++ zeros (Z.to_nat (- decpt)) ++ ds
        else if (n <=? decpt)%Z then
          ds ++ zeros (Z.to_nat (decpt - n)) ++ u ".0"
        else
          firstn (Z.to_nat decpt) ds ++ 46%N :: skipn (Z.to_nat decpt) ds
      in
      if (m <? 0)%Z then 45%N :: body else body
  end.

(** [text_type(v)], that is [str(v)]. *)
Definition text_type (v : pyval) : str :=
  match v with
  | PyNone => u "None"
  | PyBool b => if b then u "True" else u "False"
  | PyInt z => str_of_Z z
  | PyFloat f => float_repr f
  | PyStr s => s
  | PyObject text => text
  end.

(* ================================================================== *)
(** * [safe_float] *)
(* ================================================================== *)

Definition not_in_replace_dict (text : str) : str :=
  u "Encountered value that was not in replacement dictionary (e.g., class_map): "
  ++ text.

(** The [try] block of [safe_float]: [int], then [float], then the
    value itself. A [TypeError] of [int] gives [0], one of [float]
    gives [0.0]; any other exception propagates. *)
Definition numeric_coercion (text : pyval) : M pyval :=
  match py_int text with
  | Ok z => ret (PyInt z)
  | Err (ValueError _) =>
      match py_float text with
      | Ok f => ret (PyFloat f)
      | Err (ValueError _) => ret text
      | Err TypeError => ret (PyFloat (FNum 0 0))
      | Err e => raise e
      end
  | Err TypeError => ret (PyInt 0)
  | Err e => raise e
  end.

(** [safe_float(text, replace_dict=None)] *)
Definition safe_float (text : pyval) (replace_dict : option (dict pyval))
  : M pyval :=
  let text := text_type text in
  text <- match replace_dict with
          | Some d =>
              match dict_get d text with
              | Some v => ret v
              | None => warning (not_in_replace_dict text) ;;; ret (PyStr text)
              end
          | None => ret (PyStr text)
          end ;;
  numeric_coercion text.

(** What [safe_float] makes of a text: the integer it reads as, else
    the float it reads as, else the text. *)
Definition coerce_text (s : str) : pyval :=
  match int_of_str s with
  | Some z => PyInt z
  | None =>
      match float_of_str s with
      | Some f => PyFloat f
      | None => PyStr s
      end
  end.



(* ================================================================== *)
(** * Readers: configuration and construction *)
(* ================================================================== *)

Inductive reader_class : Type :=
| ARFFReader | CSVReader | NDJReader | LibSVMReader | MegaMReader
| TSVReader | DictListReader.

Inductive vectorizer_kind : Type :=
| FeatureHasher (n_features : option nat)
| DictVectorizer (sparse : bool).

(** The keyword arguments of a reader constructor; [None] is an
    argument that is not passed. [label_col] and [id_col] may be passed
    as Python's [None]. The [logger] argument only chooses where the
    warnings go and is left out. *)
Record kwargs : Type := {
  kw_quiet : option bool;
  kw_ids_to_floats : option bool;
  kw_label_col : option (option str);
  kw_id_col : option (option str);
  kw_class_map : option (dict pyval);
  kw_sparse : option bool;
  kw_feature_hasher : option bool;
  kw_num_features : option nat;
  kw_pandas_kwargs : option (dict pyval)
}.

Definition no_kwargs : kwargs :=
  {| kw_quiet := None; kw_ids_to_floats := None; kw_label_col := None;
     kw_id_col := None; kw_class_map := None; kw_sparse := None;
     kw_feature_hasher := None; kw_num_features := None;
     kw_pandas_kwargs := None |}.

Record Reader : Type := {
  class_of : reader_class;
  path_or_list : source;
  quiet : bool;
  ids_to_floats : bool;
  label_col : option str;
  id_col : option str;
  class_map : option (dict pyval);
  vectorizer : vectorizer_kind;
  _use_pandas : bool;
  _pandas_kwargs : dict pyval;
  _sep : str;        (* CSVReader, TSVReader *)
  _engine : pyval    (* CSVReader, TSVReader, ARFFReader *)
}.

Definition default {A} (o : option A) (d : A) : A :=
  match o with Some a => a | None => d end.

(** [Reader.__init__] *)
Definition Reader_init (cls : reader_class) (path_or_list : source)
  (kw : kwargs) : Reader :=
  {| class_of := cls;
     path_or_list := path_or_list;
     quiet := default (kw_quiet kw) true;
     ids_to_floats := default (kw_ids_to_floats kw) false;
     label_col := default (kw_label_col kw) (Some (u "y"));
     id_col := default (kw_id_col kw) (Some (u "id"));
     class_map := kw_class_map kw;
     vectorizer :=
       if default (kw_feature_hasher kw) false
       then FeatureHasher (kw_num_features kw)
       else DictVectorizer (default (kw_sparse kw) true);
     _use_pandas := false;
     _pandas_kwargs := [];
     _sep := [];
     _engine := PyNone |}.

Definition with_pandas (r : Reader) (pk : dict pyval) (sep : str)
  (engine : pyval) : Reader :=
  {| class_of := class_of r; path_or_list := path_or_list r;
     quiet := quiet r; ids_to_floats := ids_to_floats r;
     label_col := label_col r; id_col := id_col r;
     class_map := class_map r; vectorizer := vectorizer r;
     _use_pandas := true; _pandas_kwargs := pk; _sep := sep;
     _engine := engine |}.

(** The constructors of the reader classes. [MegaMReader] and
    [LibSVMReader] inherit [Reader.__init__], which has no
    [pandas_kwargs] parameter. *)
Definition new (cls : reader_class) (path_or_list : source) (kw : kwargs)
  : result Reader :=
  let base := Reader_init cls path_or_list kw in
  let pk := default (kw_pandas_kwargs kw) [] in
  match cls with
  | MegaMReader | LibSVMReader =>
      match kw_pandas_kwargs kw with
      | Some _ => Err TypeError
      | None => Ok base
      end
  | DictListReader => Ok (with_pandas base pk [] PyNone)
  | NDJReader =>
      Ok (with_pandas base (dict_del (dict_del pk (u "lines")) (u "orient"))
            [] PyNone)
  | CSVReader =>
      let (sep, pk) := dict_pop pk (u "sep") (PyStr (u ",")) in
      let (engine, pk) := dict_pop pk (u "engine") (PyStr (u "c")) in
      Ok (with_pandas base pk (text_type sep) engine)
  | TSVReader =>
      let (_, pk) := dict_pop pk (u "sep") (PyStr (u ",")) in
      let (engine, pk) := dict_pop pk (u "engine") (PyStr (u "c")) in
      Ok (with_pandas base pk [9%N] engine)
  | ARFFReader =>
      let (engine, pk) := dict_pop pk (u "engine") (PyStr (u "c")) in
      let pk := dict_del pk (u "delimiter") in
      let pk := dict_del pk (u "header") in
      let pk := dict_del pk (u "quote_char") in
      let pk := dict_del pk (u "escape_char") in
      Ok (with_pandas base pk [] engine)
  end.

Definition EXT_TO_READER : dict reader_class :=
  [ (u ".arff", ARFFReader);
    (u ".csv", CSVReader);
    (u ".jsonlines", NDJReader);
    (u ".libsvm", LibSVMReader);
    (u ".megam", MegaMReader);
    (u ".ndj", NDJReader);
    (u ".tsv", TSVReader) ].

Definition invalid_extension (path : str) : str :=
  u "Example files must be in either .arff, .csv, .jsonlines, .megam, .ndj, or .tsv format. You specified: "
  ++ path.

(** [Reader.for_path(path_or_list, **kwargs)] *)
Definition for_path (path_or_list : source) (kw : kwargs) : result Reader :=
  match path_or_list with
  | Records l => new DictListReader (Records l) no_kwargs
  | Path p =>
      let ext := u "." ++ lower (last (rsplit1 (ch ".") p) []) in
      match dict_get EXT_TO_READER ext with
      | None => Err (ValueError (UnsupportedFormat (invalid_extension p)))
      | Some cls => new cls (Path p) kw
      end
  end.

(* ================================================================== *)
(** * MegaM *)
(* ================================================================== *)

(** What [_sub_read] yields: [curr_id, class_name, curr_info_dict]. *)
Definition example : Type := str * pyval * featdict.

(** [zip(islice(l, 0, None, 2), islice(l, 1, None, 2))] *)
Fixpoint pairs_of {A} (l : list A) : list (A * A) :=
  match l with
  | a :: b :: l' => (a, b) :: pairs_of l'
  | _ => []
  end.

Definition reserved (line : str) : bool :=
  str_eqb line (u "TRAIN") || str_eqb line (u "TEST") || str_eqb line (u "DEV").

Definition nonempty {A} (l : list A) : bool :=
  match l with [] => false | _ => true end.

(** The label and the flattened feature-value tokens of a tokenized
    instance line. *)
Definition megam_label (self : Reader) (split_line : list str)
  : M (pyval * list str) :=
  let num_cols := length split_line in
  if num_cols =? 1 then
    class_name <- safe_float (PyStr (hd [] split_line)) (class_map self) ;;
    ret (class_name, [])
  else if num_cols mod 2 =? 1 then
    class_name <- safe_float (PyStr (hd [] split_line)) (class_map self) ;;
    ret (class_name, tl split_line)
  else
    ret (PyNone, split_line).

Definition megam_features (self : Reader) (curr_id : str)
  (field_pairs : list str) : M featdict :=
  if 0 <? length field_pairs then
    kvs <- mapM (fun nv => v <- safe_float (PyStr (snd nv)) None ;;
                           ret (fst nv, v))
                (pairs_of field_pairs) ;;
    let curr_info_dict := dict_update [] kvs in
    if negb (2 * length curr_info_dict =? length field_pairs)
    then raise (ValueError (DuplicateFeature (path_or_list self) curr_id))
    else ret curr_info_dict
  else ret [].

(** The body of the loop of [MegaMReader._sub_read] for an instance
    line (already stripped). *)
Definition megam_instance (self : Reader) (curr_id : str) (line : str)
  : M example :=
  ' (class_name, field_pairs) <- megam_label self (split line) ;;
  curr_info_dict <- megam_features self curr_id field_pairs ;;
  ret (curr_id, class_name, curr_info_dict).

Definition EXAMPLE_ (n : nat) : str := u "EXAMPLE_" ++ str_of_nat n.

Fixpoint MegaM_loop (self : Reader) (example_num : nat) (curr_id : str)
  (f : list str) : gen example :=
  match f with
  | [] => Done []
  | line :: f' =>
      let line := strip line in
      if startswith (ch "#") line then
        MegaM_loop self example_num (strip (tl line)) f'
      else if nonempty line && negb (reserved line) then
        match megam_instance self curr_id line with
        | (w, Ok ex) =>
            Yield w ex
              (MegaM_loop self (S example_num) (EXAMPLE_ (S example_num)) f')
        | (w, Err e) => Raise w e
        end
      else MegaM_loop self example_num curr_id f'
  end.

(** [MegaMReader._sub_read(f)] *)
Definition MegaM_sub_read (self : Reader) (f : list str) : gen example :=
  MegaM_loop self 0 (u "EXAMPLE_0") f.

(** The tokens of a list of feature-value pairs, one after the other. *)
Definition flatten (pairs : list (str * str)) : list str :=
  concat (List.map (fun nv => [fst nv; snd nv]) pairs).

(* ================================================================== *)
(** * Regular expressions, as far as [LibSVMReader.line_regex] needs *)
(* ================================================================== *)

(** Backtracking matching as in Python's [re]: greedy repetitions try
    the longest match first, a group keeps the text of its last
    successful match. *)
Inductive regex : Type :=
| Lit (c : char)
| Star (cls : char -> bool)          (* [cls*] *)
| Plus (cls : char -> bool)          (* [cls+] *)
| Seq (r1 r2 : regex)
| Group (name : str) (r : regex)     (* [(?P<name>r)] *)
| Opt (r : regex)                    (* [r?] *)
| Bol                                (* [^] *)
| Eol.                               (* [$] *)

(** The groups that took part in a match, with their text. *)
Definition groups := dict str.

Fixpoint star (cls : char -> bool) (k : str -> option groups) (s : str)
  : option groups :=
  match s with
  | c :: s' =>
      if cls c then
        match star cls k s' with
        | Some g => Some g
        | None => k s
        end
      else k s
  | [] => k []
  end.

(** [rmatch whole r s g k]: match [r] at the suffix [s] of [whole],
    then continue with [k] on the rest. *)
Fixpoint rmatch (whole : str) (r : regex) (s : str) (g : groups)
  (k : str -> groups -> option groups) : option groups :=
  match r with
  | Lit c =>
      match s with
      | x :: s' => if N.eqb x c then k s' g else None
      | [] => None
      end
  | Star cls => star cls (fun s' => k s' g) s
  | Plus cls =>
      match s with
      | x :: s' => if cls x then star cls (fun s'' => k s'' g) s' else None
      | [] => None
      end
  | Seq r1 r2 => rmatch whole r1 s g (fun s' g' => rmatch whole r2 s' g' k)
  | Group name r' =>
      rmatch whole r' s g
        (fun s' g' => k s' (dict_set g' name (firstn (length s - length s') s)))
  | Opt r' =>
      match rmatch whole r' s g k with
      | Some g' => Some g'
      | None => k s g
      end
  | Bol => if length s =? length whole then k s g else None
  | Eol =>
      match s with
      | [] => k s g
      | [c] => if N.eqb c 10 then k s g else None
      | _ => None
      end
  end.

Fixpoint search_from (whole : str) (r : regex) (s : str) : option groups :=
  match rmatch whole r s [] (fun _ g => Some g) with
  | Some g => Some g
  | None =>
      match s with
      | [] => None
      | _ :: s' => search_from whole r s'
      end
  end.

(** [r.search(s)] *)
Definition search (r : regex) (s : str) : option groups := search_from s r s.

(** [match.group(name)] *)
Definition group (m : groups) (name : string) : option str :=
  dict_get m (u name).

Declare Scope regex_scope.
Delimit Scope regex_scope with regex.
Infix "@" := Seq (at level 60, right associativity) : regex_scope.

Definition not_char (c : string) : char -> bool :=
  fun x => negb (N.eqb x (ch c)).
Definition any_char : char -> bool := fun x => negb (N.eqb x 10).

(* ================================================================== *)
(** * LibSVM *)
(* ================================================================== *)

(** The pattern of [line_regex], one item per line of the definition:
    start of line; group [label_num], one or more characters other
    than a space; whitespace, at least once; group [features], any
    characters other than the hash sign; whitespace; then, optionally,
    the group [comments]: a hash sign, whitespace, group [example_id]
    (one or more characters other than the bar), whitespace, a bar,
    whitespace, group [label_map] (one or more characters other than
    the bar), whitespace, a bar, whitespace, group [feat_map] (any
    characters but the newline), whitespace; end of line. *)
Definition line_regex : regex :=
  (Bol @ Group (u "label_num") (Plus (not_char " ")) @ Plus isspace
   @ Group (u "features") (Star (not_char "#")) @ Star isspace
   @ Opt (Group (u "comments")
            (Lit (ch "#") @ Star isspace
             @ Group (u "example_id") (Plus (not_char "|")) @ Star isspace
             @ Lit (ch "|") @ Star isspace
             @ Group (u "label_map") (Plus (not_char "|")) @ Star isspace
             @ Lit (ch "|") @ Star isspace
             @ Group (u "feat_map") (Star any_char) @ Star isspace))
   @ Eol)%regex.

(** Look-alike to original, in the order of the dictionary. *)
Definition LIBSVM_REPLACE_DICT : list (char * char) :=
  [ (0x2236%N, ch ":");
    (0xFF03%N, ch "#");
    (0x2002%N, ch " ");
    (0xA78A%N, ch "=");
    (0x2223%N, ch "|") ].

(** [a, b = pair.split(sep)] *)
Definition unpack2 (sep : string) (pair : str) : M (str * str) :=
  match split_on (ch sep) pair with
  | [a; b] => ret (a, b)
  | _ => raise (ValueError Builtin)
  end.

(** [d[k]] *)
Definition getitem {V} (d : dict V) (k : str) : M V :=
  match dict_get d k with
  | Some v => ret v
  | None => raise (KeyError k)
  end.

(** [LibSVMReader._pair_to_tuple(pair, feat_map)] *)
Definition _pair_to_tuple (pair : str) (feat_map : option (dict str))
  : M (str * pyval) :=
  ' (name, value) <- unpack2 ":" pair ;;
  name <- match feat_map with
          | Some fm => getitem fm name
          | None => ret name
          end ;;
  value <- safe_float (PyStr value) None ;;
  ret (name, value).

(** The names [feat_map] and [label_map] of [_sub_read]: they are
    assigned only on a line with a comment and keep their value on the
    next lines; [None] before the first assignment. *)
Definition name_maps : Type := option (option (dict str) * option (dict str)).

Definition parse_feat_map (text : str) : M (dict str) :=
  fold_left
    (fun acc pair =>
       feat_map <- acc ;;
       ' (number, name) <- unpack2 "=" pair ;;
       let name :=
         fold_left (fun name rep => replace (fst rep) (snd rep) name)
                   LIBSVM_REPLACE_DICT name in
       ret (dict_set feat_map number name))
    (split text) (ret []).

Definition parse_label_map (text : str) : M (dict str) :=
  pairs <- mapM (unpack2 "=") (split (strip text)) ;;
  ret (dict_of pairs).

Definition truthy (o : option str) : bool :=
  match o with Some (_ :: _) => true | _ => false end.

(** The body of the loop of [LibSVMReader._sub_read]. *)
Definition libsvm_line (self : Reader) (example_num : nat)
  (maps : name_maps) (line : str) : M (example * name_maps) :=
  match search line_regex (strip line) with
  | None => raise (ValueError (MalformedLine line))
  | Some m =>
      ' (curr_id, maps) <-
          match group m "comments" with
          | Some _ =>
              feat_map <-
                (if truthy (group m "feat_map")
                 then fm <- parse_feat_map (default (group m "feat_map") []) ;;
                      ret (Some fm)
                 else ret None) ;;
              label_map <-
                (if truthy (group m "label_map")
                 then lm <- parse_label_map (default (group m "label_map") []) ;;
                      ret (Some lm)
                 else ret None) ;;
              ret (strip (default (group m "example_id") []),
                   Some (feat_map, label_map))
          | None => ret ([], maps)
          end ;;
      let curr_id :=
        if nonempty curr_id then curr_id else EXAMPLE_ example_num in
      let class_num := default (group m "label_num") [] in
      match maps with
      | None => raise (UnboundLocalError (u "label_map"))
      | Some (feat_map, label_map) =>
          class_name <-
            match label_map with
            | Some lm =>
                if nonempty lm then getitem lm class_num else ret class_num
            | None => ret class_num
            end ;;
          class_name <- safe_float (PyStr class_name) (class_map self) ;;
          pairs <- mapM (fun pair => _pair_to_tuple pair feat_map)
                        (split (strip (default (group m "features") []))) ;;
          ret ((curr_id, class_name, dict_of pairs), maps)
      end
  end.

Fixpoint LibSVM_loop (self : Reader) (example_num : nat) (maps : name_maps)
  (f : list str) : gen example :=
  match f with
  | [] => Done []
  | line :: f' =>
      match libsvm_line self example_num maps line with
      | (w, Ok (ex, maps')) =>
          Yield w ex (LibSVM_loop self (S example_num) maps' f')
      | (w, Err e) => Raise w e
      end
  end.

(** [LibSVMReader._sub_read(f)] *)
Definition LibSVM_sub_read (self : Reader) (f : list str) : gen example :=
  LibSVM_loop self 0 None f.

(* ================================================================== *)
(** * Equality of values, sets *)
(* ================================================================== *)

Definition float_eqb (a b : float) : bool :=
  match a, b with
  | FNum m e, FNum m' e' => (m =? m')%Z && (e =? e')%Z
  | FInf n, FInf n' => Bool.eqb n n'
  | FNan, FNan => true
  | _, _ => false
  end.

(** Structural equality. *)
Definition pyval_eqb (a b : pyval) : bool :=
  match a, b with
  | PyNone, PyNone => true
  | PyBool x, PyBool y => Bool.eqb x y
  | PyInt x, PyInt y => (x =? y)%Z
  | PyFloat x, PyFloat y => float_eqb x y
  | PyStr x, PyStr y => str_eqb x y
  | PyObject x, PyObject y => str_eqb x y
  | _, _ => false
  end.

(** The value a number is compared by: booleans, integers and floats
    that denote the same number are equal in Python; a NaN is equal to
    nothing. Objects known only by their text are compared by it. *)
Definition canon (v : pyval) : option pyval :=
  match v with
  | PyBool b => Some (PyFloat (float_of_Z (if b then 1 else 0)))
  | PyInt z => Some (PyFloat (float_of_Z z))
  | PyFloat (FNum m e) =>
      Some (PyFloat (mk_float (m <? 0)%Z (str_of_Z (Z.abs m)) e))
  | PyFloat FNan => None
  | _ => Some v
  end.

(** [a == b] *)
Definition py_eqb (a b : pyval) : bool :=
  match canon a, canon b with
  | Some x, Some y => pyval_eqb x y
  | _, _ => false
  end.

(** [set(l)], in order of first occurrence. *)
Definition set_add (s : list pyval) (x : pyval) : list pyval :=
  if existsb (py_eqb x) s then s else s ++ [x].
Definition py_set (l : list pyval) : list pyval := fold_left set_add l [].

(** No two values of the list are equal. *)
Fixpoint all_distinct (l : list pyval) : bool :=
  match l with
  | [] => true
  | x :: l' => negb (existsb (py_eqb x) l') && all_distinct l'
  end.

(* ================================================================== *)
(** * numpy arrays *)
(* ================================================================== *)

(** The element type [np.array] gives to the array it builds from a
    list of Python values. *)
Inductive dtype : Type :=
| bool_ | int64 | uint64 | float64 | str_ | object_.

(** The type found for one value: an integer is an [int64] when it
    fits, else a [uint64] when it fits, else a Python object; the null
    value and the values of other classes are Python objects. *)
Definition dtype_of (v : pyval) : dtype :=
  match v with
  | PyBool _ => bool_
  | PyInt z =>
      if ((- 2 ^ 63 <=? z) && (z <? 2 ^ 63))%Z then int64
      else if ((0 <=? z) && (z <? 2 ^ 64))%Z then uint64
      else object_
  | PyFloat _ => float64
  | PyStr _ => str_
  | PyNone | PyObject _ => object_
  end.

(** The common type of two element types: objects stay objects, a
    string turns numbers into strings, a float turns integers into
    floats, and so do signed and unsigned integers together. *)
Definition promote (a b : dtype) : dtype :=
  match a, b with
  | object_, _ | _, object_ => object_
  | str_, _ | _, str_ => str_
  | float64, _ | _, float64 => float64
  | int64, uint64 | uint64, int64 => float64
  | uint64, _ | _, uint64 => uint64
  | int64, _ | _, int64 => int64
  | bool_, bool_ => bool_
  end.

(** The text an element of a string array reads as: the characters
    U+0000 that end it are padding. *)
Definition rstrip_nul (s : str) : str :=
  rev (drop_while (N.eqb 0) (rev s)).

(** A value as an element of an array of type [d]. *)
Definition astype (d : dtype) (v : pyval) : pyval :=
  match d, v with
  | str_, _ => PyStr (rstrip_nul (text_type v))
  | float64, PyBool b => PyFloat (float_of_Z (if b then 1 else 0))
  | float64, PyInt z => PyFloat (float_of_Z z)
  | (int64 | uint64), PyBool b => PyInt (if b then 1 else 0)
  | _, _ => v
  end.

(** [np.array(l)] for a list of scalars, as the list of its elements:
    every value is converted to the common type of the list. *)
Definition np_array (l : list pyval) : list pyval :=
  match l with
  | [] => []
  | v :: l' =>
      let d := fold_left (fun d x => promote d (dtype_of x)) l' (dtype_of v) in
      List.map (astype d) l
  end.

(* ================================================================== *)
(** * Data frames *)
(* ================================================================== *)

(** A pandas [DataFrame]: the column labels and the rows; every row has
    one cell per column. Column labels are taken to be distinct. *)
Record DataFrame : Type := {
  columns : list pyval;
  rows : list (list cell)
}.

Definition repr (v : pyval) : str :=
  match v with
  | PyStr s => u "'" ++ s ++ u "'"
  | _ => text_type v
  end.

(** [str(d)] of a mapping (escapes inside string literals are not
    rendered). *)
Definition dict_repr (d : featdict) : str :=
  u "{"
  ++ join (u ", ")
       (List.map (fun kv => repr (PyStr (fst kv)) ++ u ": " ++ repr (snd kv)) d)
  ++ u "}".

(** A cell as a value: a mapping is an object like any other. *)
Definition cell_as_pyval (c : cell) : pyval :=
  match c with
  | Scalar v => v
  | Mapping d => PyObject (dict_repr d)
  end.

Definition NaN : cell := Scalar (PyFloat FNan).

(** [df.empty]: one of the two axes has length 0. *)
Definition df_empty (df : DataFrame) : bool :=
  negb (nonempty (columns df)) || negb (nonempty (rows df)).

(** [df.shape[0]] *)
Definition shape0 (df : DataFrame) : nat := length (rows df).

Fixpoint index_of (name : str) (cols : list pyval) : option nat :=
  match cols with
  | [] => None
  | c :: cs =>
      if py_eqb (PyStr name) c then Some 0
      else option_map S (index_of name cs)
  end.

(** [name in df] *)
Definition df_in (name : str) (df : DataFrame) : bool :=
  match index_of name (columns df) with Some _ => true | None => false end.

Definition df_col (df : DataFrame) (i : nat) : list cell :=
  List.map (fun r => nth i r NaN) (rows df).

(** [df[name]] *)
Definition df_getitem (df : DataFrame) (name : str) : M (list cell) :=
  match index_of name (columns df) with
  | Some i => ret (df_col df i)
  | None => raise (KeyError name)
  end.

Fixpoint remove_nth {A} (i : nat) (l : list A) : list A :=
  match i, l with
  | _, [] => []
  | 0, _ :: l' => l'
  | S i', a :: l' => a :: remove_nth i' l'
  end.

Fixpoint update_nth {A} (i : nat) (f : A -> A) (l : list A) : list A :=
  match i, l with
  | _, [] => []
  | 0, a :: l' => f a :: l'
  | S i', a :: l' => a :: update_nth i' f l'
  end.

(** [del df[name]], for the column at index [i]. *)
Definition df_del (df : DataFrame) (i : nat) : DataFrame :=
  {| columns := remove_nth i (columns df);
     rows := List.map (remove_nth i) (rows df) |}.

(** [df[name] = df[name].astype(str)], for the column at index [i]. *)
Definition df_astype_str (df : DataFrame) (i : nat) : DataFrame :=
  {| columns := columns df;
     rows :=
       List.map
         (update_nth i (fun c => Scalar (PyStr (text_type (cell_as_pyval c)))))
         (rows df) |}.

(** [df.columns = labels]: the number of labels must be the number of
    columns. *)
Definition set_columns (df : DataFrame) (labels : list pyval) : M DataFrame :=
  if length labels =? length (columns df)
  then ret {| columns := labels; rows := rows df |}
  else raise (ValueError Builtin).

(** [df.to_dict(orient='records')]: one mapping per row, from column
    label to value; a frame that has rows and no column left gives one
    empty mapping per row. *)
Definition to_dict_records (df : DataFrame) : list cell :=
  List.map
    (fun r => Mapping (dict_of (combine (List.map text_type (columns df))
                                        (List.map cell_as_pyval r))))
    (rows df).

(** [df.loc[0, j]] of a frame read without a header. *)
Definition loc0 (df : DataFrame) (j : nat) : M cell :=
  match rows df with
  | r :: _ =>
      match nth_error r j with
      | Some c => ret c
      | None => raise (KeyError (str_of_nat j))
      end
  | [] => raise (KeyError (u "0"))
  end.

(** [pd.DataFrame(list_of_dicts)]: a column per key, in order of first
    occurrence; a missing value is a NaN. *)
Definition record_keys (l : list record) : list str :=
  fold_left
    (fun acc r =>
       fold_left
         (fun acc kv =>
            if existsb (str_eqb (fst kv)) acc then acc else acc ++ [fst kv])
         r acc)
    l [].

Definition pd_DataFrame (l : list record) : DataFrame :=
  let cols := record_keys l in
  {| columns := List.map PyStr cols;
     rows := List.map (fun r => List.map (fun k => default (dict_get r k) NaN) cols) l |}.

(** [series.astype(float)] *)
Definition astype_float (l : list cell) : M (list pyval) :=
  mapM (fun c => match py_float (cell_as_pyval c) with
                 | Ok f => ret (PyFloat f)
                 | Err e => raise e
                 end) l.

(** [['EXAMPLE_{}'.format(i) for i in range(n)]] *)
Definition example_ids (n : nat) : list pyval :=
  List.map (fun i => PyStr (EXAMPLE_ i)) (seq 0 n).

(** The identifier block of [_parse_dataframe]: the identifiers and the
    frame without their column. *)
Definition extract_ids (self : Reader) (df : DataFrame) (id_col : option str)
  : M (list pyval * DataFrame) :=
  match id_col with
  | Some c =>
      match index_of c (columns df) with
      | Some i =>
          let ids := df_col df i in
          let df := df_del df i in
          ids <- (if ids_to_floats self then astype_float ids
                  else ret (List.map cell_as_pyval ids)) ;;
          ret (ids, df)
      | None => ret (example_ids (shape0 df), df)
      end
  | None => ret (example_ids (shape0 df), df)
  end.

(** The label block of [_parse_dataframe]. *)
Definition extract_labels (self : Reader) (df : DataFrame)
  (label_col : option str) : M (list pyval * DataFrame) :=
  match label_col with
  | Some c =>
      match index_of c (columns df) with
      | Some i =>
          let labels := df_col df i in
          let df := df_del df i in
          labels <-
            match class_map self with
            | Some cm =>
                mapM (fun v => safe_float (cell_as_pyval v) (Some cm)) labels
            | None =>
                mapM (fun v => safe_float (cell_as_pyval v) None) labels
            end ;;
          ret (labels, df)
      | None => ret (repeat PyNone (shape0 df), df)
      end
  | None => ret (repeat PyNone (shape0 df), df)
  end.

(** [Reader._parse_dataframe(df, id_col, label_col, features=None)] *)
Definition _parse_dataframe (self : Reader) (df : DataFrame)
  (id_col label_col : option str) (features : option (list cell))
  : M (list pyval * list pyval * list cell) :=
  if df_empty df then raise (ValueError (EmptyInput (path_or_list self)))
  else
    ' (ids, df) <- extract_ids self df id_col ;;
    ' (labels, df) <- extract_labels self df label_col ;;
    let features :=
      match features with
      | Some f => f
      | None => to_dict_records df
      end in
    ret (ids, labels, features).

(** [DictListReader._sub_read(list_of_dicts)], for a reader built
    without [pandas_kwargs], as [for_path] builds it. *)
Definition DictList_sub_read (self : Reader) (list_of_dicts : list record)
  : M (list pyval * list pyval * list cell) :=
  let df := pd_DataFrame list_of_dicts in
  if df_empty df then _parse_dataframe self df None None None
  else
    features <- df_getitem df (u "x") ;;
    _parse_dataframe self df
      (if df_in (u "id") df then Some (u "id") else None)
      (if df_in (u "y") df then Some (u "y") else None)
      (Some features).

(* ================================================================== *)
(** * Reading *)
(* ================================================================== *)

Section Readers.

(** The file system: the lines of the file at a path, the same at
    every opening. *)
Variable read_lines : str -> result (list str).

(** pandas: [pd.read_csv(path, sep=, engine=, **kwargs)],
    [pd.read_csv(StringIO(s), engine=, **kwargs)] and
    [pd.read_json(path, orient='records', lines=True, **kwargs)]. *)
Variable read_csv : str -> str -> pyval -> dict pyval -> result DataFrame.
Variable read_csv_buffer : str -> pyval -> dict pyval -> result DataFrame.
Variable read_json : str -> dict pyval -> result DataFrame.

(** The vectorizers: [fit_transform] and the number of rows
    ([shape[0]]) of the matrix it returns. *)
Variable matrix : Type.
Variable n_rows : matrix -> nat.
Variable fit_transform : vectorizer_kind -> list cell -> result matrix.

(** [skll.data.FeatureSet] *)
Record FeatureSet : Type := {
  fs_name : source;
  fs_ids : list pyval;
  fs_labels : list pyval;
  fs_features : matrix;
  fs_vectorizer : vectorizer_kind
}.

(** The path of a file reader; a reader of files built on a list
    fails when it opens it. *)
Definition path_of (src : source) : M str :=
  match src with
  | Path p => ret p
  | Records _ => raise TypeError
  end.

(** [NDJReader._sub_read(path)] *)
Definition NDJ_sub_read (self : Reader) (path : source)
  : M (list pyval * list pyval * list cell) :=
  p <- path_of path ;;
  df <- lift (read_json p (_pandas_kwargs self)) ;;
  if df_empty df then _parse_dataframe self df None None None
  else
    let df :=
      match index_of (u "id") (columns df) with
      | Some i => df_astype_str df i
      | None => df
      end in
    features <- df_getitem df (u "x") ;;
    _parse_dataframe self df
      (if df_in (u "id") df then Some (u "id") else None)
      (if df_in (u "y") df then Some (u "y") else None)
      (Some features).

(** [CSVReader._sub_read(path)], also [TSVReader]'s. *)
Definition CSV_sub_read (self : Reader) (path : source)
  : M (list pyval * list pyval * list cell) :=
  p <- path_of path ;;
  df <- lift (read_csv p (_sep self) (_engine self) (_pandas_kwargs self)) ;;
  _parse_dataframe self df (id_col self) (label_col self) None.

(** [ARFFReader.split_with_quotes(s, delimiter, header=None,
    quote_char="'", escape_char='\\')] *)
Definition split_with_quotes (self : Reader) (s : str) (delimiter : string)
  : M DataFrame :=
  let kwargs :=
    [ (u "header", PyNone);
      (u "delimiter", PyStr (u delimiter));
      (u "quotechar", PyStr (u "'"));
      (u "escapechar", PyStr [92%N]) ] in
  let kwargs := dict_update kwargs (_pandas_kwargs self) in
  lift (read_csv_buffer s (_engine self) kwargs).

(** What the attribute rows of an ARFF file give: the column labels,
    and the fields [relation] and [regression] of the reader. *)
Record arff_header : Type := {
  hdr_columns : list pyval;
  hdr_relation : pyval;
  hdr_regression : bool
}.

Definition cell_is (c : cell) (s : string) : bool :=
  match c with
  | Scalar (PyStr t) => str_eqb t (u s)
  | _ => false
  end.

Definition arff_row (self : Reader) (h : arff_header) (row : str)
  : M arff_header :=
  row_series <- split_with_quotes self row " " ;;
  c0 <- loc0 row_series 0 ;;
  if cell_is c0 "@attribute" then
    column <- loc0 row_series 1 ;;
    let columns := hdr_columns h ++ [cell_as_pyval column] in
    if match label_col self with
       | Some l => py_eqb (cell_as_pyval column) (PyStr l)
       | None => py_eqb (cell_as_pyval column) PyNone
       end
    then
      c2 <- loc0 row_series 2 ;;
      ret {| hdr_columns := columns; hdr_relation := hdr_relation h;
             hdr_regression := cell_is c2 "numeric" |}
    else
      ret {| hdr_columns := columns; hdr_relation := hdr_relation h;
             hdr_regression := hdr_regression h |}
  else if cell_is c0 "@relation" then
    c1 <- loc0 row_series 1 ;;
    ret {| hdr_columns := hdr_columns h;
           hdr_relation := cell_as_pyval c1;
           hdr_regression := hdr_regression h |}
  else ret h.

Fixpoint list_index (x : str) (l : list str) : option nat :=
  match l with
  | [] => None
  | y :: l' => if str_eqb y x then Some 0 else option_map S (list_index x l')
  end.

(** The table an ARFF file holds: the data block, with the attribute
    names as column labels. *)
Definition ARFF_table (self : Reader) (path : source) : M DataFrame :=
  p <- path_of path ;;
  buff <- lift (read_lines p) ;;
  let lines :=
    List.map strip (filter (fun line => nonempty (strip line)) buff) in
  data_idx <- match list_index (u "@data") lines with
              | Some i => ret i
              | None => raise (ValueError Builtin)
              end ;;
  df <- split_with_quotes self
          (join [10%N] (skipn (data_idx + 1) lines)) "," ;;
  h <- fold_left (fun acc row => h <- acc ;; arff_row self h row)
         (firstn data_idx lines)
         (ret {| hdr_columns := []; hdr_relation := PyStr [];
                 hdr_regression := false |}) ;;
  set_columns df (hdr_columns h).

(** [ARFFReader._sub_read(path)] *)
Definition ARFF_sub_read (self : Reader) (path : source)
  : M (list pyval * list pyval * list cell) :=
  df <- ARFF_table self path ;;
  _parse_dataframe self df (id_col self) (label_col self) None.

(** [_sub_read] of the readers that go through pandas. *)
Definition _sub_read (self : Reader) (path_or_list : source)
  : M (list pyval * list pyval * list cell) :=
  match class_of self with
  | DictListReader =>
      match path_or_list with
      | Records l => DictList_sub_read self l
      | Path _ => raise (External (u "DataFrame constructor not properly called!"))
      end
  | NDJReader => NDJ_sub_read self path_or_list
  | CSVReader | TSVReader => CSV_sub_read self path_or_list
  | ARFFReader => ARFF_sub_read self path_or_list
  | MegaMReader | LibSVMReader => raise TypeError
  end.

(** [_sub_read] of the readers that read line by line: a generator. *)
Definition _sub_read_lines (self : Reader) (f : list str) : gen example :=
  match class_of self with
  | MegaMReader => MegaM_sub_read self f
  | LibSVMReader => LibSVM_sub_read self f
  | _ => Raise [] TypeError
  end.

(** The first loop of [_sub_read_rows]: the identifiers and the
    labels of the examples the generator yields. *)
Fixpoint ids_and_labels (self : Reader) (g : gen example)
  : M (list pyval * list pyval) :=
  match g with
  | Done w => (w, Ok ([], []))
  | Raise w e => (w, Err e)
  | Yield w (id_, class_, _) rest =>
      (w, Ok tt) ;;;
      id_ <- (if ids_to_floats self then
                match float_of_str id_ with
                | Some f => ret (PyFloat f)
                | None =>
                    raise (ValueError (InvalidId id_ (path_or_list self)))
                end
              else ret (PyStr id_)) ;;
      ' (ids, labels) <- ids_and_labels self rest ;;
      ret (id_ :: ids, class_ :: labels)
  end.

(** [feat_dict_generator()], drained: the file is opened and parsed
    again when the vectorizer asks for the feature mappings. *)
Definition feat_dict_generator (self : Reader) : M (list cell) :=
  p <- path_of (path_or_list self) ;;
  f <- lift (read_lines p) ;;
  exs <- drain (_sub_read_lines self f) ;;
  ret (List.map (fun ex : example => Mapping (snd ex)) exs).

(** [Reader._sub_read_rows(path)]; the third component is the
    generator of feature mappings, not yet run. *)
Definition _sub_read_rows (self : Reader) (path : source)
  : M (list pyval * list pyval * M (list cell)) :=
  p <- path_of path ;;
  f <- lift (read_lines p) ;;
  ' (ids, labels) <- ids_and_labels self (_sub_read_lines self f) ;;
  let total := length ids in
  if total =? 0 then raise (ValueError (EmptyInput (path_or_list self)))
  else
    let ids := np_array ids in
    let labels := np_array labels in
    ret (ids, labels, feat_dict_generator self).

(** The first step of [read]: identifiers, labels and (the
    computation of) the feature mappings, by either strategy. *)
Definition parse (self : Reader)
  : M (list pyval * list pyval * M (list cell)) :=
  if _use_pandas self then
    ' (ids, labels, features) <- _sub_read self (path_or_list self) ;;
    ret (ids, labels, ret features)
  else _sub_read_rows self (path_or_list self).

(** [Reader.read()]. The vectorizer is handed the feature mappings
    once the generator has been run to its end. The progress messages
    on [stderr] and the debug message of the logger are not part of
    the model. *)
Definition read (self : Reader) : M FeatureSet :=
  ' (ids, labels, features) <- parse self ;;
  features <- features ;;
  features <- lift (fit_transform (vectorizer self) features) ;;
  if negb ((length ids =? length labels)
           && (length labels =? n_rows features))
  then raise AssertionError
  else if negb (length ids =? length (py_set ids))
  then raise (ValueError (DuplicateId (path_or_list self)))
  else ret {| fs_name := path_or_list self;
              fs_ids := ids;
              fs_labels := labels;
              fs_features := features;
              fs_vectorizer := vectorizer self |}.

(** The table a reader that goes through pandas builds from its
    source, before [_parse_dataframe]. *)
Definition table (self : Reader) : M DataFrame :=
  match class_of self, path_or_list self with
  | DictListReader, Records l => ret (pd_DataFrame l)
  | NDJReader, Path p => lift (read_json p (_pandas_kwargs self))
  | (CSVReader | TSVReader), Path p =>
      lift (read_csv p (_sep self) (_engine self) (_pandas_kwargs self))
  | ARFFReader, Path p => ARFF_table self (Path p)
  | _, _ => raise TypeError
  end.

(** The number of examples a source holds: the rows of its table,
    or the examples the line parser yields when it runs to the end
    of the file. *)
Definition examples_in (self : Reader) : option nat :=
  if _use_pandas self then
    match table self with
    | (_, Ok df) => Some (shape0 df)
    | (_, Err _) => None
    end
  else
    match path_or_list self with
    | Path p =>
        match read_lines p with
        | Ok f =>
            match drain (_sub_read_lines self f) with
            | (_, Ok exs) => Some (length exs)
            | (_, Err _) => None
            end
        | Err _ => None
        end
    | Records _ => None
    end.

End Readers.

(* ================================================================== *)
(** * Stand-ins for what is outside the module, for the examples *)
(* ================================================================== *)

Definition no_file : str -> result (list str) :=
  fun _ => Err (External (u "No such file or directory")).
Definition no_csv : str -> str -> pyval -> dict pyval -> result DataFrame :=
  fun _ _ _ _ => Err (External (u "No such file or directory")).
Definition no_buffer : str -> pyval -> dict pyval -> result DataFrame :=
  fun _ _ _ => Err (External (u "No columns to parse from file")).
Definition no_json : str -> dict pyval -> result DataFrame :=
  fun _ _ => Err (External (u "No such file or directory")).

(** A file system with one file, a pandas that reads one table. *)
Definition one_file (lines : list str) : str -> result (list str) :=
  fun _ => Ok lines.
Definition one_csv (df : DataFrame)
  : str -> str -> pyval -> dict pyval -> result DataFrame :=
  fun _ _ _ _ => Ok df.

(** A vectorizer whose matrix is known by its number of rows only. *)
Definition rows_only : vectorizer_kind -> list cell -> result nat :=
  fun _ l => Ok (length l).
Definition rows_count : nat -> nat := fun n => n.

(** A table with the columns [id], [y], [f1] and two rows, and the
    same table without rows. *)
Definition two_rows (id1 id2 : string) : DataFrame :=
  {| columns := [PyStr (u "id"); PyStr (u "y"); PyStr (u "f1")];
     rows := [ [Scalar (PyStr (u id1)); Scalar (PyInt 1);
                Scalar (PyFloat (FNum 2 0))];
               [Scalar (PyStr (u id2)); Scalar (PyInt 0);
                Scalar (PyFloat (FNum 3 0))] ] |}.
Definition header_only : DataFrame :=
  {| columns := [PyStr (u "id"); PyStr (u "y"); PyStr (u "f1")];
     rows := [] |}.

(** The reader [for_path] builds, when it builds one. *)
Definition reader_for (path_or_list : source) (kw : kwargs) : Reader :=
  match for_path path_or_list kw with
  | Ok r => r
  | Err _ => Reader_init DictListReader path_or_list kw
  end.

(* ================================================================== *)
(** * Options handed to pandas *)
(* ================================================================== *)

(** The keys a constructor takes out of [pandas_kwargs]. *)
Definition popped_options (cls : reader_class) : list str :=
  match cls with
  | CSVReader | TSVReader => [u "sep"; u "engine"]
  | NDJReader => [u "lines"; u "orient"]
  | ARFFReader =>
      [u "engine"; u "delimiter"; u "header"; u "quote_char"; u "escape_char"]
  | MegaMReader | LibSVMReader | DictListReader => []
  end.

(** The keyword arguments [ARFFReader.split_with_quotes] passes to
    [pd.read_csv]: its own, updated with the reader's [_pandas_kwargs]. *)
Definition split_with_quotes_kwargs (self : Reader) (delimiter : string)
  : dict pyval :=
  dict_update
    [ (u "header", PyNone);
      (u "delimiter", PyStr (u delimiter));
      (u "quotechar", PyStr (u "'"));
      (u "escapechar", PyStr [92%N]) ]
    (_pandas_kwargs self).


(* ================================================================== *)
(** * Lines and examples *)
(* ================================================================== *)

(** The lines of a MegaM file that are not instances: comments, blank
    lines and the reserved words. *)
Definition megam_skipped (line : str) : bool :=
  let line := strip line in
  startswith (ch "#") line || negb (nonempty line) || reserved line.

(** The lines of a MegaM file that set the identifier of the next
    instance. *)
Definition megam_comment (line : str) : bool :=
  startswith (ch "#") (strip line).

(** What a generator yields before it ends or raises. *)
Fixpoint yielded {A} (g : gen A) : list A :=
  match g with
  | Yield _ a rest => a :: yielded rest
  | Done _ | Raise _ _ => []
  end.

Definition example_id (ex : example) : str := fst (fst ex).
Definition example_label (ex : example) : pyval := snd (fst ex).
Definition example_features (ex : example) : featdict := snd ex.

(** The first identifier that [float()] does not read. *)
Definition first_bad_id (exs : list example) : option str :=
  find (fun id_ => match float_of_str id_ with Some _ => false | None => true end)
       (List.map example_id exs).

(** [int(f)] for a finite float: the digits before the decimal point. *)
Definition truncate (m e : Z) : Z :=
  if (0 <=? e)%Z then (m * 10 ^ e)%Z else Z.quot m (10 ^ (- e)).

(** The decimal [m * 10^e] is the exact value of a binary64 float, the
    floats of Python: it is [n * 2^k] for integers [n] and [k] with
    [|n| < 2^53] and [-1074 <= k <= 971]. Below, [q] is its absolute
    value in units of [2^-1074], and [Z.land q (- q)] the largest power
    of two that divides [q]. *)
Definition binary64 (m e : Z) : bool :=
  let num := (Z.abs m * 10 ^ Z.max e 0 * 2 ^ 1074)%Z in
  let den := (10 ^ Z.max (- e) 0)%Z in
  let q := (num / den)%Z in
  ((num mod den =? 0) && (q <? 2 ^ 2098)
   && ((q =? 0) || (q / Z.land q (- q) <? 2 ^ 53)))%Z.


(** The identifier (or label) column is named and is in the frame. *)
Definition has_column (df : DataFrame) (col : option str) : bool :=
  match col with
  | Some c => df_in c df
  | None => false
  end.


(* ================================================================== *)
(** * The shape of [line_regex] *)
(* ================================================================== *)

(** The expressions in which a group named [comments] only occurs as an
    optional part that opens with the hash sign. *)
Inductive hash_guarded : regex -> Prop :=
| hg_lit c : hash_guarded (Lit c)
| hg_star cls : hash_guarded (Star cls)
| hg_plus cls : hash_guarded (Plus cls)
| hg_bol : hash_guarded Bol
| hg_eol : hash_guarded Eol
| hg_seq r1 r2 : hash_guarded r1 -> hash_guarded r2 -> hash_guarded (Seq r1 r2)
| hg_group name r :
    name <> u "comments" -> hash_guarded r -> hash_guarded (Group name r)
| hg_opt_hash name r :
    hash_guarded (Opt (Group name (Seq (Lit (ch "#")) r))).


(* ================================================================== *)
(** * [skll.logutils] *)
(* ================================================================== *)

(** A handler of the [logging] module: an object with an identity. A
    [FileHandler] has a stream, known by its name, until it is
    closed. *)
Record handler : Type := {
  h_id : nat;
  h_is_FileHandler : bool;
  h_stream : option str
}.

(** The state of the [logging] and [warnings] modules, as far as
    [logutils] touches it: the handlers of the loggers by name, the
    identity of the next object, the logger that [warnings.showwarning]
    writes to, and the files opened for writing so far. *)
Record logging : Type := {
  loggers : dict (list handler);
  next_id : nat;
  showwarning : option str;
  opened : list str
}.

(** A call that returns, or that raises the [AttributeError] of
    [handler.stream.name] on a handler without a stream. *)
Inductive outcome (A : Type) : Type :=
| Returns (a : A)
| AttributeError.
Arguments Returns {A} a.
Arguments AttributeError {A}.

(** [isinstance(handler, FileHandler) and handler.stream.name == filepath] *)
Definition is_file_handler (filepath : str) (h : handler) : outcome bool :=
  if h_is_FileHandler h then
    match h_stream h with
    | Some name => Returns (str_eqb name filepath)
    | None => AttributeError
    end
  else Returns false.

(** [[is_file_handler(handler) for handler in logger.handlers]] *)
Fixpoint file_handler_flags (filepath : str) (hs : list handler)
  : outcome (list bool) :=
  match hs with
  | [] => Returns []
  | h :: hs' =>
      match is_file_handler filepath h with
      | Returns b =>
          match file_handler_flags filepath hs' with
          | Returns bs => Returns (b :: bs)
          | AttributeError => AttributeError
          end
      | AttributeError => AttributeError
      end
  end.

Section Logutils.

(** [os.path.abspath]: a [FileHandler] opens the absolute path of the
    file it is given, and that is the name of its stream. *)
Variable abspath : str -> str.

(** [get_skll_logger(name, filepath=None, log_level=logging.INFO)]; the
    logger it returns is the one of that name in the state. *)
Definition get_skll_logger (name : str) (filepath : option str)
  (st : logging) : outcome logging :=
  let handlers := default (dict_get (loggers st) name) [] in
  let with_handlers hs n files :=
    Returns {| loggers := dict_set (loggers st) name hs;
               next_id := n;
               showwarning := Some name;
               opened := files |} in
  match filepath with
  | Some (c :: fp) =>
      let filepath := c :: fp in
      match file_handler_flags filepath handlers with
      | Returns flags =>
          let need_file_handler := negb (existsb (fun b => b) flags) in
          if need_file_handler then
            let file_handler :=
              {| h_id := next_id st; h_is_FileHandler := true;
                 h_stream := Some (abspath filepath) |} in
            with_handlers (handlers ++ [file_handler]) (S (next_id st))
              (opened st ++ [abspath filepath])
          else with_handlers handlers (next_id st) (opened st)
      | AttributeError => AttributeError
      end
  | _ => with_handlers handlers (next_id st) (opened st)
  end.

End Logutils.

(** [handler.close()] *)
Definition close (h : handler) : handler :=
  {| h_id := h_id h; h_is_FileHandler := h_is_FileHandler h;
     h_stream := None |}.

(** [logger.removeHandler(h)]: the handler is taken out of the list,
    where it is found by identity. *)
Fixpoint removeHandler (h : handler) (handlers : list handler)
  : list handler :=
  match handlers with
  | [] => []
  | x :: l => if h_id x =? h_id h then l else x :: removeHandler h l
  end.

(** The loop of [close_and_remove_logger_handlers]: the list iterator
    is at index [idx] of the list of handlers, which the body of the
    loop shortens; [closed] are the handlers closed so far. The loop
    ends when the index is past the end of the list; [fuel] bounds the
    number of rounds. *)
Fixpoint close_loop (fuel idx : nat) (handlers closed : list handler)
  : list handler * list handler :=
  match fuel with
  | 0 => (handlers, closed)
  | S fuel' =>
      match nth_error handlers idx with
      | None => (handlers, closed)
      | Some h =>
          close_loop fuel' (S idx) (removeHandler h handlers)
            (closed ++ [close h])
      end
  end.

(** [close_and_remove_logger_handlers(logger)], on the handlers of the
    logger: the handlers that are left, and the closed ones. *)
Definition close_and_remove_logger_handlers (handlers : list handler)
  : list handler * list handler :=
  close_loop (length handlers) 0 handlers [].

(** The elements at the positions 0, 2, 4, ... and 1, 3, 5, ... *)
Fixpoint even_positions {A} (l : list A) : list A :=
  match l with
  | [] => []
  | [a] => [a]
  | a :: _ :: t => a :: even_positions t
  end.
Fixpoint odd_positions {A} (l : list A) : list A :=
  match l with
  | _ :: b :: t => b :: odd_positions t
  | _ => []
  end.

(* ================================================================== *)
(** * Properties *)
(* ================================================================== *)

(** ** Strings and the monad *)

Lemma str_eqb_spec (a b : str) : reflect (a = b) (str_eqb a b).
Proof.
  revert b; induction a as [|x a IH]; intros [|y b]; simpl;
    try (constructor; congruence).
  destruct (N.eqb_spec x y); simpl.
  - destruct (IH b); constructor; congruence.
  - constructor; congruence.
Qed.

Lemma str_eqb_refl (a : str) : str_eqb a a = true.
Proof. destruct (str_eqb_spec a a); congruence. Qed.

Lemma str_eqb_eq (a b : str) : str_eqb a b = true <-> a = b.
Proof. destruct (str_eqb_spec a b); split; congruence. Qed.

Lemma bind_ret_l {A B} (a : A) (k : A -> M B) : bind (ret a) k = k a.
Proof. unfold bind, ret; destruct (k a); reflexivity. Qed.

Lemma bind_raise {A B} (e : exn) (k : A -> M B) : bind (raise e) k = raise e.
Proof. reflexivity. Qed.

Lemma bind_ok {A B} (w : list str) (a : A) (k : A -> M B) :
  bind (w, Ok a) k = (w ++ fst (k a), snd (k a)).
Proof. unfold bind; destruct (k a); reflexivity. Qed.

Lemma bind_warning {A B} (message : str) (a : A) (k : A -> M B) :
  bind (warning message ;;; ret a) k = (message :: fst (k a), snd (k a)).
Proof. unfold bind, warning, ret; simpl; destruct (k a); reflexivity. Qed.

Lemma bind_err {A B} (w : list str) (e : exn) (k : A -> M B) :
  bind (w, Err e) k = (w, Err e).
Proof. reflexivity. Qed.


(** ** [safe_float] *)

Lemma numeric_coercion_text (s : str) :
  numeric_coercion (PyStr s) = ret (coerce_text s).
Proof.
  unfold numeric_coercion, coerce_text; simpl.
  destruct (int_of_str s); [reflexivity|].
  destruct (float_of_str s); reflexivity.
Qed.


Lemma safe_float_no_map (text : pyval) :
  safe_float text None = ret (coerce_text (text_type text)).
Proof.
  unfold safe_float. rewrite bind_ret_l. apply numeric_coercion_text.
Qed.

(** C2, as the code has it. Without a replacement mapping, "3" gives
    the integer 3, "3.5" the float 3.5, and a token that reads neither
    as an integer nor as a float, such as "abc", is returned unchanged.
    The null input does not raise: it is turned into its text first and
    comes back as the string "None". *)
Theorem safe_float_tokens :
  safe_float (PyStr (u "3")) None = ret (PyInt 3)
  /\ safe_float (PyStr (u "3.5")) None = ret (PyFloat (FNum 35 (-1)))
  /\ safe_float (PyStr (u "abc")) None = ret (PyStr (u "abc"))
  /\ (forall token : str,
        int_of_str token = None -> float_of_str token = None ->
        safe_float (PyStr token) None = ret (PyStr token))
  /\ safe_float PyNone None = ret (PyStr (u "None")).
Proof.
  repeat split; try reflexivity.
  intros token Hi Hf. rewrite safe_float_no_map. simpl.
  unfold coerce_text. rewrite Hi, Hf. reflexivity.
Qed.

Lemma safe_float_tokens_witness :
  safe_float (PyStr (u "x1")) None = ret (PyStr (u "x1")).
Proof.
  apply (proj1 (proj2 (proj2 (proj2 safe_float_tokens)))); reflexivity.
Defined.

(** C2 as stated fails on the null input: [safe_float(None)] is not a
    value equal to the integer zero. *)
Lemma safe_float_None_not_zero :
  ~ exists w v, safe_float PyNone None = (w, Ok v) /\ py_eqb v (PyInt 0) = true.
Proof.
  intros (w & v & H & E).
  vm_compute in H. injection H as _ <-.
  vm_compute in E. discriminate.
Qed.

(** The integer zero is what a [TypeError] of [int()] gives: it takes a
    replacement mapping with a value that is neither text nor number. *)
Example safe_float_zero_by_replacement :
  safe_float PyNone (Some [(u "None", PyNone)]) = ret (PyInt 0).
Proof. reflexivity. Qed.

(** C8. Under a class map, a token that is a key is replaced by its
    value before the numeric coercion, and nothing is logged for it; a
    token that is not a key goes to the numeric coercion as it is, one
    warning is logged and no exception is raised. So "pos" under
    pos->"1", neg->"0" is the integer 1, and "neutral" stays
    "neutral", with a warning. *)
Theorem safe_float_class_map (token : str) (cm : dict pyval) :
  (forall v, dict_get cm token = Some v ->
     safe_float (PyStr token) (Some cm) = numeric_coercion v
     /\ fst (safe_float (PyStr token) (Some cm)) = [])
  /\ (dict_get cm token = None ->
      safe_float (PyStr token) (Some cm)
      = ([not_in_replace_dict token], Ok (coerce_text token))
      /\ numeric_coercion (PyStr token) = ([], Ok (coerce_text token)))
  /\ safe_float (PyStr (u "pos"))
       (Some [(u "pos", PyStr (u "1")); (u "neg", PyStr (u "0"))])
     = ([], Ok (PyInt 1))
  /\ safe_float (PyStr (u "neutral"))
       (Some [(u "pos", PyStr (u "1")); (u "neg", PyStr (u "0"))])
     = ([not_in_replace_dict (u "neutral")], Ok (PyStr (u "neutral"))).
Proof.
  split; [|split; [|split; reflexivity]].
  - intros v Hv. unfold safe_float. simpl text_type. rewrite Hv, bind_ret_l.
    split; [reflexivity|].
    unfold numeric_coercion.
    destruct (py_int v) as [z|[[]| | | | | |]]; try reflexivity;
      destruct (py_float v) as [f|[[]| | | | | |]]; reflexivity.
  - intros Hn. unfold safe_float. simpl text_type. rewrite Hn.
    rewrite bind_warning, numeric_coercion_text. split; reflexivity.
Qed.

Lemma safe_float_class_map_witness :
  safe_float (PyStr (u "neg"))
    (Some [(u "pos", PyStr (u "1")); (u "neg", PyStr (u "0"))])
  = numeric_coercion (PyStr (u "0"))
  /\ safe_float (PyStr (u "other")) (Some [(u "pos", PyStr (u "1"))])
     = ([not_in_replace_dict (u "other")], Ok (PyStr (u "other"))).
Proof.
  split.
  - apply (proj1 (safe_float_class_map (u "neg")
                    [(u "pos", PyStr (u "1")); (u "neg", PyStr (u "0"))])).
    reflexivity.
  - apply (proj1 (proj2 (safe_float_class_map (u "other")
                           [(u "pos", PyStr (u "1"))]))).
    reflexivity.
Defined.



(** With a replacement value that is an infinite float, [int()] raises
    an [OverflowError], which [safe_float] does not catch. *)
Example safe_float_overflow :
  safe_float (PyStr (u "a")) (Some [(u "a", PyFloat (FInf false))])
  = raise OverflowError.
Proof. reflexivity. Qed.

(** ** [Reader.for_path] *)

Lemma is_prefix_refl (p : str) : is_prefix p p = true.
Proof. induction p; simpl; [|rewrite N.eqb_refl]; auto. Qed.

Lemma contains_app_r (a p : str) : contains p (a ++ p) = true.
Proof.
  induction a as [|x a IH]; simpl.
  - destruct p; simpl; [reflexivity|].
    rewrite N.eqb_refl, is_prefix_refl. reflexivity.
  - rewrite IH. apply orb_true_r.
Qed.

(** The dispatch on the extension: a path whose lowercase extension is
    in [EXT_TO_READER] gets the reader class of the table, with the
    keyword arguments; any other path is refused, and the message ends
    with the path. *)
Lemma for_path_dispatch (p : str) (kw : kwargs) :
  for_path (Path p) kw
  = match dict_get EXT_TO_READER (u "." ++ lower (last (rsplit1 (ch ".") p) [])) with
    | Some cls => new cls (Path p) kw
    | None => Err (ValueError (UnsupportedFormat (invalid_extension p)))
    end
  /\ contains p (invalid_extension p) = true.
Proof. split; [reflexivity|apply contains_app_r]. Qed.

Example for_path_extensions :
  List.map (fun p => match for_path (Path (u p)) no_kwargs with
                     | Ok r => Some (class_of r)
                     | Err _ => None
                     end)
    ["a.arff"; "a.csv"; "a.jsonlines"; "a.libsvm"; "a.megam"; "a.ndj";
     "a.tsv"; "b.v2.CSV"; "a.Tsv"; "a.txt"; "a"]%string
  = [Some ARFFReader; Some CSVReader; Some NDJReader; Some LibSVMReader;
     Some MegaMReader; Some NDJReader; Some TSVReader; Some CSVReader;
     Some TSVReader; None; None].
Proof. reflexivity. Qed.

(** C3, at the path "data.txt". The extension is not in the table and
    the path is refused with a message that names the path; the message
    names every extension of the table but ".libsvm", which the table
    holds. *)
Theorem for_path_message_omits_libsvm :
  for_path (Path (u "data.txt")) no_kwargs
  = Err (ValueError (UnsupportedFormat (invalid_extension (u "data.txt"))))
  /\ contains (u "data.txt") (invalid_extension (u "data.txt")) = true
  /\ dict_mem EXT_TO_READER (u ".libsvm") = true
  /\ contains (u ".libsvm") (invalid_extension (u "data.txt")) = false
  /\ forallb (fun kv => str_eqb (fst kv) (u ".libsvm")
                        || contains (fst kv) (invalid_extension (u "data.txt")))
       EXT_TO_READER = true.
Proof. repeat split; vm_compute; reflexivity. Qed.

(** C9. For a list of records, [for_path] builds the record-list reader
    from the list alone: whatever the keyword arguments, the reader is
    the one with the default configuration, so that two calls with
    different keyword arguments give the same reader. *)
Theorem for_path_list_ignores_kwargs (l : list record) (kw kw' : kwargs) :
  for_path (Records l) kw
  = Ok {| class_of := DictListReader;
          path_or_list := Records l;
          quiet := true;
          ids_to_floats := false;
          label_col := Some (u "y");
          id_col := Some (u "id");
          class_map := None;
          vectorizer := DictVectorizer true;
          _use_pandas := true;
          _pandas_kwargs := [];
          _sep := [];
          _engine := PyNone |}
  /\ for_path (Records l) kw = for_path (Records l) kw'.
Proof. split; reflexivity. Qed.

(** For a path, on the other hand, the keyword arguments do reach the
    reader. *)
Example for_path_path_keeps_kwargs :
  match for_path (Path (u "a.csv"))
          {| kw_quiet := Some false; kw_ids_to_floats := Some true;
             kw_label_col := None; kw_id_col := None; kw_class_map := None;
             kw_sparse := None; kw_feature_hasher := None;
             kw_num_features := None; kw_pandas_kwargs := None |} with
  | Ok r => (quiet r, ids_to_floats r)
  | Err _ => (true, false)
  end = (false, true).
Proof. reflexivity. Qed.

(** ** MegaM *)

Lemma pairs_of_flatten (pairs : list (str * str)) :
  pairs_of (flatten pairs) = pairs.
Proof.
  induction pairs as [|[n v] pairs IH]; simpl; [reflexivity|].
  unfold flatten in IH. rewrite IH. reflexivity.
Qed.

Lemma length_flatten (pairs : list (str * str)) :
  length (flatten pairs) = 2 * length pairs.
Proof.
  induction pairs as [|[n v] pairs IH]; simpl; [reflexivity|].
  unfold flatten in IH. rewrite IH. lia.
Qed.

Lemma mapM_safe_float_values (pairs : list (str * str)) :
  mapM (fun nv : str * str =>
          v <- safe_float (PyStr (snd nv)) None ;; ret (fst nv, v)) pairs
  = ret (List.map (fun nv => (fst nv, coerce_text (snd nv))) pairs).
Proof.
  induction pairs as [|[n v] pairs IH]; simpl; [reflexivity|].
  rewrite safe_float_no_map, IH. reflexivity.
Qed.

Lemma dict_set_fresh {V} (d : dict V) (k : str) (v : V) :
  ~ In k (List.map fst d) -> dict_set d k v = d ++ [(k, v)].
Proof.
  induction d as [|[k' v'] d IH]; simpl; intros H; [reflexivity|].
  destruct (str_eqb_spec k' k) as [->|_]; [tauto|].
  rewrite IH; tauto.
Qed.

Lemma dict_update_fresh {V} (kvs d : dict V) :
  NoDup (List.map fst (d ++ kvs)) -> dict_update d kvs = d ++ kvs.
Proof.
  revert d; induction kvs as [|[k v] kvs IH]; intros d H; simpl.
  - symmetry; apply app_nil_r.
  - unfold dict_update in *; simpl.
    assert (Hk : ~ In k (List.map fst d)).
    { rewrite map_app in H; simpl in H.
      apply NoDup_remove_2 in H. rewrite in_app_iff in H. tauto. }
    rewrite (dict_set_fresh d k v Hk), IH, <- app_assoc; [reflexivity|].
    rewrite <- app_assoc. exact H.
Qed.

Lemma megam_features_distinct (self : Reader) (curr_id : str)
  (pairs : list (str * str)) :
  NoDup (List.map fst pairs) ->
  megam_features self curr_id (flatten pairs)
  = ret (List.map (fun nv => (fst nv, coerce_text (snd nv))) pairs).
Proof.
  intros H. unfold megam_features.
  rewrite length_flatten, pairs_of_flatten.
  destruct (0 <? 2 * length pairs) eqn:E.
  2:{ apply Nat.ltb_ge in E. destruct pairs; [reflexivity|simpl in E; lia]. }
  rewrite mapM_safe_float_values, bind_ret_l.
  rewrite (dict_update_fresh _ []).
  - simpl app. rewrite length_map, Nat.eqb_refl. reflexivity.
  - simpl app. rewrite map_map. exact H.
Qed.

Lemma bind_assoc {A B C} (m : M A) (f : A -> M B) (g : B -> M C) :
  bind (bind m f) g = bind m (fun a => bind (f a) g).
Proof.
  destruct m as [w [a|e]]; simpl; [|reflexivity].
  destruct (f a) as [w' [b|e]]; simpl; [|reflexivity].
  destruct (g b); simpl. rewrite app_assoc. reflexivity.
Qed.

Lemma bind_ext {A B} (m : M A) (f g : A -> M B) :
  (forall a, f a = g a) -> bind m f = bind m g.
Proof.
  intros H. destruct m as [w [a|e]]; simpl; [rewrite H|]; reflexivity.
Qed.

Lemma megam_features_nil (self : Reader) (curr_id : str) :
  megam_features self curr_id [] = ret [].
Proof. reflexivity. Qed.

(** C4. An instance line of a MegaM file (not blank, not a comment, not
    a reserved word) yields one example, made from its tokens: a single
    token is the label and there are no features; an odd number of
    tokens above one gives the first token as label and the others as
    feature-value pairs; an even number gives no label and all tokens as
    pairs. Pairs with distinct names become the feature mapping, values
    coerced. The three-line input of the specification yields the two
    examples it lists. *)
Theorem MegaM_instance_tokens (self : Reader) (curr_id line : str) :
  let tokens := split line in
  (length tokens = 1 ->
   megam_instance self curr_id line
   = (class_name <- safe_float (PyStr (hd [] tokens)) (class_map self) ;;
      ret (curr_id, class_name, [])))
  /\ (1 < length tokens -> length tokens mod 2 = 1 ->
      megam_instance self curr_id line
      = (class_name <- safe_float (PyStr (hd [] tokens)) (class_map self) ;;
         curr_info_dict <- megam_features self curr_id (tl tokens) ;;
         ret (curr_id, class_name, curr_info_dict)))
  /\ (length tokens mod 2 = 0 ->
      megam_instance self curr_id line
      = (curr_info_dict <- megam_features self curr_id tokens ;;
         ret (curr_id, PyNone, curr_info_dict)))
  /\ (forall pairs : list (str * str),
        NoDup (List.map fst pairs) ->
        megam_features self curr_id (flatten pairs)
        = ret (List.map (fun nv => (fst nv, coerce_text (snd nv))) pairs))
  /\ (forall (example_num : nat) (f : list str),
        startswith (ch "#") (strip line) = false ->
        nonempty (strip line) = true ->
        reserved (strip line) = false ->
        MegaM_loop self example_num curr_id (line :: f)
        = match megam_instance self curr_id (strip line) with
          | (w, Ok ex) =>
              Yield w ex
                (MegaM_loop self (S example_num) (EXAMPLE_ (S example_num)) f)
          | (w, Err e) => Raise w e
          end)
  /\ (class_map self = None ->
      MegaM_sub_read self [u "# ex1"; u "1 f1 2.0 f2 3.0"; u "f1 1.0"]
      = Yield [] (u "ex1", PyInt 1,
                  [(u "f1", PyFloat (FNum 2 0)); (u "f2", PyFloat (FNum 3 0))])
          (Yield [] (u "EXAMPLE_1", PyNone, [(u "f1", PyFloat (FNum 1 0))])
             (Done []))).
Proof.
  intros tokens. repeat split.
  - intros H1. unfold megam_instance, megam_label. fold tokens.
    rewrite H1. simpl Nat.eqb. cbv iota.
    rewrite bind_assoc. apply bind_ext; intros class_name.
    rewrite bind_ret_l, megam_features_nil, bind_ret_l. reflexivity.
  - intros Hgt Hodd. unfold megam_instance, megam_label. fold tokens.
    rewrite Hodd.
    replace (length tokens =? 1) with false
      by (symmetry; apply Nat.eqb_neq; lia).
    simpl Nat.eqb. cbv iota.
    rewrite bind_assoc. apply bind_ext; intros class_name.
    rewrite bind_ret_l. reflexivity.
  - intros Heven. unfold megam_instance, megam_label. fold tokens.
    rewrite Heven.
    replace (length tokens =? 1) with false
      by (symmetry; apply Nat.eqb_neq; intros E; rewrite E in Heven;
          discriminate).
    simpl Nat.eqb. cbv iota. rewrite bind_ret_l. reflexivity.
  - apply megam_features_distinct.
  - intros example_num f Hc Hn Hr. simpl. rewrite Hc, Hn, Hr. reflexivity.
  - intros Hcm. destruct self; simpl in Hcm; subst. reflexivity.
Qed.

Lemma MegaM_instance_tokens_witness :
  megam_instance (Reader_init MegaMReader (Path (u "train.megam")) no_kwargs)
    (u "ex1") (u "1 f1 2.0 f2 3.0")
  = ret (u "ex1", PyInt 1,
         [(u "f1", PyFloat (FNum 2 0)); (u "f2", PyFloat (FNum 3 0))])
  /\ megam_instance (Reader_init MegaMReader (Path (u "train.megam")) no_kwargs)
       (u "EXAMPLE_1") (u "f1 1.0")
     = ret (u "EXAMPLE_1", PyNone, [(u "f1", PyFloat (FNum 1 0))])
  /\ MegaM_sub_read (Reader_init MegaMReader (Path (u "train.megam")) no_kwargs)
       [u "# ex1"; u "1 f1 2.0 f2 3.0"; u "f1 1.0"]
     = Yield [] (u "ex1", PyInt 1,
                 [(u "f1", PyFloat (FNum 2 0)); (u "f2", PyFloat (FNum 3 0))])
         (Yield [] (u "EXAMPLE_1", PyNone, [(u "f1", PyFloat (FNum 1 0))])
            (Done [])).
Proof.
  set (self := Reader_init MegaMReader (Path (u "train.megam")) no_kwargs).
  split; [|split].
  - rewrite (proj1 (proj2 (MegaM_instance_tokens self (u "ex1")
                             (u "1 f1 2.0 f2 3.0"))));
      [reflexivity|simpl; lia|reflexivity].
  - rewrite (proj1 (proj2 (proj2 (MegaM_instance_tokens self (u "EXAMPLE_1")
                                    (u "f1 1.0")))));
      reflexivity.
  - apply (proj2 (proj2 (proj2 (proj2 (proj2
             (MegaM_instance_tokens self (u "") (u ""))))))).
    reflexivity.
Defined.

(** ** LibSVM *)

(** The line of the specification: the comment gives the identifier,
    the name of the label and the names of the features. *)
Example LibSVM_comment_line (self : Reader) :
  class_map self = None ->
  LibSVM_sub_read self [u "1 1:2.0 2:3.0 # ex1 | 1=pos | 1=f1 2=f2"]
  = Yield [] (u "ex1", PyStr (u "pos"),
              [(u "f1", PyFloat (FNum 2 0)); (u "f2", PyFloat (FNum 3 0))])
      (Done []).
Proof. intros H. destruct self; simpl in H; subst. reflexivity. Qed.

(** The look-alikes of the colon, the hash sign, the equals sign and
    the bar in a feature name are put back. *)
Example LibSVM_lookalikes_restored (self : Reader) :
  class_map self = None ->
  LibSVM_sub_read self
    [u "1 1:2.0 # ex1 | 1=pos | 1=a" ++ [0x2236%N] ++ u "b" ++ [0xFF03%N]
     ++ u "c" ++ [0xA78A%N] ++ u "d" ++ [0x2223%N] ++ u "e"]
  = Yield [] (u "ex1", PyStr (u "pos"), [(u "a:b#c=d|e", PyFloat (FNum 2 0))])
      (Done []).
Proof. intros H. destruct self; simpl in H; subst. reflexivity. Qed.

(** C5, at a line whose feature name holds U+2002, the look-alike of
    the space. The code point is whitespace: [split()] cuts the
    feature map there, before the substitution, and the piece after it
    has no equals sign to unpack. The reader raises a [ValueError]
    instead of yielding the feature "a b". *)
Theorem LibSVM_space_lookalike_raises (self : Reader) :
  isspace 0x2002%N = true
  /\ existsb (fun rep => N.eqb (fst rep) 0x2002%N && N.eqb (snd rep) (ch " "))
       LIBSVM_REPLACE_DICT = true
  /\ split (u "1=a" ++ [0x2002%N] ++ u "b") = [u "1=a"; u "b"]
  /\ LibSVM_sub_read self
       [u "1 1:2.0 # ex1 | 1=pos | 1=a" ++ [0x2002%N] ++ u "b"]
     = Raise [] (ValueError Builtin).
Proof. repeat split; reflexivity. Qed.

(** A file without comments: the names [label_map] and [feat_map] are
    read before any assignment. *)
Example LibSVM_plain_line (self : Reader) :
  LibSVM_sub_read self [u "1 1:2.0 2:3.0"]
  = Raise [] (UnboundLocalError (u "label_map")).
Proof. reflexivity. Qed.

(** ** Equality of values and sets *)

Lemma float_eqb_eq (a b : float) : float_eqb a b = true <-> a = b.
Proof.
  destruct a, b; simpl; split; intros H; try discriminate; try reflexivity.
  - apply andb_true_iff in H as [H1 H2].
    apply Z.eqb_eq in H1, H2. congruence.
  - injection H as -> ->. rewrite !Z.eqb_refl. reflexivity.
  - apply Bool.eqb_prop in H. congruence.
  - injection H as ->. apply Bool.eqb_reflx.
Qed.

Lemma pyval_eqb_eq (a b : pyval) : pyval_eqb a b = true <-> a = b.
Proof.
  destruct a, b; simpl; split; intros H; try discriminate; try reflexivity.
  - apply Bool.eqb_prop in H. congruence.
  - injection H as ->. apply Bool.eqb_reflx.
  - apply Z.eqb_eq in H. congruence.
  - injection H as ->. apply Z.eqb_refl.
  - apply float_eqb_eq in H. congruence.
  - injection H as ->. apply float_eqb_eq. reflexivity.
  - apply str_eqb_eq in H. congruence.
  - injection H as ->. apply str_eqb_refl.
  - apply str_eqb_eq in H. congruence.
  - injection H as ->. apply str_eqb_refl.
Qed.

Lemma py_eqb_true (a b : pyval) :
  py_eqb a b = true <-> exists x, canon a = Some x /\ canon b = Some x.
Proof.
  unfold py_eqb. split.
  - destruct (canon a) as [x|], (canon b) as [y|]; try discriminate.
    intros H. apply pyval_eqb_eq in H. subst. eauto.
  - intros (x & -> & ->). apply pyval_eqb_eq. reflexivity.
Qed.

Lemma py_eqb_sym (a b : pyval) : py_eqb a b = py_eqb b a.
Proof.
  destruct (py_eqb a b) eqn:E; symmetry.
  - apply py_eqb_true in E as (x & Ha & Hb). apply py_eqb_true. eauto.
  - destruct (py_eqb b a) eqn:E'; [|reflexivity].
    apply py_eqb_true in E' as (x & Hb & Ha).
    rewrite <- E. symmetry. apply py_eqb_true. eauto.
Qed.

Lemma py_eqb_trans (a b c : pyval) :
  py_eqb a b = true -> py_eqb b c = true -> py_eqb a c = true.
Proof.
  intros H1 H2. apply py_eqb_true in H1 as (x & Ha & Hb).
  apply py_eqb_true in H2 as (y & Hb' & Hc).
  apply py_eqb_true. exists x. split; congruence.
Qed.

Lemma set_add_length (s : list pyval) (x : pyval) :
  length (set_add s x) <= S (length s).
Proof.
  unfold set_add. destruct (existsb (py_eqb x) s); [lia|].
  rewrite length_app; simpl; lia.
Qed.

Lemma set_add_incl (s : list pyval) (x z : pyval) :
  In z s -> In z (set_add s x).
Proof.
  unfold set_add. destruct (existsb (py_eqb x) s); [auto|].
  intros H. apply in_or_app. auto.
Qed.

Lemma fold_set_add_length (l s : list pyval) :
  length (fold_left set_add l s) <= length s + length l.
Proof.
  revert s; induction l as [|x l IH]; intros s; simpl; [lia|].
  specialize (IH (set_add s x)). pose proof (set_add_length s x). lia.
Qed.

(** A value of the list that is equal to one already in the set makes
    the set shorter than the list. *)
Lemma fold_set_add_seen (l s : list pyval) (y z : pyval) :
  In y l -> In z s -> py_eqb y z = true ->
  length (fold_left set_add l s) < length s + length l.
Proof.
  revert s; induction l as [|a l IH]; intros s Hy Hz E; simpl in *; [tauto|].
  destruct Hy as [->|Hy].
  - assert (Hs : set_add s y = s).
    { unfold set_add.
      replace (existsb (py_eqb y) s) with true; [reflexivity|].
      symmetry. apply existsb_exists. eauto. }
    rewrite Hs. pose proof (fold_set_add_length l s). lia.
  - specialize (IH (set_add s a) Hy (set_add_incl s a z Hz) E).
    pose proof (set_add_length s a). lia.
Qed.

Lemma fold_set_add_duplicate (l s : list pyval) :
  all_distinct l = false ->
  length (fold_left set_add l s) < length s + length l.
Proof.
  revert s; induction l as [|x l IH]; intros s H; simpl in *; [discriminate|].
  apply andb_false_iff in H as [H|H].
  - apply negb_false_iff, existsb_exists in H as (y & Hy & E).
    assert (Hz : exists z, In z (set_add s x) /\ py_eqb y z = true).
    { unfold set_add. destruct (existsb (py_eqb x) s) eqn:Ex.
      - apply existsb_exists in Ex as (z & Hz & Ez). exists z. split; [auto|].
        apply py_eqb_trans with x; [rewrite py_eqb_sym|]; assumption.
      - exists x. split; [apply in_or_app; simpl; auto|].
        rewrite py_eqb_sym. assumption. }
    destruct Hz as (z & Hz & Ez).
    pose proof (fold_set_add_seen l (set_add s x) y z Hy Hz Ez).
    pose proof (set_add_length s x). lia.
  - specialize (IH (set_add s x) H). pose proof (set_add_length s x). lia.
Qed.

Lemma fold_set_add_distinct (l s : list pyval) :
  all_distinct l = true ->
  (forall x, In x l -> existsb (py_eqb x) s = false) ->
  fold_left set_add l s = s ++ l.
Proof.
  revert s; induction l as [|x l IH]; intros s H Hs; simpl in *.
  - symmetry; apply app_nil_r.
  - apply andb_true_iff in H as [Hx Hl]. apply negb_true_iff in Hx.
    unfold set_add at 2. rewrite (Hs x) by auto.
    rewrite IH, <- app_assoc; [reflexivity|assumption|].
    intros y Hy. rewrite existsb_app, (Hs y) by auto. simpl.
    rewrite orb_false_r, py_eqb_sym.
    destruct (py_eqb x y) eqn:E; [|reflexivity].
    rewrite <- Hx. symmetry. apply existsb_exists. eauto.
Qed.

(** The test of [read] on the identifiers, [len(ids) != len(set(ids))],
    is the test that two of them are equal. *)
Lemma py_set_length (ids : list pyval) :
  (length ids =? length (py_set ids)) = all_distinct ids.
Proof.
  unfold py_set. destruct (all_distinct ids) eqn:E.
  - rewrite fold_set_add_distinct by (simpl; auto). apply Nat.eqb_refl.
  - apply Nat.eqb_neq. pose proof (fold_set_add_duplicate ids [] E).
    simpl in *. lia.
Qed.

(** ** Inversion in the monad *)

Lemma bind_inv_ok {A B} (m : M A) (k : A -> M B) (w : list str) (b : B) :
  bind m k = (w, Ok b) ->
  exists w1 a w2, m = (w1, Ok a) /\ k a = (w2, Ok b) /\ w = w1 ++ w2.
Proof.
  destruct m as [w1 [a|e]]; simpl; [|discriminate].
  destruct (k a) as [w2 r] eqn:E. intros H. injection H as <- ->.
  eexists _, _, _; eauto.
Qed.

Lemma mapM_length {A B} (f : A -> M B) (l : list A) (w : list str)
  (l' : list B) :
  mapM f l = (w, Ok l') -> length l' = length l.
Proof.
  revert w l'; induction l as [|a l IH]; simpl; intros w l' H.
  - injection H as _ <-. reflexivity.
  - apply bind_inv_ok in H as (w1 & b & w2 & _ & H & _).
    apply bind_inv_ok in H as (w3 & bs & w4 & H & Hr & _).
    injection Hr as _ <-. simpl. f_equal. eauto.
Qed.

(** ** Data frames *)

Lemma df_col_length (df : DataFrame) (i : nat) :
  length (df_col df i) = shape0 df.
Proof. apply length_map. Qed.

Lemma df_del_shape0 (df : DataFrame) (i : nat) :
  shape0 (df_del df i) = shape0 df.
Proof. apply length_map. Qed.

Lemma df_astype_str_shape0 (df : DataFrame) (i : nat) :
  shape0 (df_astype_str df i) = shape0 df.
Proof. apply length_map. Qed.

Lemma example_ids_length (n : nat) : length (example_ids n) = n.
Proof. unfold example_ids. rewrite length_map. apply length_seq. Qed.

Lemma df_empty_no_rows (df : DataFrame) :
  shape0 df = 0 -> df_empty df = true.
Proof.
  unfold shape0, df_empty. destruct (rows df); [|discriminate].
  intros _. apply orb_true_r.
Qed.

Lemma df_not_empty_rows (df : DataFrame) :
  df_empty df = false -> 0 < shape0 df.
Proof.
  unfold shape0, df_empty. destruct (rows df); simpl; [|lia].
  rewrite orb_true_r. discriminate.
Qed.

Lemma np_array_length (l : list pyval) : length (np_array l) = length l.
Proof. destruct l; [reflexivity|]. unfold np_array. apply length_map. Qed.

Lemma to_dict_records_length (df : DataFrame) :
  length (to_dict_records df) = shape0 df.
Proof. unfold to_dict_records. apply length_map. Qed.

Lemma extract_ids_ok (self : Reader) (df df' : DataFrame)
  (id_col : option str) (w : list str) (ids : list pyval) :
  extract_ids self df id_col = (w, Ok (ids, df')) ->
  length ids = shape0 df /\ shape0 df' = shape0 df.
Proof.
  unfold extract_ids.
  destruct id_col as [c|];
    [destruct (index_of c (columns df)) as [i|]|];
    try (intros H; injection H as _ <- <-; split;
         [apply example_ids_length|reflexivity]).
  intros H. apply bind_inv_ok in H as (w1 & l & w2 & H & Hr & _).
  injection Hr as _ <- <-. split; [|apply df_del_shape0].
  destruct (ids_to_floats self).
  - apply mapM_length in H. rewrite H. apply df_col_length.
  - injection H as _ <-. rewrite length_map. apply df_col_length.
Qed.

Lemma extract_labels_ok (self : Reader) (df df' : DataFrame)
  (label_col : option str) (w : list str) (labels : list pyval) :
  extract_labels self df label_col = (w, Ok (labels, df')) ->
  length labels = shape0 df /\ shape0 df' = shape0 df.
Proof.
  unfold extract_labels.
  destruct label_col as [c|];
    [destruct (index_of c (columns df)) as [i|]|];
    try (intros H; injection H as _ <- <-; split;
         [apply repeat_length|reflexivity]).
  intros H. apply bind_inv_ok in H as (w1 & l & w2 & H & Hr & _).
  injection Hr as _ <- <-. split; [|apply df_del_shape0].
  destruct (class_map self); apply mapM_length in H; rewrite H;
    apply df_col_length.
Qed.

(** What [_parse_dataframe] returns has one identifier and one label
    per row of the frame, which has rows; the features are the ones
    passed, or one mapping per row. *)
Lemma parse_dataframe_ok (self : Reader) (df : DataFrame)
  (id_col label_col : option str) (features : option (list cell))
  (w : list str) (ids labels : list pyval) (feats : list cell) :
  _parse_dataframe self df id_col label_col features
  = (w, Ok (ids, labels, feats)) ->
  0 < shape0 df
  /\ length ids = shape0 df
  /\ length labels = shape0 df
  /\ match features with
     | Some f => feats = f
     | None => length feats = shape0 df
     end.
Proof.
  unfold _parse_dataframe. destruct (df_empty df) eqn:E; [discriminate|].
  intros H.
  apply bind_inv_ok in H as (w1 & [ids' df1] & w2 & Hi & H & _).
  apply bind_inv_ok in H as (w3 & [labels' df2] & w4 & Hl & H & _).
  injection H as _ <- <- <-.
  apply extract_ids_ok in Hi as [Hi H1].
  apply extract_labels_ok in Hl as [Hl H2].
  repeat split; [apply df_not_empty_rows; assumption|congruence|congruence|].
  destruct features; [reflexivity|].
  rewrite to_dict_records_length. congruence.
Qed.

Lemma parse_dataframe_empty (self : Reader) (df : DataFrame)
  (id_col label_col : option str) (features : option (list cell)) :
  df_empty df = true ->
  _parse_dataframe self df id_col label_col features
  = raise (ValueError (EmptyInput (path_or_list self))).
Proof. unfold _parse_dataframe. intros ->. reflexivity. Qed.

(** ** Generators *)

Lemma drain_nil {A} (g : gen A) (w : list str) :
  drain g = (w, Ok []) -> g = Done w.
Proof.
  destruct g as [w0|w0 e|w0 a rest]; simpl; intros H.
  - congruence.
  - discriminate.
  - destruct (drain rest) as [w1 [l|e]]; simpl in H; discriminate.
Qed.

(** The first loop of [_sub_read_rows] collects one identifier and one
    label per example of the generator, which then ends normally. *)
Lemma ids_and_labels_ok (self : Reader) (g : gen example) (w : list str)
  (ids labels : list pyval) :
  ids_and_labels self g = (w, Ok (ids, labels)) ->
  exists w' exs,
    drain g = (w', Ok exs)
    /\ length ids = length exs /\ length labels = length exs.
Proof.
  revert w ids labels;
    induction g as [w0|w0 e|w0 [[id_ class_] d] rest IH];
    intros w ids labels H; cbn [ids_and_labels] in H.
  - injection H as _ <- <-. exists w0, []. auto.
  - discriminate.
  - apply bind_inv_ok in H as (w1 & [] & w2 & _ & H & _).
    apply bind_inv_ok in H as (w3 & id' & w4 & _ & H & _).
    apply bind_inv_ok in H as (w5 & [ids' labels'] & w6 & H & Hr & _).
    injection Hr as _ <- <-.
    destruct (IH _ _ _ H) as (w' & exs & Hd & Hi & Hl).
    simpl. rewrite Hd. simpl.
    eexists _, _. split; [reflexivity|]. simpl. auto.
Qed.

Lemma bind_snd_err {A B} (m : M A) (k : A -> M B) (e : exn) :
  snd m = Err e -> snd (bind m k) = Err e.
Proof. destruct m as [w [a|e']]; simpl; intros H; congruence. Qed.

Lemma bind_snd_ok {A B} (m : M A) (k : A -> M B) (w : list str) (a : A) :
  m = (w, Ok a) -> snd (bind m k) = snd (k a).
Proof. intros ->. simpl. destruct (k a); reflexivity. Qed.

Lemma lift_inv_ok {A} (r : result A) (w : list str) (a : A) :
  lift r = (w, Ok a) -> r = Ok a.
Proof. unfold lift. congruence. Qed.

(** The readers of records: the column [x] gives one feature mapping
    per row. *)
Lemma records_tail_ok (self : Reader) (df : DataFrame)
  (id_col label_col : option str) (w : list str) (ids labels : list pyval)
  (feats : list cell) :
  (features <- df_getitem df (u "x") ;;
   _parse_dataframe self df id_col label_col (Some features))
  = (w, Ok (ids, labels, feats)) ->
  0 < shape0 df /\ length ids = shape0 df /\ length labels = shape0 df
  /\ length feats = shape0 df.
Proof.
  intros H. apply bind_inv_ok in H as (w1 & f & w2 & Hx & H & _).
  apply parse_dataframe_ok in H as (Hn & Hi & Hl & ->).
  repeat split; try assumption.
  unfold df_getitem in Hx.
  destruct (index_of (u "x") (columns df)); [|discriminate].
  injection Hx as _ <-. apply df_col_length.
Qed.

(** ** [Reader.read] *)

Section ReadFacts.

Variable read_lines : str -> result (list str).
Variable read_csv : str -> str -> pyval -> dict pyval -> result DataFrame.
Variable read_csv_buffer : str -> pyval -> dict pyval -> result DataFrame.
Variable read_json : str -> dict pyval -> result DataFrame.
Variable matrix : Type.
Variable n_rows : matrix -> nat.
Variable fit_transform : vectorizer_kind -> list cell -> result matrix.

Local Abbreviation Table := (table read_lines read_csv read_csv_buffer read_json).
Local Abbreviation Sub_read :=
  (_sub_read read_lines read_csv read_csv_buffer read_json).
Local Abbreviation Sub_read_rows := (_sub_read_rows read_lines).
Local Abbreviation Parse := (parse read_lines read_csv read_csv_buffer read_json).
Local Abbreviation Examples_in :=
  (examples_in read_lines read_csv read_csv_buffer read_json).
Local Abbreviation Read :=
  (read read_lines read_csv read_csv_buffer read_json n_rows fit_transform).

(** A reader that goes through pandas returns one identifier and one
    label per row of its table. *)
Lemma sub_read_ok (self : Reader) (w : list str) (ids labels : list pyval)
  (feats : list cell) :
  Sub_read self (path_or_list self) = (w, Ok (ids, labels, feats)) ->
  exists w0 df,
    Table self = (w0, Ok df)
    /\ 0 < shape0 df /\ length ids = shape0 df /\ length labels = shape0 df
    /\ length feats = shape0 df.
Proof.
  unfold _sub_read, table.
  destruct (class_of self), (path_or_list self) as [p|l];
    try discriminate; intros H.
  - (* ARFF *)
    unfold ARFF_sub_read in H.
    apply bind_inv_ok in H as (w0 & df & w2 & Ht & H & _).
    apply parse_dataframe_ok in H as (Hn & Hi & Hl & Hf).
    exists w0, df. tauto.
  - (* CSV *)
    unfold CSV_sub_read in H. simpl path_of in H. rewrite bind_ret_l in H.
    apply bind_inv_ok in H as (w0 & df & w2 & Ht & H & _).
    apply parse_dataframe_ok in H as (Hn & Hi & Hl & Hf).
    exists w0, df. tauto.
  - (* NDJ *)
    unfold NDJ_sub_read in H. simpl path_of in H. rewrite bind_ret_l in H.
    apply bind_inv_ok in H as (w0 & df & w2 & Ht & H & _).
    exists w0, df. split; [assumption|].
    destruct (df_empty df) eqn:E.
    + rewrite parse_dataframe_empty in H by assumption. discriminate.
    + apply records_tail_ok in H.
      destruct (index_of (u "id") (columns df));
        rewrite ?df_astype_str_shape0 in H; tauto.
  - (* TSV *)
    unfold CSV_sub_read in H. simpl path_of in H. rewrite bind_ret_l in H.
    apply bind_inv_ok in H as (w0 & df & w2 & Ht & H & _).
    apply parse_dataframe_ok in H as (Hn & Hi & Hl & Hf).
    exists w0, df. tauto.
  - (* DictList *)
    unfold DictList_sub_read in H.
    exists [], (pd_DataFrame l). split; [reflexivity|].
    destruct (df_empty (pd_DataFrame l)) eqn:E.
    + rewrite parse_dataframe_empty in H by assumption. discriminate.
    + apply records_tail_ok in H. tauto.
Qed.

(** A successful first step of [read]: the source holds [N > 0]
    examples, there are [N] identifiers and [N] labels, and the
    feature mappings come out, [N] of them. *)
Lemma parse_counts (self : Reader) (w : list str) (ids labels : list pyval)
  (features : M (list cell)) :
  Parse self = (w, Ok (ids, labels, features)) ->
  exists N w2 feats,
    Examples_in self = Some N /\ 0 < N
    /\ length ids = N /\ length labels = N
    /\ features = (w2, Ok feats)
    /\ length feats = N.
Proof.
  unfold parse, examples_in. destruct (_use_pandas self); intros H.
  - apply bind_inv_ok in H as (w1 & [[ids' labels'] feats] & w2 & H & Hr & _).
    injection Hr as _ <- <- <-.
    apply sub_read_ok in H as (w0 & df & Ht & Hn & Hi & Hl & Hf).
    rewrite Ht. exists (shape0 df), [], feats. auto 10.
  - unfold _sub_read_rows in H.
    destruct (path_or_list self) as [p|l] eqn:Hp; [|discriminate].
    simpl path_of in H. rewrite bind_ret_l in H.
    apply bind_inv_ok in H as (w1 & f & w2 & Hf & H & _).
    apply lift_inv_ok in Hf.
    apply bind_inv_ok in H as (w3 & [ids' labels'] & w4 & H & Hr & _).
    destruct (length ids' =? 0) eqn:E0; [discriminate|].
    injection Hr as _ <- <- <-.
    apply ids_and_labels_ok in H as (w' & exs & Hd & Hi & Hl).
    rewrite Hf, Hd. apply Nat.eqb_neq in E0.
    exists (length exs), (w' ++ []),
      (List.map (fun ex : example => Mapping (snd ex)) exs).
    rewrite !np_array_length.
    repeat split; try assumption; try lia.
    + unfold feat_dict_generator. rewrite Hp. simpl path_of.
      rewrite bind_ret_l, Hf. unfold lift. rewrite (bind_ret_l f).
      rewrite Hd. reflexivity.
    + apply length_map.
Qed.

(** The table of a reader has no row: [_sub_read] stops at the test
    of [_parse_dataframe]. *)
Lemma sub_read_empty (self : Reader) (w0 : list str) (df : DataFrame) :
  Table self = (w0, Ok df) -> shape0 df = 0 ->
  snd (Sub_read self (path_or_list self))
  = Err (ValueError (EmptyInput (path_or_list self))).
Proof.
  unfold _sub_read, table. intros Ht Hn.
  apply df_empty_no_rows in Hn.
  destruct (class_of self), (path_or_list self) as [p|l] eqn:Hp;
    try discriminate.
  - unfold ARFF_sub_read. rewrite (bind_snd_ok _ Ht).
    rewrite parse_dataframe_empty, Hp by assumption. reflexivity.
  - unfold CSV_sub_read. simpl path_of. rewrite bind_ret_l.
    rewrite (bind_snd_ok _ Ht).
    rewrite parse_dataframe_empty, Hp by assumption. reflexivity.
  - unfold NDJ_sub_read. simpl path_of. rewrite bind_ret_l.
    rewrite (bind_snd_ok _ Ht), Hn.
    rewrite parse_dataframe_empty, Hp by assumption. reflexivity.
  - unfold CSV_sub_read. simpl path_of. rewrite bind_ret_l.
    rewrite (bind_snd_ok _ Ht).
    rewrite parse_dataframe_empty, Hp by assumption. reflexivity.
  - unfold DictList_sub_read. injection Ht as _ <-. rewrite Hn.
    rewrite parse_dataframe_empty, Hp by assumption. reflexivity.
Qed.

(** A dataset that [read] returns has passed the assertion: it has
    as many identifiers as labels and as rows in the feature matrix,
    and that number is the number of examples the parser found in the
    source. And when the parser gets through the source, the
    identifiers are distinct and the vectorizer gives a row per mapping
    it is handed, [read] returns the dataset. *)
Lemma read_counts (self : Reader) :
  (forall w fs,
     Read self = (w, Ok fs) ->
     length (fs_ids fs) = length (fs_labels fs)
     /\ length (fs_labels fs) = n_rows (fs_features fs)
     /\ Examples_in self = Some (length (fs_ids fs)))
  /\ (forall N w ids labels features,
        Examples_in self = Some N ->
        Parse self = (w, Ok (ids, labels, features)) ->
        all_distinct ids = true ->
        (forall w2 feats,
            features = (w2, Ok feats) ->
            exists X,
              fit_transform (vectorizer self) feats = Ok X
              /\ n_rows X = length feats) ->
        exists w' fs,
          Read self = (w', Ok fs)
          /\ fs_ids fs = ids /\ fs_labels fs = labels
          /\ length (fs_ids fs) = N
          /\ length (fs_labels fs) = N
          /\ n_rows (fs_features fs) = N).
Proof.
  split.
  - intros w fs H. unfold read in H.
    apply bind_inv_ok in H as (w1 & [[ids labels] features] & w2 & Hp & H & _).
    apply bind_inv_ok in H as (w3 & feats & w4 & Hf & H & _).
    apply bind_inv_ok in H as (w5 & X & w6 & HX & H & _).
    destruct ((length ids =? length labels) && (length labels =? n_rows X))
      eqn:Ea; [|discriminate].
    destruct (length ids =? length (py_set ids)); [|discriminate].
    injection H as _ <-. simpl.
    apply andb_true_iff in Ea as [E1 E2].
    apply Nat.eqb_eq in E1, E2.
    apply parse_counts in Hp as (N & _ & _ & -> & _ & <- & _).
    auto.
  - intros N w ids labels features HN Hp Hd Hv.
    destruct (parse_counts _ Hp) as (N' & w2 & feats & HN' & _ & Hi & Hl & Hf & Hc).
    assert (E : N' = N) by congruence. rewrite E in Hi, Hl, Hc. clear E HN'.
    destruct (Hv w2 feats Hf) as (X & HX & Hr).
    unfold read. rewrite Hp.
    rewrite bind_ok. cbv beta iota. rewrite Hf.
    rewrite bind_ok. cbv beta iota. rewrite HX. unfold lift.
    rewrite bind_ok. cbv beta iota.
    rewrite py_set_length, Hd, Hi, Hl, Hr, Hc, Nat.eqb_refl. simpl.
    eexists _, _. split; [reflexivity|]. simpl.
    repeat split; congruence.
Qed.

(** C6. Whatever the format, when the source has been parsed, the
    feature mappings have been vectorized into a matrix with one row
    per identifier, and two of the identifiers are equal, [read] raises
    the error on duplicate identifiers, naming the source, and returns
    no dataset. *)
Theorem read_duplicate_ids (self : Reader) (w w2 : list str)
  (ids labels : list pyval) (features : M (list cell)) (feats : list cell)
  (X : matrix) :
  Parse self = (w, Ok (ids, labels, features)) ->
  features = (w2, Ok feats) ->
  fit_transform (vectorizer self) feats = Ok X ->
  n_rows X = length ids ->
  all_distinct ids = false ->
  snd (Read self) = Err (ValueError (DuplicateId (path_or_list self))).
Proof.
  intros Hp Hf HX Hr Hd.
  destruct (parse_counts _ Hp) as (N & _ & _ & _ & _ & Hi & Hl & _ & _).
  unfold read. rewrite Hp.
  rewrite bind_ok. cbv beta iota. rewrite Hf.
  rewrite bind_ok. cbv beta iota. rewrite HX. unfold lift.
  rewrite bind_ok. cbv beta iota.
  rewrite py_set_length, Hd, Hr, Hi, Hl, Nat.eqb_refl. reflexivity.
Qed.

(** C7. Whatever the format, a source that holds no example (a list
    without records, a table without rows, a file in which the line
    parser finds no example) makes [read] raise the error on empty
    input, naming the source; no dataset is returned. *)
Theorem read_empty_input (self : Reader) :
  Examples_in self = Some 0 ->
  snd (Read self) = Err (ValueError (EmptyInput (path_or_list self))).
Proof.
  unfold examples_in, read, parse. intros H.
  apply bind_snd_err.
  destruct (_use_pandas self).
  - apply bind_snd_err.
    destruct (Table self) as [w0 [df|e]] eqn:Ht; [|discriminate].
    injection H as H. exact (sub_read_empty self Ht H).
  - unfold _sub_read_rows.
    destruct (path_or_list self) as [p|l]; [|discriminate].
    simpl path_of. rewrite bind_ret_l.
    destruct (read_lines p) as [f|e]; [|discriminate].
    unfold lift. rewrite (bind_ret_l f).
    destruct (drain (_sub_read_lines self f)) as [w' [exs|e]] eqn:Hd;
      [|discriminate].
    injection H as H. apply length_zero_iff_nil in H. subst exs.
    apply drain_nil in Hd. rewrite Hd. reflexivity.
Qed.

End ReadFacts.

(** ** [Reader.read] on concrete sources *)

(** A MegaM file with two instances and a table with two rows: two
    identifiers, two labels, two rows. *)
Lemma read_counts_witness :
  (exists w fs,
     read (one_file [u "# ex1"; u "1 f1 2.0 f2 3.0"; u "f1 1.0"])
       no_csv no_buffer no_json rows_count rows_only
       (reader_for (Path (u "train.megam")) no_kwargs) = (w, Ok fs)
     /\ fs_ids fs = [PyStr (u "ex1"); PyStr (u "EXAMPLE_1")]
     /\ fs_labels fs = [PyInt 1; PyNone]
     /\ length (fs_ids fs) = 2 /\ length (fs_labels fs) = 2
     /\ rows_count (fs_features fs) = 2)
  /\ (exists w fs,
        read no_file (one_csv (two_rows "A" "B")) no_buffer no_json
          rows_count rows_only
          (reader_for (Path (u "train.csv")) no_kwargs) = (w, Ok fs)
        /\ fs_ids fs = [PyStr (u "A"); PyStr (u "B")]
        /\ fs_labels fs = [PyInt 1; PyInt 0]
        /\ length (fs_ids fs) = 2 /\ length (fs_labels fs) = 2
        /\ rows_count (fs_features fs) = 2).
Proof.
  split.
  - eapply (proj2 (read_counts
                    (one_file [u "# ex1"; u "1 f1 2.0 f2 3.0"; u "f1 1.0"])
                    no_csv no_buffer no_json rows_count rows_only
                    (reader_for (Path (u "train.megam")) no_kwargs))
             2 []).
    + reflexivity.
    + reflexivity.
    + reflexivity.
    + intros w2 feats _. exists (length feats). split; reflexivity.
  - eapply (proj2 (read_counts
                    no_file (one_csv (two_rows "A" "B")) no_buffer no_json
                    rows_count rows_only
                    (reader_for (Path (u "train.csv")) no_kwargs))
             2 []).
    + reflexivity.
    + reflexivity.
    + reflexivity.
    + intros w2 feats _. exists (length feats). split; reflexivity.
Defined.

(** A table with two rows that both have the identifier "A". *)
Lemma read_duplicate_ids_witness :
  snd (read no_file (one_csv (two_rows "A" "A")) no_buffer no_json
         rows_count rows_only (reader_for (Path (u "train.csv")) no_kwargs))
  = Err (ValueError (DuplicateId (Path (u "train.csv")))).
Proof.
  apply (read_duplicate_ids
           no_file (one_csv (two_rows "A" "A")) no_buffer no_json
           rows_count rows_only
           (reader_for (Path (u "train.csv")) no_kwargs)
           (w := []) (w2 := [])
           (ids := [PyStr (u "A"); PyStr (u "A")])
           (labels := [PyInt 1; PyInt 0])
           (features := ret [Mapping [(u "f1", PyFloat (FNum 2 0))];
                             Mapping [(u "f1", PyFloat (FNum 3 0))]])
           (feats := [Mapping [(u "f1", PyFloat (FNum 2 0))];
                      Mapping [(u "f1", PyFloat (FNum 3 0))]])
           (X := 2));
    reflexivity.
Defined.

(** An empty list of records, a table without rows, and a MegaM file
    that holds a comment and a reserved word only. *)
Lemma read_empty_input_witness :
  snd (read no_file no_csv no_buffer no_json rows_count rows_only
         (reader_for (Records []) no_kwargs))
  = Err (ValueError (EmptyInput (Records [])))
  /\ snd (read no_file (one_csv header_only) no_buffer no_json
            rows_count rows_only (reader_for (Path (u "train.tsv")) no_kwargs))
     = Err (ValueError (EmptyInput (Path (u "train.tsv"))))
  /\ snd (read (one_file [u "# ex1"; u "TRAIN"; u ""]) no_csv no_buffer
            no_json rows_count rows_only
            (reader_for (Path (u "train.megam")) no_kwargs))
     = Err (ValueError (EmptyInput (Path (u "train.megam")))).
Proof.
  split; [|split].
  - apply (read_empty_input no_file no_csv no_buffer no_json
             rows_count rows_only (reader_for (Records []) no_kwargs)).
    reflexivity.
  - apply (read_empty_input no_file (one_csv header_only) no_buffer no_json
             rows_count rows_only
             (reader_for (Path (u "train.tsv")) no_kwargs)).
    reflexivity.
  - apply (read_empty_input (one_file [u "# ex1"; u "TRAIN"; u ""])
             no_csv no_buffer no_json rows_count rows_only
             (reader_for (Path (u "train.megam")) no_kwargs)).
    reflexivity.
Defined.

(** C1, as the code has it. A LibSVM file whose lines carry no
    comment, which the format and the docstring of the reader allow
    (the comment is not mandatory), is not read. The two lines below
    are well-formed examples: both match the line pattern of the
    reader. On the first of them the label map is looked at before it
    was ever assigned, and [read] ends with an [UnboundLocalError]: no
    dataset with two identifiers, two labels and two rows is returned,
    whatever follows in the file and whatever the vectorizer. *)
Theorem read_LibSVM_without_comments
  (read_csv : str -> str -> pyval -> dict pyval -> result DataFrame)
  (read_csv_buffer : str -> pyval -> dict pyval -> result DataFrame)
  (read_json : str -> dict pyval -> result DataFrame)
  (matrix : Type) (n_rows : matrix -> nat)
  (fit_transform : vectorizer_kind -> list cell -> result matrix)
  (f : list str) :
  read (one_file (u "1 1:2.0 2:3.5" :: u "0 1:1.0" :: f))
    read_csv read_csv_buffer read_json n_rows fit_transform
    (reader_for (Path (u "train.libsvm")) no_kwargs)
  = ([], Err (UnboundLocalError (u "label_map")))
  /\ forallb
       (fun line =>
          match search line_regex (strip line) with
          | Some m =>
              match group m "comments" with
              | None => true
              | Some _ => false
              end
          | None => false
          end)
       [u "1 1:2.0 2:3.5"; u "0 1:1.0"]
     = true.
Proof.
  split; [|vm_compute; reflexivity].
  unfold read, parse.
  change (_use_pandas (reader_for (Path (u "train.libsvm")) no_kwargs))
    with false.
  cbv iota. unfold _sub_read_rows.
  change (path_or_list (reader_for (Path (u "train.libsvm")) no_kwargs))
    with (Path (u "train.libsvm")).
  simpl path_of. rewrite bind_ret_l. unfold one_file, lift.
  rewrite (bind_ret_l (u "1 1:2.0 2:3.5" :: u "0 1:1.0" :: f)).
  unfold _sub_read_lines.
  change (class_of (reader_for (Path (u "train.libsvm")) no_kwargs))
    with LibSVMReader.
  cbv iota. unfold LibSVM_sub_read. cbn [LibSVM_loop].
  replace (libsvm_line (reader_for (Path (u "train.libsvm")) no_kwargs) 0
             None (u "1 1:2.0 2:3.5"))
    with (@raise (example * name_maps) (UnboundLocalError (u "label_map")))
    by (vm_compute; reflexivity).
  reflexivity.
Qed.

(** A LibSVM file without a line: no example, the error on empty
    input; with a blank line, the line is refused. *)
Example read_libsvm_empty :
  snd (read (one_file []) no_csv no_buffer no_json rows_count rows_only
         (reader_for (Path (u "train.libsvm")) no_kwargs))
  = Err (ValueError (EmptyInput (Path (u "train.libsvm"))))
  /\ snd (read (one_file [[10%N]]) no_csv no_buffer no_json rows_count
            rows_only (reader_for (Path (u "train.libsvm")) no_kwargs))
     = Err (ValueError (MalformedLine [10%N])).
Proof. split; reflexivity. Qed.

(* ================================================================== *)
(** * Further properties *)
(* ================================================================== *)

(** ** Dictionaries *)

Lemma dict_get_del_same {V} (d : dict V) (k : str) :
  dict_get (dict_del d k) k = None.
Proof.
  induction d as [|[k' v] d IH]; simpl; [reflexivity|].
  destruct (str_eqb k' k) eqn:E; simpl; [assumption|].
  rewrite E. assumption.
Qed.

Lemma dict_get_del_other {V} (d : dict V) (k k' : str) :
  k <> k' -> dict_get (dict_del d k) k' = dict_get d k'.
Proof.
  intros Hk. induction d as [|[k0 v] d IH]; simpl; [reflexivity|].
  destruct (str_eqb_spec k0 k) as [->|Hn]; simpl.
  - destruct (str_eqb_spec k k'); [contradiction|assumption].
  - rewrite IH. reflexivity.
Qed.

Lemma dict_get_set_same {V} (d : dict V) (k : str) (v : V) :
  dict_get (dict_set d k v) k = Some v.
Proof.
  induction d as [|[k' v'] d IH]; simpl.
  - rewrite str_eqb_refl. reflexivity.
  - destruct (str_eqb k' k) eqn:E; simpl; rewrite E; [reflexivity|assumption].
Qed.

Lemma dict_get_set_other {V} (d : dict V) (k k' : str) (v : V) :
  k <> k' -> dict_get (dict_set d k v) k' = dict_get d k'.
Proof.
  intros Hk. induction d as [|[k0 v0] d IH]; simpl.
  - destruct (str_eqb_spec k k'); [contradiction|reflexivity].
  - destruct (str_eqb_spec k0 k) as [->|Hn]; simpl.
    + destruct (str_eqb_spec k k'); [contradiction|reflexivity].
    + rewrite IH. reflexivity.
Qed.

Lemma dict_get_update_absent {V} (kvs d : dict V) (k : str) :
  dict_get kvs k = None -> dict_get (dict_update d kvs) k = dict_get d k.
Proof.
  unfold dict_update. revert d.
  induction kvs as [|[k' v] kvs IH]; intros d H; simpl in *; [reflexivity|].
  destruct (str_eqb_spec k' k) as [->|Hn]; [discriminate|].
  rewrite IH by assumption. apply dict_get_set_other. assumption.
Qed.

Lemma split_on_from_last (sep : char) (e cur : str) :
  ~ In sep e -> split_on_from sep cur e = [rev cur ++ e].
Proof.
  revert cur; induction e as [|x e IH]; intros cur H; simpl.
  - rewrite app_nil_r. reflexivity.
  - destruct (N.eqb_spec x sep) as [->|_]; [simpl in H; tauto|].
    rewrite IH by (simpl in H; tauto). simpl. rewrite <- app_assoc.
    reflexivity.
Qed.

Lemma span_until (p : char -> bool) (a b : str) (c : char) :
  forallb p a = true -> p c = false -> span p (a ++ c :: b) = (a, c :: b).
Proof.
  intros Ha Hc. induction a as [|x a IH]; simpl in *.
  - rewrite Hc. reflexivity.
  - apply andb_true_iff in Ha as [Hx Ha]. rewrite Hx, IH by assumption.
    reflexivity.
Qed.

Lemma span_all (p : char -> bool) (a : str) :
  forallb p a = true -> span p a = (a, []).
Proof.
  intros Ha. induction a as [|x a IH]; simpl in *; [reflexivity|].
  apply andb_true_iff in Ha as [Hx Ha]. rewrite Hx, IH by assumption.
  reflexivity.
Qed.

Lemma forallb_not_char (c : char) (e : str) :
  ~ In c e -> forallb (fun x => negb (N.eqb x c)) e = true.
Proof.
  intros H. apply forallb_forall. intros x Hx.
  destruct (N.eqb_spec x c) as [->|_]; [contradiction|reflexivity].
Qed.

(** ** [Reader.for_path]: the extension *)

(** The text after the last occurrence of the separator. *)
Lemma rsplit1_last_after (sep : char) (stem e : str) :
  ~ In sep e -> last (rsplit1 sep (stem ++ sep :: e)) [] = e.
Proof.
  intros H. unfold rsplit1.
  rewrite rev_app_distr. simpl. rewrite <- app_assoc. simpl.
  rewrite span_until.
  - simpl. apply rev_involutive.
  - apply forallb_not_char. rewrite <- in_rev. assumption.
  - rewrite N.eqb_refl. reflexivity.
Qed.

Lemma rsplit1_last_whole (sep : char) (p : str) :
  ~ In sep p -> last (rsplit1 sep p) [] = p.
Proof.
  intros H. unfold rsplit1. rewrite span_all; [reflexivity|].
  apply forallb_not_char. rewrite <- in_rev. assumption.
Qed.

(** The extension of a path is what follows its last dot, whatever the
    case of its letters and whatever dots the rest of the path holds:
    the reader class is the one [EXT_TO_READER] gives for the lowercase
    extension, and a path whose lowercase extension is not in the table
    is refused. *)
Theorem for_path_last_extension (stem e : str) (kw : kwargs) :
  ~ In (ch ".") e ->
  for_path (Path (stem ++ ch "." :: e)) kw
  = match dict_get EXT_TO_READER (ch "." :: lower e) with
    | Some cls => new cls (Path (stem ++ ch "." :: e)) kw
    | None =>
        Err (ValueError
               (UnsupportedFormat (invalid_extension (stem ++ ch "." :: e))))
    end.
Proof.
  intros H. unfold for_path. rewrite rsplit1_last_after by assumption.
  reflexivity.
Qed.

Lemma for_path_last_extension_witness :
  for_path (Path (u "runs/v1.2/Train.CSV")) no_kwargs
  = new CSVReader (Path (u "runs/v1.2/Train.CSV")) no_kwargs.
Proof.
  apply (for_path_last_extension (u "runs/v1.2/Train") (u "CSV") no_kwargs).
  vm_compute. intuition discriminate.
Defined.

(** A path without a dot is its own extension: a file that is named
    like an extension of the table, in any case, is given to the reader
    of that extension; any other name without a dot is refused. *)
Theorem for_path_no_dot (p : str) (kw : kwargs) :
  ~ In (ch ".") p ->
  for_path (Path p) kw
  = match dict_get EXT_TO_READER (ch "." :: lower p) with
    | Some cls => new cls (Path p) kw
    | None => Err (ValueError (UnsupportedFormat (invalid_extension p)))
    end.
Proof.
  intros H. unfold for_path. rewrite rsplit1_last_whole by assumption.
  reflexivity.
Qed.

Lemma for_path_no_dot_witness :
  for_path (Path (u "Megam")) no_kwargs
  = new MegaMReader (Path (u "Megam")) no_kwargs
  /\ for_path (Path (u "train_csv")) no_kwargs
     = Err (ValueError (UnsupportedFormat (invalid_extension (u "train_csv")))).
Proof.
  split.
  - apply (for_path_no_dot (u "Megam") no_kwargs).
    vm_compute. intuition discriminate.
  - apply (for_path_no_dot (u "train_csv") no_kwargs).
    vm_compute. intuition discriminate.
Defined.

(** ** The constructors and the options of pandas *)

Ltac str_neq :=
  first [ congruence
        | let E := fresh in intros E; vm_compute in E; discriminate ].

Ltac key_cases k :=
  repeat match goal with
         | |- context [str_eqb k ?a] =>
             destruct (str_eqb_spec k a) as [->|?]
         end.

Lemma pandas_kwargs_after_pops (cls : reader_class) (src : source)
  (kw : kwargs) (r : Reader) (k : str) :
  new cls src kw = Ok r ->
  dict_get (_pandas_kwargs r) k
  = if existsb (str_eqb k) (popped_options cls) then None
    else dict_get (default (kw_pandas_kwargs kw) []) k.
Proof.
  unfold new. intros H.
  destruct cls; simpl popped_options; simpl existsb.
  - (* ARFF *)
    injection H as <-. simpl _pandas_kwargs. key_cases k; simpl;
      repeat first [ rewrite dict_get_del_same; reflexivity
                   | rewrite dict_get_del_other by str_neq ];
      reflexivity.
  - injection H as <-. simpl _pandas_kwargs. key_cases k; simpl;
      repeat first [ rewrite dict_get_del_same; reflexivity
                   | rewrite dict_get_del_other by str_neq ];
      reflexivity.
  - injection H as <-. simpl _pandas_kwargs. key_cases k; simpl;
      repeat first [ rewrite dict_get_del_same; reflexivity
                   | rewrite dict_get_del_other by str_neq ];
      reflexivity.
  - destruct (kw_pandas_kwargs kw); [discriminate|].
    injection H as <-. reflexivity.
  - destruct (kw_pandas_kwargs kw); [discriminate|].
    injection H as <-. reflexivity.
  - injection H as <-. simpl _pandas_kwargs. key_cases k; simpl;
      repeat first [ rewrite dict_get_del_same; reflexivity
                   | rewrite dict_get_del_other by str_neq ];
      reflexivity.
  - injection H as <-. reflexivity.
Qed.

(** A reader hands to pandas the options it was given, less the ones
    its constructor takes out: they reach pandas by another way
    ([sep], [engine]) or are not the user's to set. *)
Theorem new_pandas_kwargs (cls : reader_class) (src : source) (kw : kwargs)
  (r : Reader) (k : str) :
  new cls src kw = Ok r ->
  dict_get (_pandas_kwargs r) k
  = if existsb (str_eqb k) (popped_options cls) then None
    else dict_get (default (kw_pandas_kwargs kw) []) k.
Proof. apply pandas_kwargs_after_pops. Qed.

Lemma new_pandas_kwargs_witness :
  dict_get
    (_pandas_kwargs
       (reader_for (Path (u "a.csv"))
          {| kw_quiet := None; kw_ids_to_floats := None; kw_label_col := None;
             kw_id_col := None; kw_class_map := None; kw_sparse := None;
             kw_feature_hasher := None; kw_num_features := None;
             kw_pandas_kwargs :=
               Some [(u "sep", PyStr (u ";")); (u "nrows", PyInt 5)] |}))
    (u "sep")
  = None.
Proof.
  apply (new_pandas_kwargs CSVReader (Path (u "a.csv"))
           {| kw_quiet := None; kw_ids_to_floats := None; kw_label_col := None;
              kw_id_col := None; kw_class_map := None; kw_sparse := None;
              kw_feature_hasher := None; kw_num_features := None;
              kw_pandas_kwargs :=
                Some [(u "sep", PyStr (u ";")); (u "nrows", PyInt 5)] |}
           (u "sep")).
  reflexivity.
Defined.

(** ** Integers and their text *)

Ltac uint_induction d IH :=
  induction d as [|d IH|d IH|d IH|d IH|d IH|d IH|d IH|d IH|d IH|d IH].

Lemma uint_chars_digits (d : Decimal.uint) :
  forallb is_digit (u (NilEmpty.string_of_uint d)) = true.
Proof. uint_induction d IH; simpl; auto. Qed.

Lemma uint_chars_no_space (d : Decimal.uint) :
  forallb (fun c => negb (isspace_numeric c)) (u (NilEmpty.string_of_uint d))
  = true.
Proof. uint_induction d IH; simpl; auto. Qed.

Ltac head_digit :=
  match goal with
  | |- context [u (NilEmpty.string_of_uint (?C ?d))] =>
      let c := eval vm_compute in
                 (hd 0%N (u (NilEmpty.string_of_uint (C Decimal.Nil)))) in
      change (u (NilEmpty.string_of_uint (C d)))
        with (c :: u (NilEmpty.string_of_uint d));
      let v := eval vm_compute in (digit_val c) in
      cbn [fold_left]; change (digit_val c) with v
  end.

Lemma uint_chars_acc (d : Decimal.uint) (acc : positive) :
  fold_left (fun a c => 10 * a + digit_val c)%Z
    (u (NilEmpty.string_of_uint d)) (Zpos acc)
  = Zpos (Pos.of_uint_acc d acc).
Proof.
  revert acc; uint_induction d IH; intros acc; [reflexivity|..];
    head_digit; cbn [Pos.of_uint_acc]; rewrite <- IH; f_equal; lia.
Qed.

Lemma uint_chars_val (d : Decimal.uint) :
  digits_val (u (NilEmpty.string_of_uint d)) = Z.of_N (Pos.of_uint d).
Proof.
  unfold digits_val.
  uint_induction d IH; [reflexivity|head_digit; exact IH|..];
    head_digit; cbn [Pos.of_uint Z.of_N]; rewrite <- uint_chars_acc;
    f_equal.
Qed.

Lemma digitpart_digits (s : str) :
  s <> [] -> forallb is_digit s = true -> digitpart s = Some s.
Proof.
  induction s as [|c s IH]; [congruence|]. intros _ H. simpl in H.
  apply andb_true_iff in H as [Hc Hs]. simpl. rewrite Hc.
  destruct s as [|x s']; [reflexivity|].
  assert (Hx : N.eqb x 95 = false).
  { simpl in Hs. apply andb_true_iff in Hs as [Hx _].
    unfold is_digit in Hx. apply andb_true_iff in Hx as [_ Hx].
    apply N.leb_le in Hx. apply N.eqb_neq. lia. }
  rewrite Hx, IH by (congruence || assumption). reflexivity.
Qed.

Lemma drop_while_none (p : char -> bool) (s : str) :
  forallb (fun c => negb (p c)) s = true -> drop_while p s = s.
Proof.
  destruct s as [|c s]; simpl; [reflexivity|]. intros H.
  apply andb_true_iff in H as [H _]. apply negb_true_iff in H.
  rewrite H. reflexivity.
Qed.

Lemma strip_numeric_none (s : str) :
  forallb (fun c => negb (isspace_numeric c)) s = true -> strip_numeric s = s.
Proof.
  intros H. unfold strip_numeric. rewrite (drop_while_none _ s H).
  rewrite drop_while_none; [apply rev_involutive|].
  apply forallb_forall. intros x Hx. apply in_rev in Hx.
  rewrite forallb_forall in H. auto.
Qed.

Lemma int_of_str_uint (d : Decimal.uint) :
  d <> Decimal.Nil ->
  int_of_str (u (NilEmpty.string_of_uint d)) = Some (Z.of_N (Pos.of_uint d))
  /\ int_of_str (ch "-" :: u (NilEmpty.string_of_uint d))
     = Some (- Z.of_N (Pos.of_uint d))%Z.
Proof.
  intros Hd.
  assert (Hne : u (NilEmpty.string_of_uint d) <> [])
    by (destruct d; [congruence|unfold u; simpl; discriminate..]).
  pose proof (digitpart_digits Hne (uint_chars_digits d)) as Hp.
  unfold int_of_str. split.
  - rewrite strip_numeric_none by apply uint_chars_no_space.
    assert (Hs : take_sign (u (NilEmpty.string_of_uint d))
                 = (false, u (NilEmpty.string_of_uint d)))
      by (destruct d; [congruence|reflexivity..]).
    rewrite Hs. cbv beta iota. rewrite Hp, uint_chars_val. reflexivity.
  - rewrite strip_numeric_none
      by (simpl; rewrite uint_chars_no_space; reflexivity).
    change (take_sign (ch "-" :: u (NilEmpty.string_of_uint d)))
      with (true, u (NilEmpty.string_of_uint d)).
    cbv beta iota. rewrite Hp, uint_chars_val. reflexivity.
Qed.

(** Reading the text of an integer gives the integer back. *)
Lemma int_of_str_of_Z (z : Z) : int_of_str (str_of_Z z) = Some z.
Proof.
  destruct z as [|p|p]; [reflexivity|..]; unfold str_of_Z; simpl Z.to_int;
    simpl NilZero.string_of_int; unfold NilZero.string_of_uint;
    pose proof (Unsigned.to_uint_nonnil p) as Hn;
    destruct (int_of_str_uint Hn) as [H1 H2];
    rewrite Unsigned.of_to in H1, H2.
  - destruct (Pos.to_uint p); [congruence|exact H1..].
  - destruct (Pos.to_uint p) eqn:E; [congruence|rewrite <- E in *..];
      exact H2.
Qed.

Lemma str_of_Z_inj (a b : Z) : str_of_Z a = str_of_Z b -> a = b.
Proof.
  intros H. pose proof (int_of_str_of_Z a) as Ha.
  rewrite H, int_of_str_of_Z in Ha. congruence.
Qed.

Lemma EXAMPLE_inj (i j : nat) : EXAMPLE_ i = EXAMPLE_ j -> i = j.
Proof.
  unfold EXAMPLE_, str_of_nat. intros H. apply app_inv_head in H.
  apply str_of_Z_inj in H. lia.
Qed.

(** An integer goes through [safe_float] unchanged: the labels of a
    numeric column of a table, which pandas hands over as integers, are
    the integers of the file. *)
Theorem safe_float_int (z : Z) : safe_float (PyInt z) None = ret (PyInt z).
Proof.
  rewrite safe_float_no_map. simpl text_type. unfold coerce_text.
  rewrite int_of_str_of_Z. reflexivity.
Qed.

(** ** ARFF: the options of [split_with_quotes] *)

(** Whatever options the user gave to an ARFF reader, pandas is called
    without a header row and with the delimiter [split_with_quotes] was
    asked for: the two options cannot be overridden. *)
Theorem split_with_quotes_fixed_options (src : source) (kw : kwargs)
  (r : Reader) (delimiter : string) :
  new ARFFReader src kw = Ok r ->
  dict_get (split_with_quotes_kwargs r delimiter) (u "header") = Some PyNone
  /\ dict_get (split_with_quotes_kwargs r delimiter) (u "delimiter")
     = Some (PyStr (u delimiter))
  /\ forall read_csv_buffer s,
       split_with_quotes read_csv_buffer r s delimiter
       = lift (read_csv_buffer s (_engine r)
                 (split_with_quotes_kwargs r delimiter)).
Proof.
  intros H. unfold split_with_quotes_kwargs. repeat split.
  - rewrite dict_get_update_absent; [reflexivity|].
    rewrite (pandas_kwargs_after_pops _ _ _ (u "header") H). reflexivity.
  - rewrite dict_get_update_absent; [reflexivity|].
    rewrite (pandas_kwargs_after_pops _ _ _ (u "delimiter") H). reflexivity.
Qed.

Lemma split_with_quotes_fixed_options_witness :
  dict_get
    (split_with_quotes_kwargs
       (reader_for (Path (u "a.arff"))
          {| kw_quiet := None; kw_ids_to_floats := None; kw_label_col := None;
             kw_id_col := None; kw_class_map := None; kw_sparse := None;
             kw_feature_hasher := None; kw_num_features := None;
             kw_pandas_kwargs :=
               Some [(u "delimiter", PyStr (u ";")); (u "header", PyInt 0)] |})
       ","%string)
    (u "delimiter")
  = Some (PyStr (u ",")).
Proof.
  apply (@split_with_quotes_fixed_options (Path (u "a.arff"))
           {| kw_quiet := None; kw_ids_to_floats := None; kw_label_col := None;
              kw_id_col := None; kw_class_map := None; kw_sparse := None;
              kw_feature_hasher := None; kw_num_features := None;
              kw_pandas_kwargs :=
                Some [(u "delimiter", PyStr (u ";")); (u "header", PyInt 0)] |}
           _ ","%string).
  reflexivity.
Defined.

(** ** [safe_float]: replacement values that are not texts *)

(** A token that the replacement mapping sends to a value that is not a
    text but the null value, a boolean, an integer or a float: nothing
    is logged; the null value gives the integer 0, a boolean 0 or 1, an
    integer itself, a finite float its integer part (not the float), a
    NaN the NaN, and an infinite float makes [safe_float] raise
    [OverflowError]. A finite float is given by the exact value of the
    binary64 number it is. *)
Theorem safe_float_replacement_value (token : pyval) (cm : dict pyval)
  (v : pyval) :
  dict_get cm (text_type token) = Some v ->
  (v = PyNone -> safe_float token (Some cm) = ret (PyInt 0))
  /\ (forall b, v = PyBool b ->
        safe_float token (Some cm) = ret (PyInt (if b then 1 else 0)))
  /\ (forall z, v = PyInt z -> safe_float token (Some cm) = ret (PyInt z))
  /\ (forall m e, v = PyFloat (FNum m e) -> binary64 m e = true ->
        safe_float token (Some cm) = ret (PyInt (truncate m e)))
  /\ (v = PyFloat FNan -> safe_float token (Some cm) = ret (PyFloat FNan))
  /\ (forall negative, v = PyFloat (FInf negative) ->
        safe_float token (Some cm) = raise OverflowError).
Proof.
  intros H. unfold safe_float. rewrite H, bind_ret_l.
  repeat split; intros; subst v; reflexivity.
Qed.

Lemma safe_float_replacement_value_witness :
  safe_float (PyStr (u "high")) (Some [(u "high", PyFloat (FNum 25 (-1)))])
  = ret (PyInt 2).
Proof.
  refine (proj1 (proj2 (proj2 (proj2
            (@safe_float_replacement_value (PyStr (u "high"))
               [(u "high", PyFloat (FNum 25 (-1)))] (PyFloat (FNum 25 (-1)))
               _))))
            25%Z (-1)%Z _ _);
    reflexivity.
Defined.

(** ** MegaM: lines that are not instances, identifiers, duplicates *)

Lemma MegaM_loop_skip (self : Reader) (f : list str) (example_num : nat)
  (curr_id : str) :
  forallb megam_skipped f = true ->
  exists curr_id',
    forall f', MegaM_loop self example_num curr_id (f ++ f')
               = MegaM_loop self example_num curr_id' f'.
Proof.
  revert curr_id; induction f as [|line f IH]; intros curr_id H.
  - exists curr_id. reflexivity.
  - simpl in H. apply andb_true_iff in H as [Hl Hf].
    unfold megam_skipped in Hl. simpl app. cbn [MegaM_loop].
    destruct (startswith (ch "#") (strip line)).
    + apply IH. assumption.
    + simpl in Hl. destruct (IH curr_id Hf) as [c Hc]. exists c. intros f'.
      replace (nonempty (strip line) && negb (reserved (strip line)))
        with false; [apply Hc|].
      destruct (nonempty (strip line)), (reserved (strip line));
        simpl in *; congruence.
Qed.

(** Comments, blank lines and the reserved words yield no example and
    are not counted: a file made of them holds no example, and before
    other lines they leave the number of the next example as it is. *)
Theorem MegaM_skipped_lines (self : Reader) (f : list str)
  (example_num : nat) (curr_id : str) :
  forallb megam_skipped f = true ->
  MegaM_loop self example_num curr_id f = Done []
  /\ exists curr_id',
       forall f', MegaM_loop self example_num curr_id (f ++ f')
                  = MegaM_loop self example_num curr_id' f'.
Proof.
  intros H. destruct (MegaM_loop_skip self f example_num curr_id H) as [c Hc].
  split; [|exists c; exact Hc].
  rewrite <- (app_nil_r f), Hc. reflexivity.
Qed.

Lemma MegaM_skipped_lines_witness :
  MegaM_sub_read (Reader_init MegaMReader (Path (u "a.megam")) no_kwargs)
    [u "TRAIN"; u "  "; u "# doc7"]
  = Done [].
Proof.
  apply (MegaM_skipped_lines
           (Reader_init MegaMReader (Path (u "a.megam")) no_kwargs)
           [u "TRAIN"; u "  "; u "# doc7"] 0 (u "EXAMPLE_0")).
  reflexivity.
Defined.

Lemma drain_yield_inv {A} (w w' : list str) (a : A) (rest : gen A)
  (l : list A) :
  drain (Yield w a rest) = (w', Ok l) ->
  exists w2 l', drain rest = (w2, Ok l') /\ l = a :: l' /\ w' = w ++ w2.
Proof.
  cbn [drain]. intros H.
  apply bind_inv_ok in H as (w1 & [] & w2 & H1 & H & ->).
  apply bind_inv_ok in H as (w3 & l' & w4 & Hd & Hr & ->).
  injection H1 as <-. injection Hr as <- <-.
  exists w3, l'. rewrite app_nil_r. auto.
Qed.

Lemma megam_instance_id (self : Reader) (curr_id line : str) (w : list str)
  (ex : example) :
  megam_instance self curr_id line = (w, Ok ex) -> example_id ex = curr_id.
Proof.
  unfold megam_instance. intros H.
  apply bind_inv_ok in H as (w1 & [c fp] & w2 & _ & H & _).
  apply bind_inv_ok in H as (w3 & d & w4 & _ & H & _).
  injection H as _ <-. reflexivity.
Qed.

Lemma py_eqb_str (a b : str) : py_eqb (PyStr a) (PyStr b) = str_eqb a b.
Proof. reflexivity. Qed.

Lemma all_distinct_EXAMPLE (a n : nat) :
  all_distinct (List.map (fun i => PyStr (EXAMPLE_ i)) (seq a n)) = true.
Proof.
  revert a; induction n as [|n IH]; intros a; simpl; [reflexivity|].
  rewrite IH, andb_true_r. apply negb_true_iff.
  destruct (existsb _ _) eqn:E; [|reflexivity].
  apply existsb_exists in E as (x & Hx & E).
  apply in_map_iff in Hx as (i & <- & Hi). apply in_seq in Hi.
  rewrite py_eqb_str in E. apply str_eqb_eq, EXAMPLE_inj in E. lia.
Qed.

Lemma MegaM_loop_ids (self : Reader) (f : list str) (n : nat) (w : list str)
  (exs : list example) :
  forallb (fun line => negb (megam_comment line)) f = true ->
  drain (MegaM_loop self n (EXAMPLE_ n) f) = (w, Ok exs) ->
  List.map example_id exs = List.map EXAMPLE_ (seq n (length exs)).
Proof.
  revert n w exs; induction f as [|line f IH]; intros n w exs Hc H.
  - injection H as _ <-. reflexivity.
  - simpl in Hc. apply andb_true_iff in Hc as [Hl Hc].
    unfold megam_comment in Hl. apply negb_true_iff in Hl.
    cbn [MegaM_loop] in H. rewrite Hl in H.
    destruct (nonempty (strip line) && negb (reserved (strip line)));
      [|eapply IH; eassumption].
    destruct (megam_instance self (EXAMPLE_ n) (strip line))
      as [w0 [ex|e]] eqn:E; [|discriminate].
    apply drain_yield_inv in H as (w2 & l & Hd & -> & _).
    apply megam_instance_id in E. simpl. rewrite E. f_equal.
    eapply IH; eassumption.
Qed.

(** In a MegaM file without comments the examples are numbered as they
    come: the identifiers are EXAMPLE_0, EXAMPLE_1, ..., one per
    example, whatever blank lines and reserved words lie between them;
    no two of them are equal. *)
Theorem MegaM_synthetic_ids (self : Reader) (f : list str) (w : list str)
  (exs : list example) :
  forallb (fun line => negb (megam_comment line)) f = true ->
  drain (MegaM_sub_read self f) = (w, Ok exs) ->
  List.map example_id exs = List.map EXAMPLE_ (seq 0 (length exs))
  /\ all_distinct (List.map (fun ex => PyStr (example_id ex)) exs) = true.
Proof.
  intros Hc H.
  assert (Hi : List.map example_id exs = List.map EXAMPLE_ (seq 0 (length exs)))
    by (eapply (MegaM_loop_ids self f 0); eassumption).
  split; [assumption|].
  rewrite <- (map_map example_id PyStr), Hi, map_map.
  apply all_distinct_EXAMPLE.
Qed.

Lemma MegaM_synthetic_ids_witness :
  List.map example_id
    [(u "EXAMPLE_0", PyInt 1, [(u "f1", PyInt 2)]);
     (u "EXAMPLE_1", PyInt 0, [])]
  = List.map EXAMPLE_ (seq 0 2).
Proof.
  apply (@MegaM_synthetic_ids
           (Reader_init MegaMReader (Path (u "a.megam")) no_kwargs)
           [u "1 f1 2"; u "DEV"; u "0"] []
           [(u "EXAMPLE_0", PyInt 1, [(u "f1", PyInt 2)]);
            (u "EXAMPLE_1", PyInt 0, [])]);
    reflexivity.
Defined.

Lemma dict_set_length {V} (d : dict V) (k : str) (v : V) :
  length (dict_set d k v) = if dict_mem d k then length d else S (length d).
Proof.
  unfold dict_mem. induction d as [|[k' v'] d IH]; simpl; [reflexivity|].
  destruct (str_eqb k' k); simpl; [reflexivity|].
  rewrite IH. destruct (dict_get d k); reflexivity.
Qed.

Lemma dict_mem_set {V} (d : dict V) (k k' : str) (v : V) :
  dict_mem (dict_set d k v) k' = dict_mem d k' || str_eqb k k'.
Proof.
  unfold dict_mem. destruct (str_eqb_spec k k') as [->|Hn].
  - rewrite dict_get_set_same, orb_true_r. reflexivity.
  - rewrite dict_get_set_other, orb_false_r by assumption. reflexivity.
Qed.

Lemma dict_update_length_le {V} (kvs d : dict V) :
  length (dict_update d kvs) <= length d + length kvs.
Proof.
  unfold dict_update. revert d.
  induction kvs as [|[k v] kvs IH]; intros d; simpl; [lia|].
  specialize (IH (dict_set d k v)). rewrite dict_set_length in IH.
  destruct (dict_mem d k); lia.
Qed.

Lemma dict_update_length_seen {V} (kvs d : dict V) (k : str) :
  dict_mem d k = true -> In k (List.map fst kvs) ->
  length (dict_update d kvs) < length d + length kvs.
Proof.
  revert d. induction kvs as [|[k0 v0] kvs IH]; intros d Hm Hk;
    simpl in *; [tauto|].
  change (dict_update d ((k0, v0) :: kvs))
    with (dict_update (dict_set d k0 v0) kvs).
  destruct Hk as [->|Hk].
  - pose proof (dict_update_length_le kvs (dict_set d k v0)) as L.
    rewrite dict_set_length, Hm in L. lia.
  - assert (Hm' : dict_mem (dict_set d k0 v0) k = true)
      by (rewrite dict_mem_set, Hm; reflexivity).
    specialize (IH _ Hm' Hk). rewrite dict_set_length in IH.
    destruct (dict_mem d k0); lia.
Qed.

Lemma dict_update_length_dup {V} (kvs d : dict V) :
  ~ NoDup (List.map fst kvs) ->
  length (dict_update d kvs) < length d + length kvs.
Proof.
  revert d. induction kvs as [|[k v] kvs IH]; intros d H; simpl in *.
  - exfalso. apply H. constructor.
  - change (dict_update d ((k, v) :: kvs))
      with (dict_update (dict_set d k v) kvs).
    destruct (in_dec (list_eq_dec N.eq_dec) k (List.map fst kvs)) as [Hin|Hn].
    + assert (Hm : dict_mem (dict_set d k v) k = true)
        by (rewrite dict_mem_set, str_eqb_refl; apply orb_true_r).
      pose proof (dict_update_length_seen kvs _ k Hm Hin) as L.
      rewrite dict_set_length in L. destruct (dict_mem d k); lia.
    + assert (Hd : ~ NoDup (List.map fst kvs))
        by (intros Hd; apply H; constructor; assumption).
      specialize (IH (dict_set d k v) Hd). rewrite dict_set_length in IH.
      destruct (dict_mem d k); lia.
Qed.

(** A MegaM instance that names a feature twice is refused, whatever
    the values: the error names the file and the example. *)
Theorem megam_features_duplicate (self : Reader) (curr_id : str)
  (pairs : list (str * str)) :
  ~ NoDup (List.map fst pairs) ->
  megam_features self curr_id (flatten pairs)
  = raise (ValueError (DuplicateFeature (path_or_list self) curr_id)).
Proof.
  intros H. unfold megam_features.
  rewrite length_flatten, pairs_of_flatten.
  destruct (0 <? 2 * length pairs) eqn:E.
  2:{ apply Nat.ltb_ge in E. destruct pairs; [|simpl in E; lia].
      exfalso. apply H. constructor. }
  rewrite mapM_safe_float_values, bind_ret_l.
  set (kvs := List.map (fun nv : str * str => (fst nv, coerce_text (snd nv))) pairs).
  assert (Hk : List.map fst kvs = List.map fst pairs)
    by (unfold kvs; rewrite map_map; reflexivity).
  pose proof (@dict_update_length_dup _ kvs []) as L.
  rewrite Hk in L. specialize (L H). simpl in L.
  assert (Hl : length kvs = length pairs) by apply length_map.
  replace (2 * length (dict_update [] kvs) =? 2 * length pairs) with false
    by (symmetry; apply Nat.eqb_neq; lia).
  reflexivity.
Qed.

Lemma megam_features_duplicate_witness :
  megam_features (Reader_init MegaMReader (Path (u "a.megam")) no_kwargs)
    (u "ex1") [u "f1"; u "1"; u "f2"; u "2"; u "f1"; u "3"]
  = raise (ValueError (DuplicateFeature (Path (u "a.megam")) (u "ex1"))).
Proof.
  apply (megam_features_duplicate
           (Reader_init MegaMReader (Path (u "a.megam")) no_kwargs) (u "ex1")
           [(u "f1", u "1"); (u "f2", u "2"); (u "f1", u "3")]).
  intros H. inversion H as [|? ? Hn _]. apply Hn. vm_compute. auto.
Defined.

(** ** Tables without an identifier column *)

(** When no identifier column is named, or the frame has no column of
    that name, the identifiers are EXAMPLE_0, EXAMPLE_1, ..., one per
    row, and no two of them are equal: such a table cannot fail on
    duplicate identifiers. *)
Theorem parse_dataframe_synthetic_ids (self : Reader) (df : DataFrame)
  (id_col label_col : option str) (features : option (list cell))
  (w : list str) (ids labels : list pyval) (feats : list cell) :
  has_column df id_col = false ->
  _parse_dataframe self df id_col label_col features
  = (w, Ok (ids, labels, feats)) ->
  ids = example_ids (shape0 df) /\ all_distinct ids = true.
Proof.
  intros Hc H. unfold _parse_dataframe in H.
  destruct (df_empty df); [discriminate|].
  apply bind_inv_ok in H as (w1 & [ids' df1] & w2 & Hi & H & _).
  apply bind_inv_ok in H as (w3 & [labels' df2] & w4 & _ & H & _).
  injection H as _ <- _ _.
  assert (E : ids' = example_ids (shape0 df)).
  { unfold extract_ids in Hi. unfold has_column, df_in in Hc.
    destruct id_col as [c|]; [|injection Hi as _ <- _; reflexivity].
    destruct (index_of c (columns df)); [discriminate|].
    injection Hi as _ <- _; reflexivity. }
  subst ids'. split; [reflexivity|]. apply all_distinct_EXAMPLE.
Qed.

Lemma parse_dataframe_synthetic_ids_witness :
  [PyStr (u "EXAMPLE_0"); PyStr (u "EXAMPLE_1")]
  = example_ids
      (shape0 {| columns := [PyStr (u "y"); PyStr (u "f1")];
                 rows := [[Scalar (PyInt 1); Scalar (PyInt 5)];
                          [Scalar (PyInt 0); Scalar (PyInt 6)]] |}).
Proof.
  apply (@parse_dataframe_synthetic_ids
           (Reader_init CSVReader (Path (u "a.csv")) no_kwargs)
           {| columns := [PyStr (u "y"); PyStr (u "f1")];
              rows := [[Scalar (PyInt 1); Scalar (PyInt 5)];
                       [Scalar (PyInt 0); Scalar (PyInt 6)]] |}
           (Some (u "id")) (Some (u "y")) None []
           [PyStr (u "EXAMPLE_0"); PyStr (u "EXAMPLE_1")]
           [PyInt 1; PyInt 0]
           [Mapping [(u "f1", PyInt 5)]; Mapping [(u "f1", PyInt 6)]]);
    reflexivity.
Defined.

(** ** Line by line: the two passes *)

Lemma ids_and_labels_texts (self : Reader) (g : gen example) (w : list str)
  (ids labels : list pyval) :
  ids_to_floats self = false ->
  ids_and_labels self g = (w, Ok (ids, labels)) ->
  drain g = (w, Ok (yielded g))
  /\ ids = List.map (fun ex => PyStr (example_id ex)) (yielded g)
  /\ labels = List.map example_label (yielded g).
Proof.
  intros Hf. revert w ids labels;
    induction g as [w0|w0 e|w0 [[id_ class_] d] rest IH];
    intros w ids labels H; cbn [ids_and_labels] in H.
  - injection H as <- <- <-. auto.
  - discriminate.
  - rewrite Hf in H.
    apply bind_inv_ok in H as (w1 & [] & w2 & H1 & H & ->).
    injection H1 as <-.
    rewrite bind_ret_l in H.
    apply bind_inv_ok in H as (w5 & [ids' labels'] & w6 & H & Hr & ->).
    injection Hr as <- <- <-.
    destruct (IH _ _ _ H) as (Hd & -> & ->).
    cbn [drain yielded]. rewrite Hd. simpl. rewrite !app_nil_r. auto.
Qed.

(** An array of texts: every text is kept, less the characters U+0000
    that end it. *)
Lemma np_array_texts (l : list str) :
  np_array (List.map PyStr l)
  = List.map (fun s => PyStr (rstrip_nul s)) l.
Proof.
  destruct l as [|s l]; [reflexivity|].
  unfold np_array. cbn [List.map dtype_of].
  assert (E : forall l' : list str,
             fold_left (fun d x => promote d (dtype_of x))
               (List.map PyStr l') str_ = str_)
    by (induction l' as [|x l' IH]; simpl; auto).
  rewrite E. cbn [List.map astype text_type]. f_equal.
  rewrite map_map. reflexivity.
Qed.

Lemma ids_and_labels_bad_id (self : Reader) (g : gen example) (bad : str) :
  ids_to_floats self = true ->
  first_bad_id (yielded g) = Some bad ->
  snd (ids_and_labels self g)
  = Err (ValueError (InvalidId bad (path_or_list self))).
Proof.
  intros Hf. unfold first_bad_id.
  induction g as [w0|w0 e|w0 [[id_ class_] d] rest IH]; intros H;
    cbn [yielded] in H; simpl in H; try discriminate.
  cbn [ids_and_labels]. rewrite Hf.
  rewrite (bind_snd_ok _ (eq_refl (w0, Ok tt))).
  unfold example_id in H. simpl in H.
  destruct (float_of_str id_) as [fl|].
  - rewrite bind_ret_l. apply bind_snd_err. apply IH. assumption.
  - injection H as <-. reflexivity.
Qed.

Section LineReaders.

Variable read_lines : str -> result (list str).
Variable read_csv : str -> str -> pyval -> dict pyval -> result DataFrame.
Variable read_csv_buffer : str -> pyval -> dict pyval -> result DataFrame.
Variable read_json : str -> dict pyval -> result DataFrame.
Variable matrix : Type.
Variable n_rows : matrix -> nat.
Variable fit_transform : vectorizer_kind -> list cell -> result matrix.

Local Abbreviation Parse := (parse read_lines read_csv read_csv_buffer read_json).
Local Abbreviation Read :=
  (read read_lines read_csv read_csv_buffer read_json n_rows fit_transform).

(** The two passes of the line readers agree. When the first pass
    succeeds (identifiers kept as texts), the identifiers and the
    labels are the arrays [np.array] builds from the identifiers and
    the labels of the examples of the file, in the order of the file,
    and the feature mappings the second pass hands to the vectorizer
    are those of the same examples: the i-th identifier, label and
    mapping belong to the i-th example. The identifiers are the texts
    of the file, less the characters U+0000 that end them; the labels
    are converted to their common type, so that numbers among texts
    come back as texts. The second pass logs the warnings of the first
    pass once more. *)
Theorem sub_read_rows_parallel (self : Reader) (p : str) (w : list str)
  (ids labels : list pyval) (features : M (list cell)) :
  ids_to_floats self = false ->
  path_or_list self = Path p ->
  _sub_read_rows read_lines self (Path p) = (w, Ok (ids, labels, features)) ->
  exists f,
    read_lines p = Ok f
    /\ yielded (_sub_read_lines self f) <> []
    /\ ids = List.map (fun ex => PyStr (rstrip_nul (example_id ex)))
               (yielded (_sub_read_lines self f))
    /\ labels
       = np_array (List.map example_label (yielded (_sub_read_lines self f)))
    /\ features
       = (w, Ok (List.map (fun ex => Mapping (example_features ex))
                   (yielded (_sub_read_lines self f)))).
Proof.
  intros Hf Hp H. unfold _sub_read_rows in H.
  simpl path_of in H. rewrite bind_ret_l in H.
  apply bind_inv_ok in H as (w1 & f & w2 & Hl & H & ->).
  injection Hl as <- Hl.
  apply bind_inv_ok in H as (w3 & [ids' labels'] & w4 & H & Hr & ->).
  destruct (length ids' =? 0) eqn:E0; [discriminate|].
  injection Hr as <- <- <- <-.
  apply (ids_and_labels_texts _ _ Hf) in H as (Hd & -> & ->).
  exists f. split; [assumption|]. split; [|split; [|split]].
  - intros Hy. rewrite Hy in E0. discriminate.
  - rewrite <- (map_map example_id PyStr), np_array_texts, map_map.
    reflexivity.
  - reflexivity.
  - unfold feat_dict_generator. rewrite Hp. simpl path_of.
    rewrite bind_ret_l, Hl. unfold lift. rewrite (bind_ret_l f), Hd.
    simpl. rewrite !app_nil_r. reflexivity.
Qed.

(** With [ids_to_floats], the first identifier that does not read as a
    float stops [read] with the error on that identifier, naming the
    file: the example is not dropped and nothing is returned. *)
Theorem read_invalid_id (self : Reader) (p : str) (f : list str) (bad : str) :
  _use_pandas self = false ->
  path_or_list self = Path p ->
  read_lines p = Ok f ->
  ids_to_floats self = true ->
  first_bad_id (yielded (_sub_read_lines self f)) = Some bad ->
  snd (Read self) = Err (ValueError (InvalidId bad (Path p))).
Proof.
  intros Hu Hp Hl Hf Hb. unfold read, parse. rewrite Hu.
  apply bind_snd_err. unfold _sub_read_rows. rewrite Hp. simpl path_of.
  rewrite bind_ret_l, Hl. unfold lift. rewrite (bind_ret_l f).
  apply bind_snd_err. rewrite <- Hp.
  apply ids_and_labels_bad_id; assumption.
Qed.

(** A dataset that [read] returns is not empty, no two of its
    identifiers are equal, and it carries the source and the vectorizer
    of the reader. *)
Theorem read_result (self : Reader) (w : list str) (fs : FeatureSet matrix) :
  Read self = (w, Ok fs) ->
  0 < length (fs_ids fs)
  /\ all_distinct (fs_ids fs) = true
  /\ fs_name fs = path_or_list self
  /\ fs_vectorizer fs = vectorizer self.
Proof.
  intros H. unfold read in H.
  apply bind_inv_ok in H as (w1 & [[ids labels] features] & w2 & Hp & H & _).
  apply bind_inv_ok in H as (w3 & feats & w4 & Hf & H & _).
  apply bind_inv_ok in H as (w5 & X & w6 & HX & H & _).
  destruct ((length ids =? length labels) && (length labels =? n_rows X));
    [|discriminate].
  rewrite py_set_length in H.
  destruct (all_distinct ids) eqn:Hd; [|discriminate].
  injection H as _ <-. simpl.
  apply parse_counts in Hp as (N & _ & _ & _ & HN & Hi & _).
  repeat split; try assumption; try reflexivity. lia.
Qed.

End LineReaders.

Lemma sub_read_rows_parallel_witness :
  exists f,
    one_file [u "# a"; u "1 f1 2"; u "pos f1 3"] (u "t.megam") = Ok f
    /\ yielded (_sub_read_lines (reader_for (Path (u "t.megam")) no_kwargs) f) <> []
    /\ [PyStr (u "a"); PyStr (u "EXAMPLE_1")]
       = List.map (fun ex => PyStr (rstrip_nul (example_id ex)))
           (yielded (_sub_read_lines (reader_for (Path (u "t.megam")) no_kwargs) f))
    /\ [PyStr (u "1"); PyStr (u "pos")]
       = np_array
           (List.map example_label
              (yielded (_sub_read_lines
                          (reader_for (Path (u "t.megam")) no_kwargs) f)))
    /\ feat_dict_generator (one_file [u "# a"; u "1 f1 2"; u "pos f1 3"])
         (reader_for (Path (u "t.megam")) no_kwargs)
       = ([], Ok (List.map (fun ex => Mapping (example_features ex))
                    (yielded (_sub_read_lines
                                (reader_for (Path (u "t.megam")) no_kwargs) f)))).
Proof.
  apply (sub_read_rows_parallel
           (one_file [u "# a"; u "1 f1 2"; u "pos f1 3"])
           (reader_for (Path (u "t.megam")) no_kwargs)
           (p := u "t.megam")); reflexivity.
Defined.

Lemma read_invalid_id_witness :
  snd (read (one_file [u "# 7"; u "1 f1 2"; u "# seven"; u "0 f1 3"])
         no_csv no_buffer no_json rows_count rows_only
         (reader_for (Path (u "t.megam"))
            {| kw_quiet := None; kw_ids_to_floats := Some true;
               kw_label_col := None; kw_id_col := None; kw_class_map := None;
               kw_sparse := None; kw_feature_hasher := None;
               kw_num_features := None; kw_pandas_kwargs := None |}))
  = Err (ValueError (InvalidId (u "seven") (Path (u "t.megam")))).
Proof.
  apply (read_invalid_id
           (one_file [u "# 7"; u "1 f1 2"; u "# seven"; u "0 f1 3"])
           no_csv no_buffer no_json rows_count rows_only
           (reader_for (Path (u "t.megam"))
              {| kw_quiet := None; kw_ids_to_floats := Some true;
                 kw_label_col := None; kw_id_col := None; kw_class_map := None;
                 kw_sparse := None; kw_feature_hasher := None;
                 kw_num_features := None; kw_pandas_kwargs := None |})
           (p := u "t.megam")
           (f := [u "# 7"; u "1 f1 2"; u "# seven"; u "0 f1 3"]));
    reflexivity.
Defined.

Lemma read_result_witness :
  all_distinct [PyStr (u "A"); PyStr (u "B")] = true.
Proof.
  apply (read_result
           no_file (one_csv (two_rows "A" "B")) no_buffer no_json
           rows_count rows_only
           (reader_for (Path (u "train.csv")) no_kwargs)
           (w := [])
           (fs := {| fs_name := Path (u "train.csv");
                     fs_ids := [PyStr (u "A"); PyStr (u "B")];
                     fs_labels := [PyInt 1; PyInt 0];
                     fs_features := 2;
                     fs_vectorizer := DictVectorizer true |})).
  reflexivity.
Defined.

(** ** LibSVM: lines without a comment *)

Lemma star_hash_free (cls : char -> bool) (k : str -> option groups)
  (s : str) (g' : groups) :
  ~ In (ch "#") s -> star cls k s = Some g' ->
  exists s', ~ In (ch "#") s' /\ k s' = Some g'.
Proof.
  induction s as [|c s IH]; intros Hs H; simpl in H.
  - exists []. auto.
  - destruct (cls c).
    + destruct (star cls k s) as [g1|] eqn:E.
      * injection H as <-. apply IH; [simpl in Hs; tauto|reflexivity].
      * exists (c :: s). auto.
    + exists (c :: s). auto.
Qed.

(** On a text without a hash sign, a match of a guarded expression
    leaves the group [comments] unset. *)
Lemma rmatch_hash_free (whole : str) (r : regex) :
  hash_guarded r ->
  forall (s : str) (g : groups) (k : str -> groups -> option groups)
         (g' : groups),
    ~ In (ch "#") s ->
    dict_get g (u "comments") = None ->
    (forall s' g1 g2,
        ~ In (ch "#") s' -> dict_get g1 (u "comments") = None ->
        k s' g1 = Some g2 -> dict_get g2 (u "comments") = None) ->
    rmatch whole r s g k = Some g' ->
    dict_get g' (u "comments") = None.
Proof.
  induction 1 as [c|cls|cls| | |r1 r2 _ IH1 _ IH2|name r Hn _ IH|name r];
    intros s g k g' Hs Hg Hk H; cbn [rmatch] in H.
  - destruct s as [|x s]; [discriminate|].
    destruct (N.eqb x c); [|discriminate].
    eapply Hk; [|eassumption..]. simpl in Hs. tauto.
  - apply star_hash_free in H as (s' & Hs' & H); [|assumption].
    eapply Hk; eassumption.
  - destruct s as [|x s]; [discriminate|].
    destruct (cls x); [|discriminate].
    apply star_hash_free in H as (s' & Hs' & H); [|simpl in Hs; tauto].
    eapply Hk; eassumption.
  - destruct (length s =? length whole); [|discriminate].
    eapply Hk; eassumption.
  - destruct s as [|c [|c' s]]; try discriminate.
    + eapply Hk; eassumption.
    + destruct (N.eqb c 10); [|discriminate]. eapply Hk; eassumption.
  - eapply IH1; [eassumption..| |eassumption].
    intros s' g1 g2 Hs' Hg1 H'. eapply IH2; eassumption.
  - eapply IH; [eassumption..| |eassumption].
    intros s' g1 g2 Hs' Hg1 H'.
    eapply (Hk s' (dict_set g1 name _) g2); [assumption| |exact H'].
    rewrite dict_get_set_other by assumption. assumption.
  - destruct s as [|x s]; [eapply Hk; eassumption|].
    destruct (N.eqb_spec x (ch "#")) as [->|_]; [simpl in Hs; tauto|].
    eapply Hk; eassumption.
Qed.

Lemma search_from_hash_free (whole : str) (r : regex) (s : str) (g : groups) :
  hash_guarded r -> ~ In (ch "#") s ->
  search_from whole r s = Some g -> dict_get g (u "comments") = None.
Proof.
  intros Hr. induction s as [|c s IH]; intros Hs H; cbn [search_from] in H.
  - destruct (rmatch whole r [] [] (fun _ g0 => Some g0)) as [g1|] eqn:E;
      [|discriminate].
    injection H as <-.
    apply (@rmatch_hash_free whole r Hr [] [] (fun _ g0 => Some g0) g1 Hs
             eq_refl); [|exact E].
    intros s' g1' g2 _ Hg1 H'. congruence.
  - destruct (rmatch whole r (c :: s) [] (fun _ g0 => Some g0)) as [g1|] eqn:E.
    + injection H as <-.
      apply (@rmatch_hash_free whole r Hr (c :: s) [] (fun _ g0 => Some g0)
               g1 Hs eq_refl); [|exact E].
      intros s' g1' g2 _ Hg1 H'. congruence.
    + apply IH; [simpl in Hs; tauto|assumption].
Qed.

Lemma line_regex_guarded : hash_guarded line_regex.
Proof.
  unfold line_regex.
  repeat first [ apply hg_opt_hash
               | apply hg_seq
               | apply hg_group; [vm_compute; discriminate|]
               | constructor ].
Qed.

Lemma drop_while_in (p : char -> bool) (s : str) (x : char) :
  In x (drop_while p s) -> In x s.
Proof.
  induction s as [|c s IH]; simpl; [auto|].
  destruct (p c); [auto|]. simpl. auto.
Qed.

Lemma strip_in (s : str) (x : char) : In x (strip s) -> In x s.
Proof.
  unfold strip, rstrip, lstrip. intros H.
  apply in_rev, drop_while_in, in_rev, drop_while_in in H. assumption.
Qed.

Lemma line_without_hash (line : str) (m : groups) :
  ~ In (ch "#") line ->
  search line_regex (strip line) = Some m -> group m "comments" = None.
Proof.
  intros Hl H. unfold group. unfold search in H.
  eapply search_from_hash_free; [apply line_regex_guarded| |eassumption].
  intros Hin. apply Hl. eapply strip_in. eassumption.
Qed.

(** A LibSVM file whose first line carries no hash sign is not read: the
    line is refused as malformed, or else the names of the label map
    and the feature map are read before they are assigned. *)
Theorem LibSVM_first_line_without_comment (self : Reader) (line : str)
  (f : list str) :
  ~ In (ch "#") line ->
  LibSVM_sub_read self (line :: f) = Raise [] (ValueError (MalformedLine line))
  \/ LibSVM_sub_read self (line :: f)
     = Raise [] (UnboundLocalError (u "label_map")).
Proof.
  intros Hl. unfold LibSVM_sub_read. cbn [LibSVM_loop]. unfold libsvm_line.
  destruct (search line_regex (strip line)) as [m|] eqn:E; [|left; reflexivity].
  rewrite (line_without_hash line Hl E). rewrite bind_ret_l. right. reflexivity.
Qed.

Lemma LibSVM_first_line_without_comment_witness :
  LibSVM_sub_read (Reader_init LibSVMReader (Path (u "a.libsvm")) no_kwargs)
    [u "1 1:0.5 2:1"; u "0 1:2"]
  = Raise [] (ValueError (MalformedLine (u "1 1:0.5 2:1")))
  \/ LibSVM_sub_read (Reader_init LibSVMReader (Path (u "a.libsvm")) no_kwargs)
       [u "1 1:0.5 2:1"; u "0 1:2"]
     = Raise [] (UnboundLocalError (u "label_map")).
Proof.
  apply (LibSVM_first_line_without_comment
           (Reader_init LibSVMReader (Path (u "a.libsvm")) no_kwargs)
           (u "1 1:0.5 2:1") [u "0 1:2"]).
  vm_compute. intuition discriminate.
Defined.

Lemma pair_to_tuple_silent (pair : str) (feat_map : option (dict str)) :
  fst (_pair_to_tuple pair feat_map) = [].
Proof.
  unfold _pair_to_tuple, unpack2.
  destruct (split_on (ch ":") pair) as [|a [|b [|c l]]]; try reflexivity.
  rewrite bind_ret_l. unfold getitem.
  destruct feat_map as [fm|].
  - destruct (dict_get fm a) as [name|]; [|reflexivity].
    rewrite bind_ret_l, safe_float_no_map, bind_ret_l. reflexivity.
  - rewrite bind_ret_l, safe_float_no_map, bind_ret_l. reflexivity.
Qed.

Lemma mapM_silent {A B} (f : A -> M B) (l : list A) :
  (forall a, fst (f a) = []) -> fst (mapM f l) = [].
Proof.
  intros Hf. induction l as [|a l IH]; [reflexivity|].
  cbn [mapM]. specialize (Hf a).
  destruct (f a) as [w1 [b|e]]; simpl in Hf; subst w1; [|reflexivity].
  rewrite bind_ok. simpl.
  destruct (mapM f l) as [w2 [bs|e]]; simpl in IH; subst w2; reflexivity.
Qed.

(** A line without a hash sign that comes after a line with a comment
    is read with the label map and the feature map of that earlier
    line. Its label is the name the left-over label map gives to the
    class number of the line (the class number itself when the map is
    missing or empty), put through [safe_float] with the class map of
    the reader; its features are those of the pairs of the line, each
    named through the left-over feature map by [_pair_to_tuple]. The
    maps are left as they are, and the identifier is EXAMPLE_<index of
    the line>. *)
Theorem LibSVM_line_without_comment (self : Reader) (example_num : nat)
  (feat_map label_map : option (dict str)) (line : str) (w : list str)
  (ex : example) (maps : name_maps) :
  ~ In (ch "#") line ->
  libsvm_line self example_num (Some (feat_map, label_map)) line
  = (w, Ok (ex, maps)) ->
  maps = Some (feat_map, label_map)
  /\ example_id ex = EXAMPLE_ example_num
  /\ exists m class_name pairs,
       search line_regex (strip line) = Some m
       /\ match label_map with
          | Some lm =>
              if nonempty lm
              then dict_get lm (default (group m "label_num") [])
                   = Some class_name
              else class_name = default (group m "label_num") []
          | None => class_name = default (group m "label_num") []
          end
       /\ safe_float (PyStr class_name) (class_map self)
          = (w, Ok (example_label ex))
       /\ mapM (fun pair => _pair_to_tuple pair feat_map)
               (split (strip (default (group m "features") [])))
          = ([], Ok pairs)
       /\ example_features ex = dict_of pairs.
Proof.
  intros Hl H. unfold libsvm_line in H.
  destruct (search line_regex (strip line)) as [m|] eqn:E; [|discriminate].
  rewrite (line_without_hash line Hl E), bind_ret_l in H. cbv iota beta in H.
  apply bind_inv_ok in H as (w1 & c1 & w2 & H1 & H & ->).
  apply bind_inv_ok in H as (w3 & c2 & w4 & H2 & H & ->).
  apply bind_inv_ok in H as (w5 & pairs & w6 & H3 & H & ->).
  injection H as <- <- <-.
  assert (W5 : w5 = []).
  { pose proof (mapM_silent (fun pair => _pair_to_tuple pair feat_map)
                  (split (strip (default (group m "features") [])))
                  (fun pair => pair_to_tuple_silent pair feat_map)) as Hs.
    rewrite H3 in Hs. exact Hs. }
  subst w5.
  assert (W1 : w1 = []
               /\ match label_map with
                  | Some lm =>
                      if nonempty lm
                      then dict_get lm (default (group m "label_num") [])
                           = Some c1
                      else c1 = default (group m "label_num") []
                  | None => c1 = default (group m "label_num") []
                  end).
  { destruct label_map as [lm|].
    - destruct (nonempty lm).
      + unfold getitem in H1.
        destruct (dict_get lm (default (group m "label_num") []));
          [|discriminate].
        injection H1 as <- <-. auto.
      + injection H1 as <- <-. auto.
    - injection H1 as <- <-. auto. }
  destruct W1 as [-> W1].
  split; [reflexivity|]. split; [reflexivity|].
  exists m, c1, pairs. rewrite !app_nil_r. simpl app.
  repeat split; assumption.
Qed.

Lemma LibSVM_line_without_comment_witness :
  Some (Some [(u "1", u "f1")], Some [(u "2", u "neg")])
  = Some (Some [(u "1", u "f1")], Some [(u "2", u "neg")])
  /\ example_id (u "EXAMPLE_3", PyStr (u "neg"), [(u "f1", PyInt 5)])
     = EXAMPLE_ 3
  /\ exists m class_name pairs,
       search line_regex (strip (u "2 1:5")) = Some m
       /\ dict_get [(u "2", u "neg")] (default (group m "label_num") [])
          = Some class_name
       /\ safe_float (PyStr class_name) None
          = ([], Ok (PyStr (u "neg")))
       /\ mapM (fun pair => _pair_to_tuple pair (Some [(u "1", u "f1")]))
               (split (strip (default (group m "features") [])))
          = ([], Ok pairs)
       /\ [(u "f1", PyInt 5)] = dict_of pairs.
Proof.
  apply (@LibSVM_line_without_comment
           (Reader_init LibSVMReader (Path (u "a.libsvm")) no_kwargs) 3
           (Some [(u "1", u "f1")]) (Some [(u "2", u "neg")])
           (u "2 1:5") []
           (u "EXAMPLE_3", PyStr (u "neg"), [(u "f1", PyInt 5)])
           (Some (Some [(u "1", u "f1")], Some [(u "2", u "neg")]))).
  - vm_compute. intuition discriminate.
  - reflexivity.
Defined.

(** ** Lists of records *)

Lemma add_keys_in (r : record) (acc : list str) (k : str) :
  In k (fold_left
          (fun acc (kv : str * cell) =>
             if existsb (str_eqb (fst kv)) acc then acc else acc ++ [fst kv])
          r acc) ->
  In k acc \/ In k (List.map fst r).
Proof.
  revert acc; induction r as [|[k0 v0] r IH]; intros acc H; simpl in *;
    [auto|].
  apply IH in H as [H|H]; [|auto].
  destruct (existsb (str_eqb k0) acc); [auto|].
  apply in_app_or in H as [H|[H|[]]]; auto.
Qed.

Lemma add_keys_nonempty (r : record) (acc : list str) :
  nonempty
    (fold_left
       (fun acc (kv : str * cell) =>
          if existsb (str_eqb (fst kv)) acc then acc else acc ++ [fst kv])
       r acc)
  = nonempty acc || nonempty r.
Proof.
  revert acc; induction r as [|[k0 v0] r IH]; intros acc; simpl.
  - rewrite orb_false_r. reflexivity.
  - rewrite IH. destruct (existsb (str_eqb k0) acc) eqn:E.
    + destruct acc; [discriminate|reflexivity].
    + destruct acc; simpl; rewrite ?orb_true_r; reflexivity.
Qed.

Lemma record_keys_from_in (l : list record) (acc : list str) (k : str) :
  In k (fold_left
          (fun acc (r : record) =>
             fold_left
               (fun acc (kv : str * cell) =>
                  if existsb (str_eqb (fst kv)) acc then acc
                  else acc ++ [fst kv])
               r acc)
          l acc) ->
  In k acc \/ exists r, In r l /\ In k (List.map fst r).
Proof.
  revert acc; induction l as [|r l IH]; intros acc H; simpl in *; [auto|].
  apply IH in H as [H|(r' & Hr & H)].
  - apply add_keys_in in H as [H|H]; eauto.
  - eauto.
Qed.

Lemma record_keys_from_nonempty (l : list record) (acc : list str) :
  nonempty
    (fold_left
       (fun acc (r : record) =>
          fold_left
            (fun acc (kv : str * cell) =>
               if existsb (str_eqb (fst kv)) acc then acc
               else acc ++ [fst kv])
            r acc)
       l acc)
  = nonempty acc || existsb nonempty l.
Proof.
  revert acc; induction l as [|r l IH]; intros acc; simpl.
  - rewrite orb_false_r. reflexivity.
  - rewrite IH, add_keys_nonempty, orb_assoc. reflexivity.
Qed.

Lemma dict_get_in_keys {V} (d : dict V) (k : str) :
  In k (List.map fst d) -> dict_get d k <> None.
Proof.
  induction d as [|[k' v] d IH]; simpl; [tauto|].
  intros [->|H].
  - rewrite str_eqb_refl. discriminate.
  - destruct (str_eqb k' k); [discriminate|auto].
Qed.

Lemma index_of_absent (name : str) (keys : list str) :
  ~ In name keys -> index_of name (List.map PyStr keys) = None.
Proof.
  induction keys as [|k keys IH]; simpl; [reflexivity|]. intros H.
  rewrite py_eqb_str.
  destruct (str_eqb_spec name k) as [->|_]; [tauto|].
  rewrite IH by tauto. reflexivity.
Qed.

Lemma pd_DataFrame_empty (l : list record) :
  df_empty (pd_DataFrame l) = negb (existsb nonempty l).
Proof.
  unfold df_empty, pd_DataFrame, record_keys. simpl.
  assert (Hc : forall A B (f : A -> B) (x : list A),
             nonempty (List.map f x) = nonempty x)
    by (intros A B f [|]; reflexivity).
  rewrite !Hc, record_keys_from_nonempty. simpl.
  destruct l as [|r l]; [reflexivity|]. simpl.
  rewrite orb_false_r. reflexivity.
Qed.

(** A list of records none of which has the key [x], given to a
    reader that has no option to pass on to pandas: when the records
    have no key at all the list counts as empty input; otherwise the
    reader fails on the missing column, with a [KeyError]. *)
Theorem DictList_without_features (self : Reader) (l : list record) :
  _pandas_kwargs self = [] ->
  (forall r, In r l -> dict_get r (u "x") = None) ->
  DictList_sub_read self l
  = raise (if existsb nonempty l then KeyError (u "x")
           else ValueError (EmptyInput (path_or_list self))).
Proof.
  intros _ H. unfold DictList_sub_read.
  rewrite pd_DataFrame_empty.
  destruct (existsb nonempty l) eqn:E; simpl negb; cbv iota.
  - unfold df_getitem. simpl columns. rewrite index_of_absent; [reflexivity|].
    intros Hin. apply record_keys_from_in in Hin as [[]|(r & Hr & Hk)].
    apply dict_get_in_keys in Hk. apply Hk, H. assumption.
  - apply parse_dataframe_empty. rewrite pd_DataFrame_empty, E. reflexivity.
Qed.

Lemma DictList_without_features_witness :
  DictList_sub_read (reader_for (Records []) no_kwargs)
    [[(u "id", Scalar (PyStr (u "a"))); (u "y", Scalar (PyInt 1))]]
  = raise (KeyError (u "x"))
  /\ DictList_sub_read (reader_for (Records []) no_kwargs) [[]; []]
     = raise (ValueError (EmptyInput (Records []))).
Proof.
  split.
  - apply (DictList_without_features (reader_for (Records []) no_kwargs)
             [[(u "id", Scalar (PyStr (u "a"))); (u "y", Scalar (PyInt 1))]]).
    + reflexivity.
    + intros r [<-|[]]. reflexivity.
  - apply (DictList_without_features (reader_for (Records []) no_kwargs)
             [[]; []]).
    + reflexivity.
    + intros r [<-|[<-|[]]]; reflexivity.
Defined.

(** ** [skll.logutils] *)

Lemma removeHandler_at (a : handler) (kept t : list handler) :
  ~ In (h_id a) (List.map h_id kept) ->
  removeHandler a (kept ++ a :: t) = kept ++ t.
Proof.
  induction kept as [|x kept IH]; simpl; intros H.
  - rewrite Nat.eqb_refl. reflexivity.
  - destruct (Nat.eqb_spec (h_id x) (h_id a)) as [E|_]; [tauto|].
    rewrite IH by tauto. reflexivity.
Qed.

Lemma nth_error_middle {A} (kept : list A) (a : A) (t : list A) :
  nth_error (kept ++ a :: t) (length kept) = Some a.
Proof. induction kept; simpl; auto. Qed.

Lemma nth_error_past {A} (l : list A) (n : nat) :
  length l <= n -> nth_error l n = None.
Proof. apply nth_error_None. Qed.

Lemma close_loop_positions (fuel : nat) :
  forall kept rest closed : list handler,
    length rest <= fuel ->
    NoDup (List.map h_id (kept ++ rest)) ->
    close_loop fuel (length kept) (kept ++ rest) closed
    = (kept ++ odd_positions rest,
       closed ++ List.map close (even_positions rest)).
Proof.
  induction fuel as [|fuel IH]; intros kept rest closed Hl Hn.
  - destruct rest; [|simpl in Hl; lia]. simpl. rewrite !app_nil_r.
    reflexivity.
  - destruct rest as [|a [|b t]].
    + simpl app. cbn [close_loop]. rewrite app_nil_r.
      rewrite nth_error_past by lia. simpl. rewrite app_nil_r. reflexivity.
    + cbn [close_loop]. rewrite nth_error_middle, removeHandler_at.
      * simpl odd_positions. simpl even_positions. simpl List.map.
        rewrite !app_nil_r.
        destruct fuel; cbn [close_loop]; [reflexivity|].
        rewrite nth_error_past by lia. reflexivity.
      * rewrite map_app in Hn. simpl in Hn. apply NoDup_remove_2 in Hn.
        rewrite app_nil_r in Hn. assumption.
    + cbn [close_loop]. rewrite nth_error_middle, removeHandler_at.
      * replace (kept ++ b :: t) with ((kept ++ [b]) ++ t)
          by (rewrite <- app_assoc; reflexivity).
        replace (S (length kept)) with (length (kept ++ [b]))
          by (rewrite length_app; simpl; lia).
        rewrite IH.
        -- simpl. rewrite <- !app_assoc. reflexivity.
        -- simpl in Hl. lia.
        -- rewrite <- app_assoc. simpl.
           rewrite map_app in Hn. simpl in Hn. apply NoDup_remove_1 in Hn.
           rewrite map_app. simpl. assumption.
      * rewrite map_app in Hn. simpl in Hn. apply NoDup_remove_2 in Hn.
        rewrite in_app_iff in Hn. tauto.
Qed.

(** [close_and_remove_logger_handlers] takes the handlers out of the
    list it is iterating over: it closes and removes the handlers at
    the positions 0, 2, 4, ... and leaves the handlers at the positions
    1, 3, 5, ... on the logger, open. More rounds would change nothing:
    the loop has ended. A logger is left without handlers only if it
    had one at most. *)
Theorem close_and_remove_every_other (handlers : list handler) :
  NoDup (List.map h_id handlers) ->
  close_and_remove_logger_handlers handlers
  = (odd_positions handlers, List.map close (even_positions handlers))
  /\ (forall fuel, length handlers <= fuel ->
        close_loop fuel 0 handlers [] = close_and_remove_logger_handlers handlers)
  /\ (fst (close_and_remove_logger_handlers handlers) = []
      <-> length handlers <= 1).
Proof.
  intros Hn.
  assert (E : forall fuel, length handlers <= fuel ->
                close_loop fuel 0 handlers []
                = (odd_positions handlers,
                   List.map close (even_positions handlers))).
  { intros fuel Hf. apply (@close_loop_positions fuel [] handlers [] Hf Hn). }
  unfold close_and_remove_logger_handlers.
  rewrite (E (length handlers)) by lia.
  split; [reflexivity|]. split; [exact E|]. simpl.
  destruct handlers as [|a [|b t]]; simpl; split; intros H;
    try reflexivity; try lia; discriminate.
Qed.

Lemma close_and_remove_every_other_witness :
  close_and_remove_logger_handlers
    [ {| h_id := 1; h_is_FileHandler := true; h_stream := Some (u "/a.log") |};
      {| h_id := 2; h_is_FileHandler := false; h_stream := None |};
      {| h_id := 3; h_is_FileHandler := true; h_stream := Some (u "/b.log") |} ]
  = ([ {| h_id := 2; h_is_FileHandler := false; h_stream := None |} ],
     [ {| h_id := 1; h_is_FileHandler := true; h_stream := None |};
       {| h_id := 3; h_is_FileHandler := true; h_stream := None |} ]).
Proof.
  refine (proj1 (@close_and_remove_every_other
                   [ {| h_id := 1; h_is_FileHandler := true;
                        h_stream := Some (u "/a.log") |};
                     {| h_id := 2; h_is_FileHandler := false;
                        h_stream := None |};
                     {| h_id := 3; h_is_FileHandler := true;
                        h_stream := Some (u "/b.log") |} ] _)).
  simpl. repeat (constructor; [simpl; lia|]). constructor.
Defined.

Lemma dict_set_set {V} (d : dict V) (k : str) (v v' : V) :
  dict_set (dict_set d k v) k v' = dict_set d k v'.
Proof.
  induction d as [|[k0 v0] d IH]; simpl.
  - rewrite str_eqb_refl. reflexivity.
  - destruct (str_eqb k0 k) eqn:E; simpl; rewrite E; [reflexivity|].
    rewrite IH. reflexivity.
Qed.

Lemma file_handler_flags_app (filepath : str) (hs : list handler)
  (h : handler) (flags : list bool) (b : bool) :
  file_handler_flags filepath hs = Returns flags ->
  is_file_handler filepath h = Returns b ->
  file_handler_flags filepath (hs ++ [h]) = Returns (flags ++ [b]).
Proof.
  revert flags; induction hs as [|x hs IH]; intros flags H Hb; simpl in *.
  - injection H as <-. rewrite Hb. reflexivity.
  - destruct (is_file_handler filepath x) as [bx|]; [|discriminate].
    destruct (file_handler_flags filepath hs) as [bs|]; [|discriminate].
    injection H as <-. rewrite (IH bs eq_refl Hb). reflexivity.
Qed.

Section LogutilsFacts.

Variable abspath : str -> str.

(** With a path that [os.path.abspath] gives back as it is (an
    absolute path in normal form; an absolute path that holds [.],
    [..] or a doubled separator is not one), or without a path, a
    second call of [get_skll_logger] with the same name and path
    changes nothing: the logger keeps its handlers, no handler is added
    and the file is not opened (and emptied) again. *)
Theorem get_skll_logger_again (name : str) (filepath : option str)
  (st st1 : logging) :
  match filepath with
  | Some fp => abspath fp = fp
  | None => True
  end ->
  get_skll_logger abspath name filepath st = Returns st1 ->
  get_skll_logger abspath name filepath st1 = Returns st1.
Proof.
  intros Ha H. unfold get_skll_logger in *.
  destruct filepath as [[|c fp]|].
  - injection H as <-. simpl. rewrite dict_get_set_same, dict_set_set.
    reflexivity.
  - destruct (file_handler_flags (c :: fp)
                (default (dict_get (loggers st) name) [])) as [flags|] eqn:E;
      [|discriminate].
    destruct (existsb (fun b => b) flags) eqn:Ex; simpl negb in H;
      cbv iota in H; injection H as <-; simpl;
      rewrite dict_get_set_same, dict_set_set; simpl default.
    + rewrite E, Ex. simpl negb. cbv iota. rewrite ?dict_set_set.
      reflexivity.
    + rewrite (@file_handler_flags_app _ _ _ flags true E).
      * rewrite existsb_app. simpl existsb. rewrite Ex. simpl negb.
        cbv iota. rewrite ?dict_set_set. reflexivity.
      * unfold is_file_handler. simpl. rewrite Ha, str_eqb_refl. reflexivity.
  - injection H as <-. simpl. rewrite dict_get_set_same, dict_set_set.
    reflexivity.
Qed.

(** With a path that is not absolute, and a logger that has no file
    handler whose stream is named by that path, every call of
    [get_skll_logger] adds a file handler and opens the file again: the
    test compares the name of the stream, an absolute path, with the
    path as given. *)
Theorem get_skll_logger_relative_path (name : str) (c : char) (fp : str)
  (st st1 st2 : logging) (hs : list handler) :
  abspath (c :: fp) <> c :: fp ->
  dict_get (loggers st) name = Some hs ->
  (forall h, In h hs -> is_file_handler (c :: fp) h = Returns false) ->
  get_skll_logger abspath name (Some (c :: fp)) st = Returns st1 ->
  get_skll_logger abspath name (Some (c :: fp)) st1 = Returns st2 ->
  dict_get (loggers st2) name
  = Some (hs ++ [ {| h_id := next_id st; h_is_FileHandler := true;
                     h_stream := Some (abspath (c :: fp)) |};
                  {| h_id := S (next_id st); h_is_FileHandler := true;
                     h_stream := Some (abspath (c :: fp)) |} ])
  /\ opened st2 = opened st ++ [abspath (c :: fp); abspath (c :: fp)].
Proof.
  intros Ha Hd Hh H1 H2. unfold get_skll_logger in *.
  rewrite Hd in H1. simpl default in H1.
  assert (Hf : forall l, (forall h, In h l -> is_file_handler (c :: fp) h
                                              = Returns false) ->
               file_handler_flags (c :: fp) l
               = Returns (repeat false (length l))).
  { induction l as [|x l IH]; intros Hl; simpl; [reflexivity|].
    rewrite (Hl x) by (simpl; auto). rewrite IH by (simpl in *; auto).
    reflexivity. }
  assert (He : forall n, existsb (fun b : bool => b) (repeat false n) = false)
    by (induction n; simpl; auto).
  rewrite (Hf hs Hh), He in H1. simpl negb in H1. cbv iota in H1.
  injection H1 as <-. simpl in H2. rewrite dict_get_set_same in H2.
  simpl default in H2.
  assert (Hh' : forall h,
             In h (hs ++ [ {| h_id := next_id st; h_is_FileHandler := true;
                              h_stream := Some (abspath (c :: fp)) |} ]) ->
             is_file_handler (c :: fp) h = Returns false).
  { intros h Hin. apply in_app_or in Hin as [Hin|[<-|[]]]; [auto|].
    unfold is_file_handler. simpl h_is_FileHandler. simpl h_stream.
    cbv iota. f_equal. apply not_true_iff_false. intros Eq.
    apply str_eqb_eq in Eq. contradiction. }
  rewrite (Hf _ Hh'), He in H2. simpl negb in H2. cbv iota in H2.
  injection H2 as <-. simpl. rewrite dict_get_set_same, <- !app_assoc.
  auto.
Qed.

End LogutilsFacts.

Lemma get_skll_logger_again_witness :
  get_skll_logger (fun p => p) (u "skll") (Some (u "/tmp/run.log"))
    {| loggers :=
         [(u "skll", [ {| h_id := 0; h_is_FileHandler := true;
                          h_stream := Some (u "/tmp/run.log") |} ])];
       next_id := 1; showwarning := Some (u "skll");
       opened := [u "/tmp/run.log"] |}
  = Returns
      {| loggers :=
           [(u "skll", [ {| h_id := 0; h_is_FileHandler := true;
                            h_stream := Some (u "/tmp/run.log") |} ])];
         next_id := 1; showwarning := Some (u "skll");
         opened := [u "/tmp/run.log"] |}.
Proof.
  apply (@get_skll_logger_again (fun p => p) (u "skll")
           (Some (u "/tmp/run.log"))
           {| loggers := []; next_id := 0; showwarning := None;
              opened := [] |});
    reflexivity.
Defined.

Lemma get_skll_logger_relative_path_witness :
  opened
    {| loggers :=
         [(u "skll", [ {| h_id := 0; h_is_FileHandler := true;
                          h_stream := Some (u "/run.log") |};
                       {| h_id := 1; h_is_FileHandler := true;
                          h_stream := Some (u "/run.log") |} ])];
       next_id := 2; showwarning := Some (u "skll");
       opened := [u "/run.log"; u "/run.log"] |}
  = [] ++ [u "/run.log"; u "/run.log"].
Proof.
  refine (proj2
            (@get_skll_logger_relative_path
               (fun p => ch "/" :: p) (u "skll") (ch "r") (u "un.log")
               {| loggers := [(u "skll", [])]; next_id := 0;
                  showwarning := None; opened := [] |}
               {| loggers :=
                    [(u "skll", [ {| h_id := 0; h_is_FileHandler := true;
                                     h_stream := Some (u "/run.log") |} ])];
                  next_id := 1; showwarning := Some (u "skll");
                  opened := [u "/run.log"] |}
               _ [] _ _ _ _ _)).
  - vm_compute. discriminate.
  - reflexivity.
  - intros h [].
  - reflexivity.
  - reflexivity.
Defined.


(** ** ARFF: the data marker *)

Lemma list_index_none (x : str) (l : list str) :
  (forall y, In y l -> str_eqb y x = false) -> list_index x l = None.
Proof.
  induction l as [|y l IH]; intros H; simpl; [reflexivity|].
  rewrite (H y) by (simpl; auto). rewrite IH by (simpl in *; auto).
  reflexivity.
Qed.

(** An ARFF file that has no line equal to [@data], once the white
    space around it is taken off, is refused with the [ValueError] of
    [list.index], before pandas is called; the comparison is exact, so
    a marker in capitals is not seen. *)
Theorem ARFF_without_data_line
  (read_lines : str -> result (list str))
  (read_csv_buffer : str -> pyval -> dict pyval -> result DataFrame)
  (self : Reader) (p : str) (buff : list str) :
  read_lines p = Ok buff ->
  (forall line, In line buff -> str_eqb (strip line) (u "@data") = false) ->
  ARFF_sub_read read_lines read_csv_buffer self (Path p)
  = raise (ValueError Builtin).
Proof.
  intros Hf Hl. unfold ARFF_sub_read, ARFF_table, path_of.
  rewrite (bind_ret_l p), Hf.
  change (lift (Ok buff)) with (ret buff). rewrite (bind_ret_l buff).
  rewrite list_index_none; [reflexivity|].
  intros y Hy. apply in_map_iff in Hy as [line [<- Hin]].
  apply filter_In in Hin as [Hin _]. auto.
Qed.

Lemma ARFF_without_data_line_witness :
  ARFF_sub_read
    (one_file [u "@relation r"; u "@attribute f1 numeric"; u "@DATA";
               u "1.0"])
    no_buffer (reader_for (Path (u "train.arff")) no_kwargs)
    (Path (u "train.arff"))
  = raise (ValueError Builtin).
Proof.
  apply (@ARFF_without_data_line
           (one_file [u "@relation r"; u "@attribute f1 numeric"; u "@DATA";
                      u "1.0"])
           no_buffer (reader_for (Path (u "train.arff")) no_kwargs)
           (u "train.arff")
           [u "@relation r"; u "@attribute f1 numeric"; u "@DATA"; u "1.0"]).
  - reflexivity.
  - intros line Hin. simpl in Hin.
    repeat (destruct Hin as [<-|Hin]; [vm_compute; reflexivity|]).
    destruct Hin.
Defined.
